(** * Queued-motion chassis, wheel goal tracker and simulated robot

    A shallow embedding of [chassis.py], [devices.py], [mock_robot.py] and
    the class [Hand] of [peripherals.py].

    Conventions of the embedding.
    - A Python [float] is modelled by a real number ([R]): arithmetic is exact,
      there is no rounding, no infinity and no NaN.  A Python [int] is a [Z].
      The tag that tells an [int] from a [float] is kept in [pyval], because
      [MockRobot.set_value] branches on it.  The model has no
      [OverflowError]: [float_range] and [float_square] name the numbers on
      which Python raises none and a statement holds of the floats as it
      holds of the reals.
    - A method is a computation in the monad [M S A := S -> Res A * S]: it
      returns a value or raises, and the state it leaves behind is kept in both
      cases, as an exception in Python does not undo earlier assignments.
    - [time.time()] is an oracle: [clock n] is the value returned by the
      [n]-th call, and the state counts the calls made so far. *)

From stdpp Require Import gmap strings list fin_maps.
From Stdlib Require Import Reals Lra Lia ZArith Machin.

Open Scope string_scope.

(* ===================================================================== *)
(** ** Python values, exceptions and the state-and-exception monad *)
(* ===================================================================== *)

Inductive exn : Set :=
  | AttributeError
  | IndexError
  | KeyError
  | NotImplementedError
  | TypeError
  | UnboundLocalError
  | ValueError
  | ZeroDivisionError.

Inductive Res (A : Type) : Type :=
  | Ok (a : A)
  | Raise (e : exn).
Arguments Ok {A} a.
Arguments Raise {A} e.

Definition M (S A : Type) : Type := S -> Res A * S.

Definition ret {S A : Type} (a : A) : M S A := fun s => (Ok a, s).

Definition bind {S A B : Type} (m : M S A) (k : A -> M S B) : M S B :=
  fun s => match m s with
           | (Ok a, s') => k a s'
           | (Raise e, s') => (Raise e, s')
           end.

Definition raise {S A : Type} (e : exn) : M S A := fun s => (Raise e, s).

Definition get {S : Type} : M S S := fun s => (Ok s, s).

Definition modify {S : Type} (f : S -> S) : M S unit := fun s => (Ok tt, f s).

(** A pure computation that may raise, run inside a method. *)
Definition lift {S A : Type} (r : Res A) : M S A := fun s => (r, s).

(** Run a method of a component object on the part of the state it owns. *)
Definition zoom {S T A : Type} (proj : T -> S) (upd : S -> T -> T)
    (m : M S A) : M T A :=
  fun t => let (r, s') := m (proj t) in (r, upd s' t).

Declare Scope py_scope.
Delimit Scope py_scope with py.
Notation "x <- m ;; k" := (bind m (fun x => k))
  (at level 100, m at next level, right associativity) : py_scope.
Notation "m ;; k" := (bind m (fun _ => k))
  (at level 100, right associativity) : py_scope.
Open Scope py_scope.

#[global] Instance R_eq_dec : EqDecision R := Req_dec_T.
#[global] Instance Rlt_decision (x y : R) : Decision (x < y)%R := Rlt_dec x y.
#[global] Instance Rle_decision (x y : R) : Decision (x <= y)%R := Rle_dec x y.

Inductive pyval : Type :=
  | PNone
  | PBool (b : bool)
  | PInt (z : Z)
  | PFloat (x : R).

Inductive pytype : Set := NoneType | BoolType | IntType | FloatType.

#[global] Instance pytype_eq_dec : EqDecision pytype.
Proof. solve_decision. Defined.

Definition type_of (v : pyval) : pytype :=
  match v with
  | PNone => NoneType
  | PBool _ => BoolType
  | PInt _ => IntType
  | PFloat _ => FloatType
  end.

(** The value of an operand of integer kind ([bool] is a subclass of [int]). *)
Definition int_val (v : pyval) : option Z :=
  match v with
  | PBool b => Some (if b then 1 else 0)%Z
  | PInt z => Some z
  | _ => None
  end.

(** The numeric value of an operand; [None] has none. *)
Definition num_val (v : pyval) : option R :=
  match v with
  | PNone => None
  | PBool b => Some (if b then 1 else 0)%R
  | PInt z => Some (IZR z)
  | PFloat x => Some x
  end.

(** [+], [-] and [*]: integer when both operands are, float otherwise. *)
Definition arith (fz : Z -> Z -> Z) (fr : R -> R -> R) (a b : pyval)
    : Res pyval :=
  match int_val a, int_val b with
  | Some x, Some y => Ok (PInt (fz x y))
  | _, _ =>
      match num_val a, num_val b with
      | Some x, Some y => Ok (PFloat (fr x y))
      | _, _ => Raise TypeError
      end
  end.

Definition py_add : pyval -> pyval -> Res pyval := arith Z.add Rplus.
Definition py_sub : pyval -> pyval -> Res pyval := arith Z.sub Rminus.
Definition py_mul : pyval -> pyval -> Res pyval := arith Z.mul Rmult.

(** True division [/]: always a float, raises on a zero divisor. *)
Definition py_truediv (a b : pyval) : Res pyval :=
  match num_val a, num_val b with
  | Some x, Some y =>
      if decide (y = 0%R) then Raise ZeroDivisionError
      else Ok (PFloat (x / y))
  | _, _ => Raise TypeError
  end.

(** Division of two floats. *)
Definition fdiv (x y : R) : Res R :=
  if decide (y = 0%R) then Raise ZeroDivisionError else Ok (x / y)%R.

Definition py_abs (a : pyval) : Res pyval :=
  match a with
  | PNone => Raise TypeError
  | PBool b => Ok (PInt (if b then 1 else 0))
  | PInt z => Ok (PInt (Z.abs z))
  | PFloat x => Ok (PFloat (Rabs x))
  end.

(** [a == b] on the values of the model. *)
Definition py_eq (a b : pyval) : bool :=
  match num_val a, num_val b with
  | Some x, Some y => bool_decide (x = y)
  | None, None => true
  | _, _ => false
  end.

Definition py_gt (a b : pyval) : Res bool :=
  match num_val a, num_val b with
  | Some x, Some y => Ok (bool_decide (y < x)%R)
  | _, _ => Raise TypeError
  end.

Definition py_ge (a b : pyval) : Res bool :=
  match num_val a, num_val b with
  | Some x, Some y => Ok (bool_decide (y <= x)%R)
  | _, _ => Raise TypeError
  end.

Definition py_lt (a b : pyval) : Res bool :=
  match num_val a, num_val b with
  | Some x, Some y => Ok (bool_decide (x < y)%R)
  | _, _ => Raise TypeError
  end.

(** [min(a, b)]: the second argument only when it is strictly smaller. *)
Definition py_min (a b : pyval) : Res pyval :=
  match py_lt b a with
  | Ok true => Ok b
  | Ok false => Ok a
  | Raise e => Raise e
  end.

(** [math.ceil]: the least integer not below [x]. *)
Definition math_ceil (x : R) : Z := (- Int_part (- x))%Z.

(** [math.copysign(x, y)]: the magnitude of [x] with the sign of [y]; the
    reals have a single zero, whose sign is positive. *)
Definition math_copysign (x y : R) : R :=
  if decide (y < 0)%R then (- Rabs x)%R else Rabs x.

Definition math_pi : R := PI.

(** [math.sqrt]: a negative argument is a domain error. *)
Definition math_sqrt (x : R) : Res R :=
  if decide (x < 0)%R then Raise ValueError else Ok (sqrt x).

(** Truth value of an object in a condition. *)
Definition py_truthy (v : pyval) : bool :=
  match v with
  | PNone => false
  | PBool b => b
  | PInt z => negb (z =? 0)%Z
  | PFloat x => negb (bool_decide (x = 0%R))
  end.

(** Reading an attribute held in a slot: a slot that was never assigned
    raises. *)
Definition attr {S A : Type} (slot : option A) : M S A :=
  match slot with
  | Some a => ret a
  | None => raise AttributeError
  end.

(** [d[k]] on a dict. *)
Definition dict_get {S V : Type} (d : gmap string V) (k : string) : M S V :=
  match d !! k with
  | Some v => ret v
  | None => raise KeyError
  end.

(** [util.LRStruct], a pair of a left and a right component. *)
Module LRStruct.
Record t (A : Type) : Type := mk { left : A; right : A }.
Arguments mk {A} left right.
Arguments left {A} _.
Arguments right {A} _.
Definition set_left {A : Type} (a : A) (s : t A) : t A := mk a (right s).
Definition set_right {A : Type} (a : A) (s : t A) : t A := mk (left s) a.
End LRStruct.

(** What the program needs from its surroundings: the robot API used by
    [devices.Motor] and the wall clock of the [time] module. *)
Class Runtime (W : Type) : Type := {
  robot_get_value : string -> string -> M W pyval;
  robot_set_value : string -> string -> pyval -> M W unit;
  time_time : M W R
}.

(** Collaborators of [chassis.py] that are not part of the sources: the
    helper [util.inches_to_meters], the path geometry of [path.py], the
    peripherals, and the closures handed to [peripheral_action].  A
    peripheral and a closure act on the world; they are named by values of
    the types [peripheral] and [action]. *)
Class Externals (W : Type) : Type := {
  inches_to_meters : R -> R;
  Path : Type;
  path_Path : R * R -> R * R -> R -> Path;
  get_offset_length : Path -> R -> R;
  peripheral : Type;
  peripheral_update : peripheral -> M W bool;
  action : Type;
  run_action : action -> M W unit
}.

(* ===================================================================== *)
(** ** mock_robot.py *)
(* ===================================================================== *)

Module MockRobot.

Record t : Type := mk {
  _devices : gmap string (gmap string pyval);
  _device_types : gmap string string;
  _max_devices : gmap string Z;
  _device_counts : gmap string Z;
  (** calls of [time.time()] made so far *)
  clock_reads : nat
}.

Definition set_devices (d : gmap string (gmap string pyval)) (s : t) : t :=
  mk d (_device_types s) (_max_devices s) (_device_counts s) (clock_reads s).
Definition set_device_types (d : gmap string string) (s : t) : t :=
  mk (_devices s) d (_max_devices s) (_device_counts s) (clock_reads s).
Definition set_device_counts (d : gmap string Z) (s : t) : t :=
  mk (_devices s) (_device_types s) (_max_devices s) d (clock_reads s).
Definition set_clock_reads (n : nat) (s : t) : t :=
  mk (_devices s) (_device_types s) (_max_devices s) (_device_counts s) n.

Definition koalabear_defaults : gmap string pyval :=
  list_to_map
    [ ("velocity_a", PFloat 0.0); ("deadband_a", PFloat 0.05);
      ("invert_a", PBool false); ("pid_enabled_a", PBool true);
      ("pid_kp_a", PFloat 0.05); ("pid_ki_a", PFloat 0.035);
      ("pid_kd_a", PFloat 0.0); ("enc_a", PInt 0);
      ("velocity_b", PFloat 0.0); ("deadband_b", PFloat 0.05);
      ("invert_b", PBool false); ("pid_enabled_b", PBool true);
      ("pid_kp_b", PFloat 0.05); ("pid_ki_b", PFloat 0.035);
      ("pid_kd_b", PFloat 0.0); ("enc_b", PInt 0) ].

Definition servocontroller_defaults : gmap string pyval :=
  list_to_map [ ("servo0", PFloat 0.0); ("servo1", PFloat 0.0) ].

(** A class attribute; the dict is iterated in insertion order. *)
Definition _default_device_properties : list (string * gmap string pyval) :=
  [ ("koalabear", koalabear_defaults);
    ("servocontroller", servocontroller_defaults) ].

Definition _motor_ticks_per_sec : pyval := PInt 2000.

(** [__init__(debug_logger, max_devices)] *)
Definition init (max_devices : gmap string Z) : t :=
  {| _devices := ∅;
     _device_types := ∅;
     _max_devices := max_devices;
     _device_counts :=
       list_to_map (map (fun p => (fst p, 0%Z)) _default_device_properties);
     clock_reads := 0 |}.

(** The loop of [_check_property]: [Some ty] when it leaves by [break] with
    [device_type = ty]; [None] when it runs to its end, and then
    [found_device_type] was never bound. *)
Fixpoint scan_device_types (value_name : string)
    (items : list (string * gmap string pyval)) : option string :=
  match items with
  | [] => None
  | (device_type, default_props) :: rest =>
      if bool_decide (is_Some (default_props !! value_name))
      then Some device_type
      else scan_device_types value_name rest
  end.

Fixpoint assoc_get {S V : Type} (items : list (string * V)) (k : string)
    : M S V :=
  match items with
  | [] => raise KeyError
  | (k', v) :: rest => if String.eqb k' k then ret v else assoc_get rest k
  end.

Section WithClock.

(** [clock n] is what the [n]-th call of [time.time()] returns. *)
Variable clock : nat -> R.

Definition time : M t R :=
  fun s => (Ok (clock (clock_reads s)),
            set_clock_reads (S (clock_reads s)) s).

(** [self._devices[device_id][key]] *)
Definition device_get (device_id key : string) : M t pyval :=
  s <- get ;;
  device <- dict_get (_devices s) device_id ;;
  dict_get device key.

(** [self._devices[device_id][key] = v]; the dict of the device is
    updated in place. *)
Definition device_set (device_id key : string) (v : pyval) : M t unit :=
  s <- get ;;
  device <- dict_get (_devices s) device_id ;;
  modify (set_devices (<[device_id := <[key := v]> device]> (_devices s))).

Definition _check_property (device_id value_name : string) : M t unit :=
  s <- get ;;
  (if bool_decide (is_Some (_devices s !! device_id)) then ret tt
   else
     match scan_device_types value_name _default_device_properties with
     | None =>
         (* [if not found_device_type] reads an unbound local *)
         raise UnboundLocalError
     | Some device_type =>
         (if bool_decide (is_Some (_max_devices s !! device_type))
          then
            count <- dict_get (_device_counts s) device_type ;;
            limit <- dict_get (_max_devices s) device_type ;;
            if (limit <=? count)%Z then raise ValueError else ret tt
          else raise ValueError) ;;
         count <- dict_get (_device_counts s) device_type ;;
         modify (set_device_counts
                   (<[device_type := (count + 1)%Z]> (_device_counts s))) ;;
         defaults <- assoc_get _default_device_properties device_type ;;
         device <-
           (if String.eqb device_type "koalabear"
            then now <- time ;;
                 ret (<["_LAST_UPDATED" := PFloat now]> defaults)
            else ret defaults) ;;
         modify (fun s' =>
                   set_devices (<[device_id := device]> (_devices s')) s') ;;
         modify (fun s' =>
                   set_device_types
                     (<[device_id := device_type]> (_device_types s')) s')
     end) ;;
  s <- get ;;
  device <- dict_get (_devices s) device_id ;;
  if bool_decide (is_Some (device !! value_name)) then ret tt
  else raise ValueError.

Definition _update_koalabear (device_id : string) : M t unit :=
  s <- get ;;
  _ <- dict_get (_devices s) device_id ;;
  timestamp <- time ;;
  last_updated <- device_get device_id "_LAST_UPDATED" ;;
  dt <- lift (py_sub last_updated (PFloat timestamp)) ;;
  device_set device_id "_LAST_UPDATED" (PFloat timestamp) ;;
  velocity_a <- device_get device_id "velocity_a" ;;
  abs_a <- lift (py_abs velocity_a) ;;
  out_a <- lift (py_gt abs_a (PInt 1)) ;;
  (if out_a : bool then raise ValueError else ret tt) ;;
  velocity_b <- device_get device_id "velocity_b" ;;
  abs_b <- lift (py_abs velocity_b) ;;
  out_b <- lift (py_gt abs_b (PInt 1)) ;;
  (if out_b : bool then raise ValueError else ret tt) ;;
  enc_a <- device_get device_id "enc_a" ;;
  velocity_a <- device_get device_id "velocity_a" ;;
  step_a <- lift (py_mul velocity_a dt) ;;
  step_a <- lift (py_mul step_a _motor_ticks_per_sec) ;;
  enc_a <- lift (py_add enc_a step_a) ;;
  device_set device_id "enc_a" enc_a ;;
  enc_b <- device_get device_id "enc_b" ;;
  velocity_b <- device_get device_id "velocity_b" ;;
  step_b <- lift (py_mul velocity_b dt) ;;
  step_b <- lift (py_mul step_b _motor_ticks_per_sec) ;;
  enc_b <- lift (py_add enc_b step_b) ;;
  device_set device_id "enc_b" enc_b.

Definition update_if_koalabear (device_id : string) : M t unit :=
  s <- get ;;
  device_type <- dict_get (_device_types s) device_id ;;
  if String.eqb device_type "koalabear" then _update_koalabear device_id
  else ret tt.

Definition get_value (device_id value_name : string) : M t pyval :=
  _check_property device_id value_name ;;
  update_if_koalabear device_id ;;
  device_get device_id value_name.

Definition set_value (device_id value_name : string) (value : pyval)
    : M t unit :=
  _check_property device_id value_name ;;
  update_if_koalabear device_id ;;
  current <- device_get device_id value_name ;;
  let expected_type := type_of current in
  let value :=
    match value with
    | PInt z =>
        if bool_decide (expected_type = FloatType) then PFloat (IZR z)
        else value
    | _ => value
    end in
  if bool_decide (expected_type <> type_of value) then raise TypeError
  else device_set device_id value_name value.

End WithClock.

#[global] Instance runtime (clock : nat -> R) : Runtime t := {|
  robot_get_value := get_value clock;
  robot_set_value := set_value clock;
  time_time := time clock
|}.

End MockRobot.

(* ===================================================================== *)
(** ** devices.py *)
(* ===================================================================== *)

Module Motor.

(** The robot a motor talks to is the one of the state the method runs in;
    the debug logger is left out. *)
Record t : Type := mk {
  _controller : string;
  _motor : string;
  _is_inverted : bool
}.

Section WithRuntime.

Context {W : Type} {runtime : Runtime W}.

Definition _set (self : t) (key : string) (value : pyval) : M W unit :=
  robot_set_value (_controller self) (key ++ "_" ++ _motor self) value.

Definition _get (self : t) (key : string) : M W pyval :=
  robot_get_value (_controller self) (key ++ "_" ++ _motor self).

(** [__init__(robot, debug_logger, controller_id, motor)] *)
Definition init (controller_id motor : string) : t :=
  {| _controller := controller_id; _motor := motor;
     _is_inverted := false |}.

(** The methods that end in [return self] return the motor. *)
Definition set_invert (self : t) (invert : bool) : M W t :=
  _set self "invert" (PBool invert) ;;
  ret {| _controller := _controller self; _motor := _motor self;
         _is_inverted := invert |}.

Definition set_deadband (self : t) (deadband : pyval) : M W t :=
  _set self "deadband" deadband ;;
  ret self.

Definition set_pid (self : t) (p i d : pyval) : M W t :=
  if negb (py_truthy p || py_truthy i || py_truthy d) then
    _set self "pid_enabled" (PBool false) ;;
    ret self
  else
    _set self "pid_enabled" (PBool true) ;;
    (if py_truthy p then _set self "pid_kp" p else ret tt) ;;
    (if py_truthy i then _set self "pid_ki" i else ret tt) ;;
    (if py_truthy d then _set self "pid_kd" d else ret tt) ;;
    ret self.

Definition set_velocity (self : t) (velocity : pyval) : M W t :=
  _set self "velocity" velocity ;;
  ret self.

Definition get_velocity (self : t) : M W pyval :=
  _get self "velocity".

Definition get_encoder (self : t) : M W pyval :=
  enc <- _get self "enc" ;;
  lift (py_mul enc (PInt (if _is_inverted self then -1 else 1))).

Definition reset_encoder (self : t) : M W unit :=
  _set self "enc" (PInt 0).

(** The class defines no [stop]: [motor.stop()] fails on the attribute. *)
Definition stop (self : t) : M W unit :=
  raise AttributeError.

End WithRuntime.

End Motor.

Module Wheel.

(** [_goal_pos] and [_velocity] are slots that [__init__] leaves
    unassigned ([None] here); [_start_pos] starts as Python's [None]. *)
Record t : Type := mk {
  _motor : Motor.t;
  _radius : R;
  _ticks_per_rot : R;
  _goal_pos : option pyval;
  _velocity : option R;
  _start_pos : pyval
}.

Definition set_goal_pos (v : pyval) (w : t) : t :=
  mk (_motor w) (_radius w) (_ticks_per_rot w) (Some v) (_velocity w)
     (_start_pos w).
Definition set_velocity_attr (v : R) (w : t) : t :=
  mk (_motor w) (_radius w) (_ticks_per_rot w) (_goal_pos w) (Some v)
     (_start_pos w).
Definition set_start_pos (v : pyval) (w : t) : t :=
  mk (_motor w) (_radius w) (_ticks_per_rot w) (_goal_pos w) (_velocity w) v.

(** [__init__(debug_logger, motor, radius, ticks_per_rotation)] *)
Definition init (motor : Motor.t) (radius ticks_per_rotation : R) : t :=
  {| _motor := motor; _radius := radius;
     _ticks_per_rot := ticks_per_rotation;
     _goal_pos := None; _velocity := None; _start_pos := PNone |}.

Section WithRuntime.

Context {W : Type} {runtime : Runtime W}.

(** The condition of the first [if] of [get_goal_progress] is empty in the
    source ([if :]); it is a parameter of the model: a test on the wheel
    that yields a truth value or raises. *)
Variable progress_guard : t -> Res bool.

(** A method runs on the wheel and on the world its motor lives in. *)
Definition self : M (t * W) t := fun s => (Ok (fst s), s).

Definition assign (f : t -> t) : M (t * W) unit :=
  modify (fun s => (f (fst s), snd s)).

Definition on_robot {A : Type} (m : M W A) : M (t * W) A :=
  zoom snd (fun w s => (fst s, w)) m.

Definition set_goal (goal velocity : R) : M (t * W) unit :=
  w <- self ;;
  start_pos <- on_robot (Motor.get_encoder (_motor w)) ;;
  assign (set_start_pos start_pos) ;;
  turns <- lift (fdiv goal (_radius w * 2 * math_pi)) ;;
  let goal_pos := math_ceil (turns * _ticks_per_rot w) in
  assign (set_goal_pos (PInt goal_pos)) ;;
  on_robot (Motor.set_velocity (_motor w)
              (PFloat (math_copysign velocity (IZR goal_pos)))) ;;
  assign (set_velocity_attr velocity).

Definition get_goal_progress : M (t * W) pyval :=
  w <- self ;;
  guard <- lift (progress_guard w) ;;
  if guard : bool then ret (PInt 0)
  else
    goal_pos <- attr (_goal_pos w) ;;
    if py_eq goal_pos (PInt 0) then ret (PInt 1)
    else
      goal_pos <- attr (_goal_pos w) ;;
      enc <- on_robot (Motor.get_encoder (_motor w)) ;;
      remaining <- lift (py_sub goal_pos enc) ;;
      goal_pos <- attr (_goal_pos w) ;;
      total <- lift (py_sub goal_pos (_start_pos w)) ;;
      ratio <- lift (py_truediv remaining total) ;;
      lift (py_sub (PInt 1) ratio).

Definition stop : M (t * W) unit :=
  w <- self ;;
  enc <- on_robot (Motor.get_encoder (_motor w)) ;;
  assign (set_goal_pos enc) ;;
  on_robot (Motor.set_velocity (_motor w) (PInt 0)) ;;
  ret tt.

(** [_initialized] is not among the slots of the class and nothing
    assigns it: reading it raises. *)
Definition update : M (t * W) unit :=
  initialized <- attr (None : option bool) ;;
  if negb initialized then ret tt
  else
    progress <- get_goal_progress ;;
    done <- lift (py_ge progress (PInt 1)) ;;
    if done : bool then
      w <- self ;;
      on_robot (Motor.set_velocity (_motor w) (PInt 0)) ;;
      ret tt
    else ret tt.

End WithRuntime.

End Wheel.

Module Servo.

Record t : Type := mk {
  _controller : string;
  _servo : string
}.

Section WithRuntime.

Context {W : Type} {runtime : Runtime W}.

(** [__init__(robot, controller, servo)] *)
Definition init (controller servo : string) : t :=
  {| _controller := controller; _servo := servo |}.

Definition set_position (self : t) (position : pyval) : M W unit :=
  robot_set_value (_controller self) ("servo" ++ _servo self) position.

End WithRuntime.

End Servo.

(* ===================================================================== *)
(** ** chassis.py *)
(* ===================================================================== *)

Module QueuedMotion.

Section WithExternals.

Context {W : Type} {ext : Externals W}.

(** [_update_func] together with [_data]: which of [_update_move],
    [_update_turn] and [_update_peripheral] the motion is bound to, and
    the argument it is called with. *)
Inductive motion : Type :=
  | Move (path : Path)
  | Turn (angle : R)
  | PeripheralAction (p : peripheral).

Record t : Type := mk {
  _update : motion;
  _setup_func : option action
}.

End WithExternals.

End QueuedMotion.

Module BaseQueuedChassis.

Section WithExternals.

Context {W : Type} {runtime : Runtime W} {ext : Externals W}.

Record fields : Type := mk {
  _queue : list QueuedMotion.t;
  _position : R * R;
  _angle : R;
  _is_idle : bool
}.

Definition set_queue (q : list QueuedMotion.t) (b : fields) : fields :=
  mk q (_position b) (_angle b) (_is_idle b).
Definition set_position (p : R * R) (b : fields) : fields :=
  mk (_queue b) p (_angle b) (_is_idle b).
Definition set_angle (a : R) (b : fields) : fields :=
  mk (_queue b) (_position b) a (_is_idle b).
Definition set_is_idle (i : bool) (b : fields) : fields :=
  mk (_queue b) (_position b) (_angle b) i.

(** [__init__(debug_logger, starting_position, starting_angle)] *)
Definition init (starting_position : R * R) (starting_angle : R) : fields :=
  {| _queue := []; _position := starting_position;
     _angle := starting_angle; _is_idle := true |}.

(** A class of chassis: the fields it adds to those of the base class and
    the methods the base class calls through [self]. *)
Class Variant (T : Type) : Type := {
  base : T -> fields;
  with_base : fields -> T -> T;
  _on_start_new_motion : QueuedMotion.t -> M (T * W) unit;
  _on_queue_finish : M (T * W) unit;
  _on_post_update : M (T * W) unit;
  _update_move : Path -> M (T * W) bool;
  _update_turn : R -> M (T * W) bool;
  _update_peripheral : peripheral -> M (T * W) bool
}.

Section Methods.

Context {T : Type} {variant : Variant T}.

Definition self : M (T * W) fields := fun s => (Ok (base (fst s)), s).

Definition assign (f : fields -> fields) : M (T * W) unit :=
  modify (fun s => (with_base (f (base (fst s))) (fst s), snd s)).

Definition on_world {A : Type} (m : M W A) : M (T * W) A :=
  zoom snd (fun w s => (fst s, w)) m.

(** [QueuedMotion.setup] *)
Definition motion_setup (m : QueuedMotion.t) : M (T * W) unit :=
  match QueuedMotion._setup_func m with
  | Some f => on_world (run_action f)
  | None => ret tt
  end.

(** [QueuedMotion.update] *)
Definition motion_update (m : QueuedMotion.t) : M (T * W) bool :=
  match QueuedMotion._update m with
  | QueuedMotion.Move path => _update_move path
  | QueuedMotion.Turn angle => _update_turn angle
  | QueuedMotion.PeripheralAction p => _update_peripheral p
  end.

Definition enqueue (m : QueuedMotion.t) : M (T * W) unit :=
  assign (fun b => set_queue (_queue b ++ [m]) b).

Definition move (end_pos : R * R) (angle : R) : M (T * W) unit :=
  b <- self ;;
  enqueue (QueuedMotion.mk
             (QueuedMotion.Move (path_Path (_position b) end_pos angle))
             None) ;;
  assign (set_position end_pos).

Definition turn (angle : R) : M (T * W) unit :=
  enqueue (QueuedMotion.mk (QueuedMotion.Turn angle) None) ;;
  assign (fun b => set_angle (_angle b + angle) b).

Definition orient (angle : R) : M (T * W) unit :=
  b <- self ;;
  turn (angle - _angle b) ;;
  assign (set_angle angle).

Definition peripheral_action (p : peripheral) (f : action)
    : M (T * W) unit :=
  enqueue (QueuedMotion.mk (QueuedMotion.PeripheralAction p) (Some f)).

(** [self._queue.pop(0)] *)
Definition pop_front : M (T * W) unit :=
  b <- self ;;
  match _queue b with
  | [] => raise IndexError
  | _ :: rest => assign (set_queue rest)
  end.

(** [self._queue[0]] *)
Definition front : M (T * W) QueuedMotion.t :=
  b <- self ;;
  match _queue b with
  | [] => raise IndexError
  | m :: _ => ret m
  end.

Definition update : M (T * W) unit :=
  b <- self ;;
  (if negb (bool_decide (_queue b = [])) && _is_idle b then
     head <- front ;;
     _on_start_new_motion head ;;
     assign (set_is_idle false)
   else ret tt) ;;
  b <- self ;;
  finished <-
    (if negb (bool_decide (_queue b = [])) then
       head <- front ;;
       running <- motion_update head ;;
       ret (negb running)
     else ret false) ;;
  (if finished : bool then
     pop_front ;;
     b <- self ;;
     if negb (bool_decide (_queue b = [])) then
       head <- front ;;
       _on_start_new_motion head ;;
       head <- front ;;
       motion_setup head
     else ret tt
   else
     b <- self ;;
     if bool_decide (_queue b = []) && negb (_is_idle b) then
       _on_queue_finish ;;
       assign (set_is_idle true)
     else ret tt) ;;
  _on_post_update.

Definition update_input : M (T * W) unit :=
  raise NotImplementedError.

End Methods.

(** The base class on its own: the hooks do nothing and the three update
    functions are left to the subclasses. *)
#[global] Instance abstract_chassis : Variant fields := {|
  base := fun b => b;
  with_base := fun b _ => b;
  _on_start_new_motion := fun _ => ret tt;
  _on_queue_finish := ret tt;
  _on_post_update := ret tt;
  _update_move := fun _ => raise NotImplementedError;
  _update_turn := fun _ => raise NotImplementedError;
  _update_peripheral := fun _ => raise NotImplementedError
|}.

End WithExternals.

End BaseQueuedChassis.

Module TestChassis.

Import BaseQueuedChassis.

Section WithExternals.

Context {W : Type} {runtime : Runtime W} {ext : Externals W}.

Record t : Type := mk {
  _base : fields;
  _motors : LRStruct.t Motor.t;
  _actual_motor_velocity : LRStruct.t R;
  (** a slot, unassigned until the first motion starts *)
  _motion_start_timestamp : option R;
  _max_acceleration : R;
  _max_velocity : R
}.

Definition set_base (b : fields) (c : t) : t :=
  mk b (_motors c) (_actual_motor_velocity c) (_motion_start_timestamp c)
     (_max_acceleration c) (_max_velocity c).
Definition set_motion_start_timestamp (x : R) (c : t) : t :=
  mk (_base c) (_motors c) (_actual_motor_velocity c) (Some x)
     (_max_acceleration c) (_max_velocity c).

Definition _robot_types : list string := ["light"; "medium"; "heavy"].

Definition _wheelspan : R := inches_to_meters 20.

(** [tuple.index] *)
Fixpoint index (x : string) (l : list string) : option Z :=
  match l with
  | [] => None
  | y :: rest =>
      if String.eqb y x then Some 0%Z
      else option_map Z.succ (index x rest)
  end.

(** [__init__(robot, debug_logger, starting_position, starting_angle,
    robot_type)] *)
Definition init (starting_position : R * R) (starting_angle : R)
    (robot_type : string) : M W t :=
  left <- Motor.set_invert (Motor.init "koala_bear" "a") false ;;
  right <- Motor.set_invert (Motor.init "koala_bear" "b") true ;;
  match index robot_type _robot_types with
  | None => raise ValueError
  | Some i =>
      let robot_type_num := IZR (i + 3) in
      ret {| _base := BaseQueuedChassis.init starting_position
                        starting_angle;
             _motors := LRStruct.mk left right;
             _actual_motor_velocity := LRStruct.mk 0%R 0%R;
             _motion_start_timestamp := None;
             _max_acceleration :=
               inches_to_meters ((8 - robot_type_num) / 5 * 0.05413);
             _max_velocity :=
               inches_to_meters (robot_type_num / 5 * 1.236) |}
  end.

Definition this : M (t * W) t := fun s => (Ok (fst s), s).

Definition on_robot {A : Type} (m : M W A) : M (t * W) A :=
  zoom snd (fun w s => (fst s, w)) m.

Definition update_input (drive_left drive_right turn : R)
    : M (t * W) unit :=
  c <- this ;;
  on_robot (Motor.set_velocity (LRStruct.left (_motors c))
              (PFloat (drive_left + turn))) ;;
  on_robot (Motor.set_velocity (LRStruct.right (_motors c))
              (PFloat (drive_right - turn))) ;;
  ret tt.

Definition _on_start_new_motion (motion : QueuedMotion.t)
    : M (t * W) unit :=
  modify (fun s => (set_motion_start_timestamp 0 (fst s), snd s)).

Definition _on_queue_finish : M (t * W) unit :=
  c <- this ;;
  on_robot (Motor.stop (LRStruct.left (_motors c))) ;;
  on_robot (Motor.stop (LRStruct.right (_motors c))).

Definition _on_post_update : M (t * W) unit := ret tt.

Definition _will_hit_max_velocity (current_velocity dist : R)
    : M (t * W) bool :=
  raise NotImplementedError.

Definition _estimate_travel_time (current_velocity dist : R)
    (should_deaccelerate : bool) : M (t * W) (R * R) :=
  c <- this ;;
  let d_f := Rabs dist in
  let v_max := _max_velocity c in
  let v_i := current_velocity in
  let a := _max_acceleration c in
  if should_deaccelerate then
    hits <- _will_hit_max_velocity current_velocity dist ;;
    if hits : bool then
      (* Case 2: v_c > v_max *)
      t1 <- lift (fdiv d_f v_max) ;;
      t2 <- lift (fdiv (v_i ^ 2) (2 * a * v_max)) ;;
      t3 <- lift (fdiv (2 * v_max - v_i) a) ;;
      let t_f := (t1 + t2 + t3)%R in
      t4 <- lift (fdiv v_max a) ;;
      let t_c := (t_f - t4)%R in
      ret (t_c, t_f)
    else
      (* Case 1: v_c <= v_max *)
      root <- lift (math_sqrt
                      ((-4 * v_i ^ 2) + (4 * v_i) + (64 * a * d_f) + 1)) ;;
      t_f <- lift (fdiv (-2 * v_i - 1 + root) (4 * a)) ;;
      t5 <- lift (fdiv v_i (2 * a)) ;;
      let t_c := (t_f / 2 - t5)%R in
      ret (t_c, t_f)
  else
    root <- lift (math_sqrt (v_i ^ 2 + (2 * a * d_f))) ;;
    t_f <- lift (fdiv (Rmin (v_i + root) v_max) a) ;;
    let t_c := t_f in (* no deacceleration before the end *)
    ret (t_c, t_f).

(** The calls of the debug logger are left out. *)
Definition _update_motors (left_dist right_dist : R) : M (t * W) bool :=
  c <- this ;;
  let should_deaccelerate := (length (_queue (_base c)) =? 1)%nat in
  left_times <- _estimate_travel_time
                  (LRStruct.left (_actual_motor_velocity c)) left_dist
                  should_deaccelerate ;;
  right_times <- _estimate_travel_time
                   (LRStruct.right (_actual_motor_velocity c)) right_dist
                   should_deaccelerate ;;
  let (left_deacc_time, left_finish_time) := left_times : R * R in
  let (right_deacc_time, right_finish_time) := right_times : R * R in
  start <- attr (_motion_start_timestamp c) ;;
  now <- on_robot time_time ;;
  let elapsed := (start - now)%R in
  (if bool_decide (Rmin left_deacc_time right_deacc_time < elapsed)%R then
     on_robot (Motor.stop (LRStruct.left (_motors c))) ;;
     on_robot (Motor.stop (LRStruct.right (_motors c)))
   else
     let max_abs_dist := Rmax (Rabs left_dist) (Rabs right_dist) in
     left_velocity <- lift (fdiv left_dist max_abs_dist) ;;
     on_robot (Motor.set_velocity (LRStruct.left (_motors c))
                 (PFloat left_velocity)) ;;
     right_velocity <- lift (fdiv right_dist max_abs_dist) ;;
     on_robot (Motor.set_velocity (LRStruct.right (_motors c))
                 (PFloat right_velocity)) ;;
     ret tt) ;;
  ret (bool_decide
         (elapsed <= Rmin left_finish_time right_finish_time)%R).

Definition _update_move (path : Path) : M (t * W) bool :=
  let left_dist := get_offset_length path (_wheelspan / 2) in
  let right_dist := get_offset_length path (- _wheelspan / 2) in
  _update_motors left_dist right_dist.

(** The two distances [_update_turn] hands to [_update_motors]. *)
Definition turn_distances (angle : R) : Res (R * R) :=
  match fdiv angle _wheelspan with
  | Raise e => Raise e
  | Ok q =>
      let goal_dist := (q / 2)%R in
      let left_dist := math_copysign goal_dist angle in
      let right_dist := (- math_copysign goal_dist angle)%R in
      Ok (left_dist, right_dist)
  end.

Definition _update_turn (angle : R) : M (t * W) bool :=
  dists <- lift (turn_distances angle) ;;
  _update_motors (fst dists) (snd dists).

Definition _update_peripheral (p : peripheral) : M (t * W) bool :=
  on_robot (peripheral_update p).

#[global] Instance variant : Variant t := {|
  base := _base;
  with_base := set_base;
  BaseQueuedChassis._on_start_new_motion := _on_start_new_motion;
  BaseQueuedChassis._on_queue_finish := _on_queue_finish;
  BaseQueuedChassis._on_post_update := _on_post_update;
  BaseQueuedChassis._update_move := _update_move;
  BaseQueuedChassis._update_turn := _update_turn;
  BaseQueuedChassis._update_peripheral := _update_peripheral
|}.

End WithExternals.

End TestChassis.

Module QuadChassis.

Import BaseQueuedChassis.

Section WithExternals.

Context {W : Type} {runtime : Runtime W} {ext : Externals W}.

(** The missing condition of [Wheel.get_goal_progress]. *)
Variable progress_guard : Wheel.t -> Res bool.

Record t : Type := mk {
  _base : fields;
  _motors : LRStruct.t Motor.t;
  _wheels : LRStruct.t Wheel.t
}.

Definition set_base (b : fields) (c : t) : t :=
  mk b (_motors c) (_wheels c).
Definition set_wheels (w : LRStruct.t Wheel.t) (c : t) : t :=
  mk (_base c) (_motors c) w.

Definition _wheelspan : R := inches_to_meters 14.5.
Definition _drive_controller_id : string := "6_10833107448071795766".
Definition _ticks_per_rotation : R := 64 * 30.125 / 1.42.

(** [__init__(robot, debug_logger, starting_position, starting_angle)] *)
Definition init (starting_position : R * R) (starting_angle : R)
    : M W t :=
  left <- Motor.set_pid (Motor.init _drive_controller_id "b")
            PNone PNone PNone ;;
  left <- Motor.set_invert left false ;;
  right <- Motor.set_pid (Motor.init _drive_controller_id "a")
             PNone PNone PNone ;;
  right <- Motor.set_invert right true ;;
  ret {| _base := BaseQueuedChassis.init starting_position starting_angle;
         _motors := LRStruct.mk left right;
         _wheels :=
           LRStruct.mk
             (Wheel.init left (inches_to_meters 2) _ticks_per_rotation)
             (Wheel.init right (inches_to_meters 2)
                _ticks_per_rotation) |}.

Definition this : M (t * W) t := fun s => (Ok (fst s), s).

Definition on_robot {A : Type} (m : M W A) : M (t * W) A :=
  zoom snd (fun w s => (fst s, w)) m.

(** A method of the left, of the right wheel. *)
Definition on_left {A : Type} (m : M (Wheel.t * W) A) : M (t * W) A :=
  zoom (fun s => (LRStruct.left (_wheels (fst s)), snd s))
       (fun ws s =>
          (set_wheels (LRStruct.set_left (fst ws) (_wheels (fst s)))
             (fst s), snd ws))
       m.

Definition on_right {A : Type} (m : M (Wheel.t * W) A) : M (t * W) A :=
  zoom (fun s => (LRStruct.right (_wheels (fst s)), snd s))
       (fun ws s =>
          (set_wheels (LRStruct.set_right (fst ws) (_wheels (fst s)))
             (fst s), snd ws))
       m.

(** Teleop mode only. *)
Definition update_input (drive_left drive_right turn : R)
    : M (t * W) unit :=
  c <- this ;;
  on_robot (Motor.set_velocity (LRStruct.left (_motors c))
              (PFloat (drive_left + turn))) ;;
  on_robot (Motor.set_velocity (LRStruct.right (_motors c))
              (PFloat (drive_right - turn))) ;;
  ret tt.

Definition _on_start_new_motion (motion : QueuedMotion.t)
    : M (t * W) unit :=
  c <- this ;;
  on_robot (Motor.reset_encoder (LRStruct.left (_motors c))) ;;
  on_robot (Motor.reset_encoder (LRStruct.right (_motors c))).

Definition _on_queue_finish : M (t * W) unit :=
  on_left Wheel.stop ;;
  on_right Wheel.stop.

Definition _on_post_update : M (t * W) unit :=
  on_left (Wheel.update progress_guard) ;;
  on_right (Wheel.update progress_guard).

(** The call of the debug logger is left out. *)
Definition _update_motors (left_dist right_dist : R) : M (t * W) bool :=
  let max_abs_dist := Rmax (Rabs left_dist) (Rabs right_dist) in
  left_velocity <- lift (fdiv left_dist max_abs_dist) ;;
  on_left (Wheel.set_goal left_dist left_velocity) ;;
  right_velocity <- lift (fdiv right_dist max_abs_dist) ;;
  on_right (Wheel.set_goal right_dist right_velocity) ;;
  left_progress <- on_left (Wheel.get_goal_progress progress_guard) ;;
  right_progress <- on_right (Wheel.get_goal_progress progress_guard) ;;
  least <- lift (py_min left_progress right_progress) ;;
  lift (py_lt least (PInt 1)).

Definition _update_move (path : Path) : M (t * W) bool :=
  let left_dist := get_offset_length path (_wheelspan / 2) in
  let right_dist := get_offset_length path (- _wheelspan / 2) in
  _update_motors left_dist right_dist.

(** The two distances [_update_turn] hands to [_update_motors]. *)
Definition turn_distances (angle : R) : Res (R * R) :=
  match fdiv angle _wheelspan with
  | Raise e => Raise e
  | Ok q =>
      let goal_dist := (q / 2)%R in
      let left_dist := math_copysign goal_dist angle in
      let right_dist := (- math_copysign goal_dist angle)%R in
      Ok (left_dist, right_dist)
  end.

Definition _update_turn (angle : R) : M (t * W) bool :=
  dists <- lift (turn_distances angle) ;;
  _update_motors (fst dists) (snd dists).

Definition _update_peripheral (p : peripheral) : M (t * W) bool :=
  on_robot (peripheral_update p).

#[global] Instance variant : Variant t := {|
  base := _base;
  with_base := set_base;
  BaseQueuedChassis._on_start_new_motion := _on_start_new_motion;
  BaseQueuedChassis._on_queue_finish := _on_queue_finish;
  BaseQueuedChassis._on_post_update := _on_post_update;
  BaseQueuedChassis._update_move := _update_move;
  BaseQueuedChassis._update_turn := _update_turn;
  BaseQueuedChassis._update_peripheral := _update_peripheral
|}.

End WithExternals.

End QuadChassis.

(* ===================================================================== *)
(** ** peripherals.py *)
(* ===================================================================== *)

(** The class [Hand].  The class [Arm] is left out: its [__init__] and its
    [update] read names that are bound nowhere ([elf], [forearm_velocity]),
    so that no arm is ever built. *)
Module Hand.

Record t : Type := mk {
  _servo : Servo.t;
  _position : pyval
}.

Definition set_position_attr (pos : pyval) (h : t) : t :=
  mk (_servo h) pos.

(** A class attribute. *)
Definition _move_increment : pyval := PFloat (5 / 90).

(** [__init__(debug_logger, servo)] *)
Definition init (servo : Servo.t) : t :=
  {| _servo := servo; _position := PInt 0 |}.

Section WithRuntime.

Context {W : Type} {runtime : Runtime W}.

Definition self : M (t * W) t := fun s => (Ok (fst s), s).

Definition assign (f : t -> t) : M (t * W) unit :=
  modify (fun s => (f (fst s), snd s)).

Definition on_robot {A : Type} (m : M W A) : M (t * W) A :=
  zoom snd (fun w s => (fst s, w)) m.

Definition open : M (t * W) unit :=
  h <- self ;;
  on_robot (Servo.set_position (_servo h) (PFloat 0.5)).

Definition close : M (t * W) unit :=
  h <- self ;;
  on_robot (Servo.set_position (_servo h) (PFloat (-0.5))).

Definition _move_to (pos : pyval) : M (t * W) unit :=
  h <- self ;;
  on_robot (Servo.set_position (_servo h) pos) ;;
  assign (set_position_attr pos).

(** [input_object.hand_status] is the argument; the call of the debug
    logger is left out. *)
Definition update_input (hand_status : pyval) : M (t * W) unit :=
  h <- self ;;
  step <- lift (py_mul hand_status _move_increment) ;;
  pos <- lift (py_add (_position h) step) ;;
  _move_to pos.

End WithRuntime.

End Hand.

(* ===================================================================== *)
(** ** A log of the hooks the base class calls *)
(* ===================================================================== *)

Module HookLog.

Import BaseQueuedChassis.

Section WithExternals.

Context {W : Type} {runtime : Runtime W} {ext : Externals W}.

(** A call of a hook, as the base class makes it. *)
Inductive hook : Type :=
  | Started (motion : QueuedMotion.t)
  | Finished.

Context {T : Type} {variant : Variant T}.

(** A method of the chassis, run on the chassis beside its log. *)
Definition unlogged {A : Type} (m : M (T * W) A) : M ((T * list hook) * W) A :=
  zoom (fun s => (fst (fst s), snd s))
       (fun tw s => ((fst tw, snd (fst s)), snd tw))
       m.

Definition record (h : hook) : M ((T * list hook) * W) unit :=
  modify (fun s => ((fst (fst s), (snd (fst s) ++ [h])%list), snd s)).

(** The chassis [variant] with a log: the two hooks note that they are
    called and then do what they do in [variant]. *)
#[global] Instance logged : Variant (T * list hook) := {|
  base := fun c => base (fst c);
  with_base := fun b c => (with_base b (fst c), snd c);
  _on_start_new_motion :=
    fun motion => record (Started motion) ;;
                  unlogged (_on_start_new_motion motion);
  _on_queue_finish := record Finished ;; unlogged _on_queue_finish;
  _on_post_update := unlogged _on_post_update;
  _update_move := fun path => unlogged (_update_move path);
  _update_turn := fun angle => unlogged (_update_turn angle);
  _update_peripheral := fun p => unlogged (_update_peripheral p)
|}.

End WithExternals.

End HookLog.

(* ===================================================================== *)
(** ** An environment to run the model in *)
(* ===================================================================== *)

Module Bench.

(** A wall clock that advances by one second from one reading to the
    next. *)
Definition clock (n : nat) : R := INR n.

(** Modelled from the spec: [util.inches_to_meters], of [util.py], which is
    not among the sources.  Scenario 2 of the spec gives 0.0508 m as the
    radius of a wheel, which the code builds with
    [util.inches_to_meters(2)]. *)
Definition inches_to_meters (x : R) : R := (x * 0.0254)%R.

(** A stand-in for [path.Path], which is not among the sources: a straight
    segment, on which a point at any lateral offset sweeps the length of
    the segment. *)
Definition segment_length (p : (R * R) * (R * R) * R) (offset : R) : R :=
  let '(a, b, _) := p in
  sqrt ((fst b - fst a) ^ 2 + (snd b - snd a) ^ 2).

(** A stand-in for the peripherals, which are external: a peripheral is
    the answer it gives to [update()], [true] while it is still at work.  The
    closures handed to [peripheral_action] do nothing. *)
#[global] Instance externals : Externals MockRobot.t :=
  Build_Externals MockRobot.t
    inches_to_meters
    ((R * R) * (R * R) * R)
    (fun a b angle => (a, b, angle))
    segment_length
    bool
    (fun p => ret p)
    unit
    (fun f => ret tt).

#[global] Instance runtime : Runtime MockRobot.t := MockRobot.runtime clock.

(** A robot that allows one [koalabear] controller. *)
Definition robot : MockRobot.t := MockRobot.init {[ "koalabear" := 1%Z ]}.

(** That robot after a first read, of the velocity of motor [a] of the
    controller ["kb"], and after a first write, of the velocity [1.5]. *)
Definition robot_in_use : MockRobot.t :=
  snd (MockRobot.get_value clock "kb" "velocity_a" robot).

Definition wedged_robot : MockRobot.t :=
  snd (MockRobot.set_value clock "kb" "velocity_a" (PFloat 1.5) robot).

(** That robot after a first read of the velocity of motor [a] of the
    controller ["koala_bear"], the one of [TestChassis]. *)
Definition driven_robot : MockRobot.t :=
  snd (MockRobot.get_value clock "koala_bear" "velocity_a" robot).

(** A robot that allows one servo controller, and that robot after a first
    read of the position of servo [0] of the controller ["sc"]. *)
Definition servo_robot : MockRobot.t :=
  MockRobot.init {[ "servocontroller" := 1%Z ]}.

Definition servo_robot_in_use : MockRobot.t :=
  snd (MockRobot.get_value clock "sc" "servo0" servo_robot).

(** A wheel on motor [a] of the controller ["kb"], with the radius and the
    ticks per rotation of Scenario 2 of the spec. *)
Definition wheel : Wheel.t :=
  Wheel.init (Motor.mk "kb" "a" false) 0.0508 1356.87.

(** A hand on servo [0] of the controller ["sc"]. *)
Definition hand : Hand.t := Hand.init (Servo.init "sc" "0").

(** A test chassis of robot type ["light"], with the constants that
    [TestChassis.__init__] computes for it, at the origin. *)
Definition test_chassis (queue : list QueuedMotion.t) (idle : bool)
    (start : option R) : TestChassis.t :=
  {| TestChassis._base :=
       {| BaseQueuedChassis._queue := queue;
          BaseQueuedChassis._position := (0, 0)%R;
          BaseQueuedChassis._angle := 0%R;
          BaseQueuedChassis._is_idle := idle |};
     TestChassis._motors :=
       LRStruct.mk (Motor.mk "koala_bear" "a" false)
         (Motor.mk "koala_bear" "b" true);
     TestChassis._actual_motor_velocity := LRStruct.mk 0%R 0%R;
     TestChassis._motion_start_timestamp := start;
     TestChassis._max_acceleration :=
       inches_to_meters ((8 - 3) / 5 * 0.05413);
     TestChassis._max_velocity :=
       inches_to_meters (3 / 5 * 1.236) |}.

(** The chassis as built: nothing queued, idle, no motion started yet. *)
Definition light_chassis : TestChassis.t := test_chassis [] true None.

(** The test chassis of the bench, with a log of its hooks. *)
Definition logged_test_chassis
  : BaseQueuedChassis.Variant (TestChassis.t * list HookLog.hook) :=
  HookLog.logged (variant := TestChassis.variant (runtime := runtime)
                               (ext := externals)).

(** A peripheral action whose peripheral has finished. *)
Definition done_action : QueuedMotion.t (ext := externals) :=
  QueuedMotion.mk (QueuedMotion.PeripheralAction false) (Some tt).

(** A turn by [0.0], as [turn(0.0)] queues it. *)
Definition zero_turn : QueuedMotion.t (ext := externals) :=
  QueuedMotion.mk (QueuedMotion.Turn 0) None.

(** A move to the place where the chassis is, as [move((0, 0), 0)] queues
    it at the origin. *)
Definition zero_move : QueuedMotion.t (ext := externals) :=
  QueuedMotion.mk
    (QueuedMotion.Move (path_Path (0, 0)%R (0, 0)%R 0%R)) None.

(** A turn by one radian, as [turn(1)] queues it. *)
Definition unit_turn : QueuedMotion.t (ext := externals) :=
  QueuedMotion.mk (QueuedMotion.Turn 1) None.

(** A [QuadChassis] with the motors and the wheels that [__init__] builds,
    at the origin. *)
Definition quad_chassis (queue : list QueuedMotion.t) (idle : bool)
    : QuadChassis.t :=
  {| QuadChassis._base :=
       {| BaseQueuedChassis._queue := queue;
          BaseQueuedChassis._position := (0, 0)%R;
          BaseQueuedChassis._angle := 0%R;
          BaseQueuedChassis._is_idle := idle |};
     QuadChassis._motors :=
       LRStruct.mk (Motor.mk QuadChassis._drive_controller_id "b" false)
         (Motor.mk QuadChassis._drive_controller_id "a" true);
     QuadChassis._wheels :=
       LRStruct.mk
         (Wheel.init (Motor.mk QuadChassis._drive_controller_id "b" false)
            (inches_to_meters 2) QuadChassis._ticks_per_rotation)
         (Wheel.init (Motor.mk QuadChassis._drive_controller_id "a" true)
            (inches_to_meters 2) QuadChassis._ticks_per_rotation) |}.

End Bench.

(* ===================================================================== *)
(** ** The vocabulary of the statements *)
(* ===================================================================== *)

(** Modelled from the spec: the condition of the first [if] of
    [Wheel.get_goal_progress], which is empty in the source.  The spec gives
    the method three outcomes (a failure when no goal has ever been set, [1]
    when the goal is zero ticks, the progress formula otherwise) and none of
    them is the [return 0] that the condition guards: the condition does not
    hold. *)
Definition spec_progress_guard (w : Wheel.t) : Res bool := Ok false.

(** The range of the floats.  Python raises [OverflowError] where the
    conversion of an [int] or the square of a [float] leaves that range,
    the square of a float close to zero loses its digits, and the double
    of a float beyond half the range is an infinity.  The model, whose
    floats are the real numbers, does none of this: the predicates below
    name the values on which a statement holds of the floats as it holds
    of the reals. *)
Definition float_max_int : Z := (2 ^ 1024 - 2 ^ 971)%Z.

(** The greatest float. *)
Definition float_max : R := IZR float_max_int.

(** Up to it the square of a float is a float, and from its inverse on the
    square has all its digits. *)
Definition square_max : R := IZR (2 ^ 511).

(** A value that [float()] and the arithmetic with a float convert: an
    [int] up to the greatest float; the other values are not converted. *)
Definition float_range (v : pyval) : Prop :=
  match v with
  | PInt z => (Z.abs z <= float_max_int)%Z
  | _ => True
  end.

(** A float whose square is a float with all its digits. *)
Definition float_square (x : R) : Prop :=
  x = 0%R \/ (/ square_max <= Rabs x <= square_max)%R.

Section RobotVocabulary.

Import MockRobot.

Local Open Scope R_scope.

(** The controller after [_update_koalabear] has run at time [now]: the
    encoders have moved by velocity, time and ticks per second, and the time
    stamp is [now]. *)
Definition integrate (now t0 va vb xa xb : R) (dev : gmap string pyval)
    : gmap string pyval :=
  <["enc_b" := PFloat (xb + vb * (t0 - now) * 2000)]>
    (<["enc_a" := PFloat (xa + va * (t0 - now) * 2000)]>
       (<["_LAST_UPDATED" := PFloat now]> dev)).

(** The properties of a controller that the motors use: the time of the
    last update, the two stored velocities and the two encoder counts. *)
Record koalabear (dev : gmap string pyval) (t0 va vb xa xb : R) : Prop := {
  kb_last : dev !! "_LAST_UPDATED" = Some (PFloat t0);
  kb_velocity_a : dev !! "velocity_a" = Some (PFloat va);
  kb_velocity_b : dev !! "velocity_b" = Some (PFloat vb);
  kb_enc_a : exists ea, dev !! "enc_a" = Some ea /\ num_val ea = Some xa;
  kb_enc_b : exists eb, dev !! "enc_b" = Some eb /\ num_val eb = Some xb
}.

(** The robot after an access to the controller [id] that leaves it as
    [dev]: the clock has been read once more. *)
Definition accessed (s : t) (id : string) (dev : gmap string pyval) : t :=
  set_devices (<[id := dev]> (_devices s))
    (set_clock_reads (S (clock_reads s)) s).

(** The value [set_value] stores: an [int] for a [float] property is
    converted. *)
Definition coerce (current value : pyval) : pyval :=
  match value with
  | PInt z =>
      if bool_decide (type_of current = FloatType) then PFloat (IZR z)
      else value
  | _ => value
  end.

(** The robot holds a koalabear controller [id] in the given condition. *)
Definition koalabear_at (s : t) (id : string) (t0 va vb xa xb : R) : Prop :=
  exists dev : gmap string pyval,
    _devices s !! id = Some dev
    /\ _device_types s !! id = Some "koalabear"
    /\ koalabear dev t0 va vb xa xb.

(** The robot can still create the koalabear controller [id]. *)
Definition koalabear_free (s : t) (id : string) : Prop :=
  _devices s !! id = None
  /\ exists limit count : Z,
       _max_devices s !! "koalabear" = Some limit
       /\ _device_counts s !! "koalabear" = Some count
       /\ (count < limit)%Z.

(** [_check_property] lets the access to a property of a koalabear pass and
    leaves a controller behind, created if it has to be. *)
Definition admitted (clock : nat -> R) (s s1 : t) (id key : string)
    (t0 va vb xa xb : R) : Prop :=
  _check_property clock id key s = (Ok tt, s1)
  /\ koalabear_at s1 id t0 va vb xa xb.

(** The four properties of a controller that the motors read and write. *)
Definition motor_property (key : string) : Prop :=
  key = "enc_a" \/ key = "enc_b" \/ key = "velocity_a" \/ key = "velocity_b".

(** The properties of a controller that [_update_koalabear] writes. *)
Definition integrated (key : string) : Prop :=
  key = "enc_a" \/ key = "enc_b" \/ key = "_LAST_UPDATED".

(** The settings of a motor that are not its velocity: properties of the
    controller that are stored and read back, and nothing else. *)
Definition setting (key : string) : Prop :=
  ~ integrated key /\ key <> "velocity_a" /\ key <> "velocity_b".

(** A controller in bounds, with the dict it holds. *)
Definition controller (s : t) (id : string) (dev : gmap string pyval)
    : Prop :=
  _devices s !! id = Some dev
  /\ _device_types s !! id = Some "koalabear"
  /\ exists t0 va vb xa xb : R,
       koalabear dev t0 va vb xa xb /\ Rabs va <= 1 /\ Rabs vb <= 1.

(** What holds of a robot that is used through [get_value] and
    [set_value]: every device has a type, a koalabear controller has its
    time stamp, its velocities and its encoder counts, and both types of
    device are counted. *)
Definition well_formed (s : t) : Prop :=
  (forall (id : string) (dev : gmap string pyval),
      _devices s !! id = Some dev ->
      exists ty : string,
        _device_types s !! id = Some ty
        /\ (ty = "koalabear" ->
            exists t0 va vb xa xb : R, koalabear dev t0 va vb xa xb))
  /\ is_Some (_device_counts s !! "koalabear")
  /\ is_Some (_device_counts s !! "servocontroller").

(** The states of a robot built with [max_devices] and then read and
    written, whether the accesses return or raise.  The values written are
    in the range of floats: an [int] beyond them makes [float(value)] raise
    [OverflowError], and stored in an encoder it makes the next update of
    the controller raise it. *)
Inductive reachable (clock : nat -> R) (max_devices : gmap string Z)
    : t -> Prop :=
  | reachable_init : reachable clock max_devices (init max_devices)
  | reachable_get (s : t) (id key : string) :
      reachable clock max_devices s ->
      reachable clock max_devices (snd (get_value clock id key s))
  | reachable_set (s : t) (id key : string) (value : pyval) :
      float_range value ->
      reachable clock max_devices s ->
      reachable clock max_devices (snd (set_value clock id key value s)).

End RobotVocabulary.

Section ChassisVocabulary.

Import BaseQueuedChassis HookLog.

Context {W : Type} {runtime : Runtime W} {ext : Externals W}.
Context {T : Type} {variant : Variant T}.

(** A computation that leaves the object alone and acts on the world
    only. *)
Definition frame {A : Type} (m : M (T * W) A) : Prop :=
  forall (s s' : T * W) (r : Res A), m s = (r, s') -> fst s' = fst s.

(** The log and the fields of the base class, of a chassis with a log. *)
Definition log_of (s : (T * list hook) * W) : list hook := snd (fst s).
Definition base_of (s : (T * list hook) * W) : fields := base (fst (fst s)).

(** The hook the update runs for the head of the queue when it finds the
    chassis idle. *)
Definition started_if_idle (b : fields) : list hook :=
  match _queue b with
  | m :: _ => if _is_idle b then [Started m] else []
  | [] => []
  end.

(** The hook the update runs when it finds the queue drained. *)
Definition finished_if_drained (b : fields) : list hook :=
  match _queue b with
  | [] => if _is_idle b then [] else [Finished]
  | _ :: _ => []
  end.

(** The hook the update runs for the motion that a pop brings to the
    front. *)
Definition started_next (rest : list QueuedMotion.t) : list hook :=
  match rest with
  | m :: _ => [Started m]
  | [] => []
  end.

(** The state of a [TestChassis] when the update reaches the front motion:
    the start hook has set the time stamp if the chassis was idle. *)
Definition test_started (c : TestChassis.t) : TestChassis.t :=
  if _is_idle (TestChassis._base c)
  then TestChassis.set_base
         (set_is_idle false (TestChassis._base c))
         (TestChassis.set_motion_start_timestamp 0 c)
  else c.

(** A computation that raises from every state. *)
Definition never_returns {S A : Type} (m : M S A) : Prop :=
  forall s : S, exists (e : exn) (s' : S), m s = (Raise e, s').

(** The two distances, left and right, that the update function of a motion
    hands to [_update_motors] on a chassis of the given wheel span:
    [_update_move] asks the path for them, [_update_turn] computes them
    from the angle, and a peripheral action has none. *)
Definition motion_distances (wheelspan : R)
    (turn_distances : R -> Res (R * R)) (m : QueuedMotion.motion)
    : option (R * R) :=
  match m with
  | QueuedMotion.Move path =>
      Some (get_offset_length path (wheelspan / 2),
            get_offset_length path (- wheelspan / 2))%R
  | QueuedMotion.Turn angle =>
      match turn_distances angle with
      | Ok dists => Some dists
      | Raise _ => None
      end
  | QueuedMotion.PeripheralAction _ => None
  end.

Definition quad_distances (m : QueuedMotion.t) : option (R * R) :=
  motion_distances QuadChassis._wheelspan QuadChassis.turn_distances
    (QueuedMotion._update m).

Definition test_distances (m : QueuedMotion.t) : option (R * R) :=
  motion_distances TestChassis._wheelspan TestChassis.turn_distances
    (QueuedMotion._update m).

End ChassisVocabulary.

(* ===================================================================== *)
(** ** Facts about the arithmetic of the model *)
(* ===================================================================== *)

Section Arithmetic.

Local Open Scope R_scope.

Lemma fdiv_ok (x y : R) : y <> 0 -> fdiv x y = Ok (x / y).
Proof. intros Hy. unfold fdiv. case_decide; [contradiction | reflexivity]. Qed.

Lemma fdiv_zero (x : R) : fdiv x 0 = Raise ZeroDivisionError.
Proof. unfold fdiv. case_decide; [reflexivity | contradiction]. Qed.

Lemma math_sqrt_ok (x : R) : 0 <= x -> math_sqrt x = Ok (sqrt x).
Proof. intros Hx. unfold math_sqrt. case_decide; [lra | reflexivity]. Qed.

(** The root in the estimator outweighs a negative initial velocity. *)
Lemma sqrt_square_plus (v x : R) : 0 <= x -> Rabs v <= sqrt (v ^ 2 + x).
Proof.
  intros Hx.
  rewrite <- (sqrt_Rsqr_abs v).
  apply sqrt_le_1_alt. unfold Rsqr. lra.
Qed.

Lemma math_ceil_bounds (x : R) :
  IZR (math_ceil x) - 1 < x <= IZR (math_ceil x).
Proof.
  unfold math_ceil, Int_part.
  destruct (archimed (- x)) as [H1 H2].
  rewrite opp_IZR, minus_IZR. lra.
Qed.

Lemma math_ceil_unique (x : R) (n : Z) :
  IZR n - 1 < x <= IZR n -> math_ceil x = n.
Proof.
  intros [H1 H2].
  destruct (math_ceil_bounds x) as [H3 H4].
  assert (Hlt1 : (n - 1 < math_ceil x)%Z).
  { apply lt_IZR. rewrite minus_IZR. lra. }
  assert (Hlt2 : (math_ceil x - 1 < n)%Z).
  { apply lt_IZR. rewrite minus_IZR. lra. }
  lia.
Qed.

Lemma math_ceil_IZR (n : Z) : math_ceil (IZR n) = n.
Proof. apply math_ceil_unique. lra. Qed.

Lemma math_copysign_abs (x y : R) : Rabs (math_copysign x y) = Rabs x.
Proof.
  unfold math_copysign. case_decide.
  - rewrite Rabs_Ropp. apply Rabs_Rabsolu.
  - apply Rabs_Rabsolu.
Qed.

Lemma float_max_large : 1 <= float_max.
Proof. apply IZR_le. unfold float_max_int. lia. Qed.

Lemma square_max_large : 1 <= square_max.
Proof. apply IZR_le. lia. Qed.

(** The floats from [1 / square_max] to [1] in magnitude have a square
    with all its digits. *)
Lemma float_square_unit (x : R) :
  / square_max <= Rabs x <= 1 -> float_square x.
Proof.
  intros [Hlow Hhigh]. right. pose proof square_max_large. lra.
Qed.

(** A number of magnitude up to one is in the range of floats. *)
Lemma float_range_unit (v : pyval) (x : R) :
  num_val v = Some x -> Rabs x <= 1 -> float_range v.
Proof.
  destruct v as [| b | z | y]; cbn; try tauto.
  intros Hz Hx. inversion Hz; subst x.
  rewrite <- abs_IZR in Hx. apply le_IZR in Hx.
  unfold float_max_int. lia.
Qed.

Lemma float_square_one : float_square 1 /\ float_square (-1).
Proof.
  pose proof square_max_large as Hmax.
  assert (Hinv : / square_max <= 1).
  { rewrite <- Rinv_1. apply Rinv_le_contravar; lra. }
  split; apply float_square_unit.
  - rewrite Rabs_R1. lra.
  - rewrite Rabs_left by lra. lra.
Qed.

End Arithmetic.

(* ===================================================================== *)
(** ** The travel-time estimator of [TestChassis] *)
(* ===================================================================== *)

Section Kinematics.

Context {W : Type} {runtime : Runtime W} {ext : Externals W}.

Local Open Scope R_scope.

(** With [should_deaccelerate] the estimator asks
    [_will_hit_max_velocity], which is not implemented. *)
Lemma estimate_travel_time_must_stop (c : TestChassis.t) (w : W)
    (v_i d : R) :
  TestChassis._estimate_travel_time v_i d true (c, w)
  = (Raise NotImplementedError, (c, w)).
Proof. reflexivity. Qed.

(** Without it, the estimator returns one time twice. *)
Lemma estimate_travel_time_no_stop (c : TestChassis.t) (w : W)
    (v_i d : R) :
  0 < TestChassis._max_acceleration c ->
  TestChassis._estimate_travel_time v_i d false (c, w)
  = (Ok (Rmin (v_i + sqrt (v_i ^ 2 + 2 * TestChassis._max_acceleration c
                                      * Rabs d))
            (TestChassis._max_velocity c)
         / TestChassis._max_acceleration c,
         Rmin (v_i + sqrt (v_i ^ 2 + 2 * TestChassis._max_acceleration c
                                      * Rabs d))
            (TestChassis._max_velocity c)
         / TestChassis._max_acceleration c),
     (c, w)).
Proof.
  intros Ha.
  unfold TestChassis._estimate_travel_time, bind, TestChassis.this, lift.
  cbn [fst snd].
  rewrite math_sqrt_ok.
  2:{ pose proof (Rabs_pos d). pose proof (pow2_ge_0 v_i). nra. }
  rewrite fdiv_ok by lra.
  reflexivity.
Qed.

(** C1, amended.  For a positive maximal velocity, a positive maximal
    acceleration whose double is a float, and a current velocity that is
    zero or has a square that is a float with all its digits: when a full
    stop is required the estimator raises [NotImplementedError]; otherwise
    it returns a pair [(t_decel, t_finish)] with [0 <= t_decel = t_finish],
    and both are [0] when the distance is [0] and the current velocity is
    not positive.  Outside that range Python raises [OverflowError] on the
    square, or rounds it to zero or to a number without digits, and the
    sum with the root can be negative. *)
Theorem estimate_travel_time_profile (c : TestChassis.t) (w : W)
    (v_i d : R) :
  0 < TestChassis._max_velocity c ->
  0 < TestChassis._max_acceleration c ->
  2 * TestChassis._max_acceleration c <= float_max ->
  float_square v_i ->
  TestChassis._estimate_travel_time v_i d true (c, w)
  = (Raise NotImplementedError, (c, w))
  /\ exists t : R,
       TestChassis._estimate_travel_time v_i d false (c, w)
       = (Ok (t, t), (c, w))
       /\ 0 <= t
       /\ (d = 0 -> v_i <= 0 -> t = 0).
Proof.
  intros Hv Ha _ _. split; [apply estimate_travel_time_must_stop |].
  eexists. split; [apply estimate_travel_time_no_stop; exact Ha |].
  set (a := TestChassis._max_acceleration c) in *.
  set (v_max := TestChassis._max_velocity c) in *.
  assert (Hroot : Rabs v_i <= sqrt (v_i ^ 2 + 2 * a * Rabs d)).
  { apply sqrt_square_plus. pose proof (Rabs_pos d). nra. }
  split.
  - unfold Rdiv.
    apply Rmult_le_pos; [| left; apply Rinv_0_lt_compat; exact Ha].
    apply Rmin_glb; [| lra].
    pose proof (Rle_abs (- v_i)) as Habs. rewrite Rabs_Ropp in Habs. lra.
  - intros Hd Hneg. subst d.
    rewrite Rabs_R0, Rmult_0_r, Rplus_0_r.
    replace (v_i ^ 2) with (Rsqr v_i) by (unfold Rsqr; ring).
    rewrite sqrt_Rsqr_abs, (Rabs_left1 v_i) by exact Hneg.
    replace (v_i + - v_i) with 0 by ring.
    rewrite Rmin_left by lra.
    unfold Rdiv. apply Rmult_0_l.
Qed.

End Kinematics.

Lemma light_chassis_acceleration :
  (0 < TestChassis._max_acceleration Bench.light_chassis)%R.
Proof.
  cbv [Bench.light_chassis Bench.test_chassis TestChassis._max_acceleration
       Bench.inches_to_meters].
  lra.
Qed.

Lemma light_chassis_velocity :
  (0 < TestChassis._max_velocity Bench.light_chassis)%R.
Proof.
  cbv [Bench.light_chassis Bench.test_chassis TestChassis._max_velocity
       Bench.inches_to_meters].
  lra.
Qed.

(** The chassis of robot type ["light"]: asked for a full stop, the estimator
    raises; not asked for one, at distance [0] and velocity [1], it returns
    two times that are not [0]. *)
Lemma estimate_travel_time_counterexample :
  fst (TestChassis._estimate_travel_time 1 0 true
         (Bench.light_chassis, Bench.robot))
  = Raise NotImplementedError
  /\ exists t_decel t_finish : R,
       fst (TestChassis._estimate_travel_time 1 0 false
              (Bench.light_chassis, Bench.robot))
       = Ok (t_decel, t_finish)
       /\ (0 < t_decel)%R /\ (0 < t_finish)%R.
Proof.
  split; [reflexivity |].
  pose proof light_chassis_acceleration as Ha.
  pose proof light_chassis_velocity as Hv.
  rewrite (estimate_travel_time_no_stop _ _ _ _ Ha). cbn [fst].
  do 2 eexists. split; [reflexivity |].
  assert (Hpos :
    (0 < Rmin (1 + sqrt (1 ^ 2 + 2 * TestChassis._max_acceleration
                                       Bench.light_chassis * Rabs 0))
           (TestChassis._max_velocity Bench.light_chassis)
         / TestChassis._max_acceleration Bench.light_chassis)%R).
  { apply Rdiv_lt_0_compat; [| exact Ha].
    apply Rmin_glb_lt; [| exact Hv].
    pose proof (sqrt_pos (1 ^ 2 + 2 * TestChassis._max_acceleration
                                      Bench.light_chassis * Rabs 0)).
    lra. }
  split; exact Hpos.
Qed.

Lemma light_chassis_acceleration_double :
  (2 * TestChassis._max_acceleration Bench.light_chassis <= float_max)%R.
Proof.
  pose proof float_max_large as Hmax.
  cbv [Bench.light_chassis Bench.test_chassis TestChassis._max_acceleration
       Bench.inches_to_meters].
  lra.
Qed.

(** The chassis of robot type ["light"], rolling backwards at velocity
    [-1], at distance [0]: the two times are [0]. *)
Lemma estimate_travel_time_profile_witness :
  (0 < TestChassis._max_velocity Bench.light_chassis)%R
  /\ (0 < TestChassis._max_acceleration Bench.light_chassis)%R
  /\ (2 * TestChassis._max_acceleration Bench.light_chassis <= float_max)%R
  /\ float_square (-1)
  /\ TestChassis._estimate_travel_time (-1) 0 true
       (Bench.light_chassis, Bench.robot)
     = (Raise NotImplementedError, (Bench.light_chassis, Bench.robot))
  /\ exists t : R,
       TestChassis._estimate_travel_time (-1) 0 false
         (Bench.light_chassis, Bench.robot)
       = (Ok (t, t), (Bench.light_chassis, Bench.robot))
       /\ (0 <= t)%R
       /\ (0 = 0 -> -1 <= 0 -> t = 0)%R.
Proof.
  pose proof light_chassis_acceleration as Ha.
  pose proof light_chassis_velocity as Hv.
  pose proof light_chassis_acceleration_double as Hdouble.
  pose proof (proj2 float_square_one) as Hsquare.
  split; [exact Hv |]. split; [exact Ha |].
  split; [exact Hdouble |]. split; [exact Hsquare |].
  exact (estimate_travel_time_profile Bench.light_chassis Bench.robot
           (-1) 0 Hv Ha Hdouble Hsquare).
Defined.

(* ===================================================================== *)
(** ** The distances of a turn *)
(* ===================================================================== *)

Section TurnDistances.

Context {W : Type} {ext : Externals W}.

Local Open Scope R_scope.

(** [copysign] of a quotient by a positive span, with the sign of the
    dividend, is the quotient. *)
Lemma copysign_quotient (angle span : R) :
  0 < span ->
  math_copysign (angle / span / 2) angle = angle / span / 2.
Proof.
  intros Hs. unfold math_copysign.
  assert (Hinv : 0 < / span) by (apply Rinv_0_lt_compat; exact Hs).
  case_decide as Hneg.
  - rewrite Rabs_left1; [ring |].
    unfold Rdiv. nra.
  - apply Rabs_pos_eq.
    unfold Rdiv. nra.
Qed.

(** What [QuadChassis._update_turn] computes: the angle divided by the
    wheel span and by two on the left, the opposite on the right. *)
Lemma quad_turn_distances (angle : R) :
  0 < QuadChassis._wheelspan ->
  QuadChassis.turn_distances angle
  = Ok (angle / QuadChassis._wheelspan / 2,
        - (angle / QuadChassis._wheelspan / 2)).
Proof.
  intros Hs. unfold QuadChassis.turn_distances.
  rewrite fdiv_ok by lra.
  rewrite copysign_quotient by exact Hs. reflexivity.
Qed.

(** [TestChassis._update_turn] computes the same from its own span. *)
Lemma test_turn_distances (angle : R) :
  0 < TestChassis._wheelspan ->
  TestChassis.turn_distances angle
  = Ok (angle / TestChassis._wheelspan / 2,
        - (angle / TestChassis._wheelspan / 2)).
Proof.
  intros Hs. unfold TestChassis.turn_distances.
  rewrite fdiv_ok by lra.
  rewrite copysign_quotient by exact Hs. reflexivity.
Qed.

End TurnDistances.

(** C2, the code at a turn of one radian.  With the wheel span of
    [QuadChassis], 14.5 inches or 0.3683 m, the left distance is
    [1 / 0.3683 / 2] and the right distance its opposite; the magnitude
    [|angle| * wheel_span / 2] would be [0.3683 / 2]. *)
Theorem quad_turn_distances_one_radian :
  QuadChassis.turn_distances (ext := Bench.externals) 1
  = Ok (1 / 0.3683 / 2, - (1 / 0.3683 / 2))%R
  /\ (1 / 0.3683 / 2 <> Rabs 1 * 0.3683 / 2)%R
  /\ QuadChassis._wheelspan (ext := Bench.externals) = 0.3683%R.
Proof.
  assert (Hspan : QuadChassis._wheelspan (ext := Bench.externals) = 0.3683%R).
  { unfold QuadChassis._wheelspan. cbn [inches_to_meters Bench.externals].
    unfold Bench.inches_to_meters. lra. }
  split; [| split; [| exact Hspan]].
  - rewrite quad_turn_distances by (rewrite Hspan; lra).
    rewrite Hspan. reflexivity.
  - rewrite Rabs_R1. lra.
Qed.

(* ===================================================================== *)
(** ** The goal tracker, on any robot *)
(* ===================================================================== *)

Section GoalTracker.

Context {W : Type} {runtime : Runtime W}.

Variable progress_guard : Wheel.t -> Res bool.

Local Open Scope R_scope.

(** A product of an encoder reading and a sign is a number. *)
Lemma py_mul_int_number (v : pyval) (z : Z) (r : pyval) :
  py_mul v (PInt z) = Ok r -> exists x : R, num_val r = Some x.
Proof.
  destruct v as [| b | n | x]; cbn; intros H; inversion H; subst; cbn;
    eauto.
Qed.

Lemma get_encoder_number (m : Motor.t) (s s' : W) (enc : pyval) :
  Motor.get_encoder m s = (Ok enc, s') -> exists x : R, num_val enc = Some x.
Proof.
  unfold Motor.get_encoder, bind, lift.
  destruct (Motor._get m "enc" s) as [[v | e] s1]; [| discriminate].
  destruct (py_mul v (PInt (if Motor._is_inverted m then -1 else 1)))
    as [r | e] eqn:Hmul; [| discriminate].
  intros H. inversion H; subst.
  eapply py_mul_int_number. exact Hmul.
Qed.

(** The wheel that holds no goal: when the condition does not evaluate to
    true, the method raises and leaves wheel and robot alone. *)
Lemma get_goal_progress_no_goal (w : Wheel.t) (s : W) :
  Wheel._goal_pos w = None ->
  progress_guard w <> Ok true ->
  exists e : exn,
    Wheel.get_goal_progress progress_guard (w, s) = (Raise e, (w, s)).
Proof.
  intros Hgoal Hguard.
  unfold Wheel.get_goal_progress, bind, Wheel.self, lift. cbn [fst snd].
  destruct (progress_guard w) as [[|] | e].
  - contradiction.
  - rewrite Hgoal. exists AttributeError. reflexivity.
  - exists e. reflexivity.
Qed.

(** When the condition holds, the method returns [0]. *)
Lemma get_goal_progress_guarded (w : Wheel.t) (s : W) :
  progress_guard w = Ok true ->
  Wheel.get_goal_progress progress_guard (w, s) = (Ok (PInt 0), (w, s)).
Proof.
  intros Hguard.
  unfold Wheel.get_goal_progress, bind, Wheel.self, lift. cbn [fst snd].
  rewrite Hguard. reflexivity.
Qed.

(** A goal of zero ticks: the method returns the integer [1] and touches
    neither the wheel nor the robot. *)
Lemma get_goal_progress_zero_goal (w : Wheel.t) (s : W) (g : pyval) :
  Wheel._goal_pos w = Some g ->
  py_eq g (PInt 0) = true ->
  progress_guard w = Ok false ->
  Wheel.get_goal_progress progress_guard (w, s) = (Ok (PInt 1), (w, s)).
Proof.
  intros Hgoal Hzero Hguard.
  unfold Wheel.get_goal_progress, bind, Wheel.self, lift. cbn [fst snd].
  rewrite Hguard, Hgoal. cbn. rewrite Hzero. reflexivity.
Qed.

(** What a call of [set_goal] that returns has done. *)
Lemma set_goal_returns (goal velocity : R) (w w' : Wheel.t) (s s' : W) :
  Wheel.set_goal goal velocity (w, s) = (Ok tt, (w', s')) ->
  exists (start_pos : pyval) (s1 : W) (m : Motor.t),
    Motor.get_encoder (Wheel._motor w) s = (Ok start_pos, s1)
    /\ Wheel._radius w * 2 * math_pi <> 0
    /\ Motor.set_velocity (Wheel._motor w)
         (PFloat (math_copysign velocity
                    (IZR (math_ceil (goal / (Wheel._radius w * 2 * math_pi)
                                     * Wheel._ticks_per_rot w))))) s1
       = (Ok m, s')
    /\ w' = Wheel.mk (Wheel._motor w) (Wheel._radius w)
              (Wheel._ticks_per_rot w)
              (Some (PInt (math_ceil
                             (goal / (Wheel._radius w * 2 * math_pi)
                              * Wheel._ticks_per_rot w))))
              (Some velocity) start_pos.
Proof.
  unfold Wheel.set_goal, bind, Wheel.self, Wheel.on_robot, zoom, lift,
    Wheel.assign, modify.
  cbn [fst snd].
  destruct (Motor.get_encoder (Wheel._motor w) s) as [[enc | e] s1];
    [| discriminate].
  cbn [fst snd]. unfold fdiv.
  case_decide as Hzero; [discriminate |].
  cbn [fst snd Wheel._motor Wheel._radius Wheel._ticks_per_rot
       Wheel.set_start_pos Wheel.set_goal_pos].
  destruct (Motor.set_velocity _ _ s1) as [[m | e] s2] eqn:Hset;
    [| discriminate].
  cbn [fst snd]. intros H. inversion H; subst.
  exists enc, s1, m. repeat split; try assumption.
Qed.

(** The converse: when the robot answers, [set_goal] returns. *)
Lemma set_goal_runs (goal velocity : R) (w : Wheel.t) (s s1 s' : W)
    (start_pos : pyval) (m : Motor.t) :
  Motor.get_encoder (Wheel._motor w) s = (Ok start_pos, s1) ->
  Wheel._radius w * 2 * math_pi <> 0 ->
  Motor.set_velocity (Wheel._motor w)
    (PFloat (math_copysign velocity
               (IZR (math_ceil (goal / (Wheel._radius w * 2 * math_pi)
                                * Wheel._ticks_per_rot w))))) s1
  = (Ok m, s') ->
  Wheel.set_goal goal velocity (w, s)
  = (Ok tt,
     (Wheel.mk (Wheel._motor w) (Wheel._radius w) (Wheel._ticks_per_rot w)
        (Some (PInt (math_ceil (goal / (Wheel._radius w * 2 * math_pi)
                                * Wheel._ticks_per_rot w))))
        (Some velocity) start_pos,
      s')).
Proof.
  intros Henc Hr Hset.
  unfold Wheel.set_goal, bind, Wheel.self, Wheel.on_robot, zoom, lift,
    Wheel.assign, modify.
  cbn [fst snd]. rewrite Henc. cbn [fst snd].
  rewrite fdiv_ok by exact Hr.
  cbn [fst snd Wheel._motor Wheel._radius Wheel._ticks_per_rot
       Wheel.set_start_pos Wheel.set_goal_pos].
  rewrite Hset. reflexivity.
Qed.

(** A goal at distance zero is a goal of zero ticks. *)
Lemma zero_distance_ticks (radius ticks_per_rot : R) :
  math_ceil (0 / (radius * 2 * math_pi) * ticks_per_rot) = 0%Z.
Proof.
  replace (0 / (radius * 2 * math_pi) * ticks_per_rot) with (IZR 0).
  - apply math_ceil_IZR.
  - unfold Rdiv. ring.
Qed.

(** C4.  After [set_goal(0, v)] has returned, [get_goal_progress()] returns
    the integer [1] and leaves wheel and robot as they are: nothing is read
    and nothing is divided.  The same holds for every wheel whose stored
    goal equals [0].  (The empty condition of the source is taken not to
    hold on a wheel with a goal.) *)
Theorem zero_goal_progress_is_one (w : Wheel.t) (s : W) :
  (forall (v : R) (w' : Wheel.t) (s' : W),
      Wheel.set_goal 0 v (w, s) = (Ok tt, (w', s')) ->
      progress_guard w' = Ok false ->
      Wheel.get_goal_progress progress_guard (w', s')
      = (Ok (PInt 1), (w', s')))
  /\ (forall g : pyval,
        Wheel._goal_pos w = Some g ->
        py_eq g (PInt 0) = true ->
        progress_guard w = Ok false ->
        Wheel.get_goal_progress progress_guard (w, s)
        = (Ok (PInt 1), (w, s))).
Proof.
  split.
  - intros v w' s' Hset Hguard.
    destruct (set_goal_returns _ _ _ _ _ _ Hset)
      as (start_pos & s1 & m & _ & _ & _ & Hw').
    rewrite zero_distance_ticks in Hw'.
    apply (get_goal_progress_zero_goal w' s' (PInt 0)).
    + subst w'. reflexivity.
    + cbn. apply bool_decide_eq_true_2. reflexivity.
    + exact Hguard.
  - intros g. apply get_goal_progress_zero_goal.
Qed.

End GoalTracker.

Section Numbers.

Local Open Scope R_scope.

(** The difference of two numbers is a number, of the expected value. *)
Lemma py_sub_number (a b : pyval) (x y : R) :
  num_val a = Some x -> num_val b = Some y ->
  exists r : pyval, py_sub a b = Ok r /\ num_val r = Some (x - y).
Proof.
  intros Ha Hb.
  destruct a as [| [|] | za | xa], b as [| [|] | zb | xb];
    cbn in Ha, Hb; try discriminate;
    inversion Ha; inversion Hb; subst;
    eexists; (split; [reflexivity |]); cbn;
    rewrite ?minus_IZR; f_equal; lra.
Qed.

Lemma py_truediv_number (a b : pyval) (x y : R) :
  num_val a = Some x -> num_val b = Some y -> y <> 0 ->
  py_truediv a b = Ok (PFloat (x / y)).
Proof.
  intros Ha Hb Hy. unfold py_truediv. rewrite Ha, Hb.
  case_decide; [contradiction | reflexivity].
Qed.

Lemma py_truediv_by_zero (a b : pyval) (x : R) :
  num_val a = Some x -> num_val b = Some 0 ->
  py_truediv a b = Raise ZeroDivisionError.
Proof.
  intros Ha Hb. unfold py_truediv. rewrite Ha, Hb.
  case_decide; [reflexivity | contradiction].
Qed.

Lemma py_eq_zero (a : pyval) (x : R) :
  num_val a = Some x -> py_eq a (PInt 0) = bool_decide (x = 0).
Proof. intros Ha. unfold py_eq. rewrite Ha. reflexivity. Qed.

End Numbers.

Section GoalTrackerProgress.

Context {W : Type} {runtime : Runtime W}.

Variable progress_guard : Wheel.t -> Res bool.

Local Open Scope R_scope.

(** The progress formula, for a goal that is not zero and differs from the
    start. *)
Lemma get_goal_progress_formula (w : Wheel.t) (s s1 : W) (g enc : pyval)
    (x_goal x_enc x_start : R) :
  progress_guard w = Ok false ->
  Wheel._goal_pos w = Some g ->
  num_val g = Some x_goal ->
  num_val (Wheel._start_pos w) = Some x_start ->
  Motor.get_encoder (Wheel._motor w) s = (Ok enc, s1) ->
  num_val enc = Some x_enc ->
  x_goal <> 0 ->
  x_goal <> x_start ->
  Wheel.get_goal_progress progress_guard (w, s)
  = (Ok (PFloat (1 - (x_goal - x_enc) / (x_goal - x_start))), (w, s1)).
Proof.
  intros Hguard Hgoal Hg Hstart Henc He Hnz Hne.
  unfold Wheel.get_goal_progress, bind, Wheel.self, lift, Wheel.on_robot,
    zoom.
  cbn [fst snd]. rewrite Hguard, Hgoal. cbn [attr ret].
  rewrite (py_eq_zero g x_goal Hg).
  rewrite bool_decide_eq_false_2 by exact Hnz.
  cbn [fst snd]. rewrite Henc. cbn [fst snd].
  destruct (py_sub_number g enc _ _ Hg He) as (rem & Hrem & Hremv).
  destruct (py_sub_number g (Wheel._start_pos w) _ _ Hg Hstart)
    as (tot & Htot & Htotv).
  rewrite Hrem, Htot.
  rewrite (py_truediv_number rem tot _ _ Hremv Htotv) by lra.
  reflexivity.
Qed.

(** The same call when the goal equals the start: the quotient has a zero
    divisor. *)
Lemma get_goal_progress_goal_at_start (w : Wheel.t) (s s1 : W)
    (g enc : pyval) (x_goal x_enc : R) :
  progress_guard w = Ok false ->
  Wheel._goal_pos w = Some g ->
  num_val g = Some x_goal ->
  num_val (Wheel._start_pos w) = Some x_goal ->
  Motor.get_encoder (Wheel._motor w) s = (Ok enc, s1) ->
  num_val enc = Some x_enc ->
  x_goal <> 0 ->
  Wheel.get_goal_progress progress_guard (w, s)
  = (Raise ZeroDivisionError, (w, s1)).
Proof.
  intros Hguard Hgoal Hg Hstart Henc He Hnz.
  unfold Wheel.get_goal_progress, bind, Wheel.self, lift, Wheel.on_robot,
    zoom.
  cbn [fst snd]. rewrite Hguard, Hgoal. cbn [attr ret].
  rewrite (py_eq_zero g x_goal Hg).
  rewrite bool_decide_eq_false_2 by exact Hnz.
  cbn [fst snd]. rewrite Henc. cbn [fst snd].
  destruct (py_sub_number g enc _ _ Hg He) as (rem & Hrem & Hremv).
  destruct (py_sub_number g (Wheel._start_pos w) _ _ Hg Hstart)
    as (tot & Htot & Htotv).
  rewrite Hrem, Htot.
  replace (x_goal - x_goal) with 0 in Htotv by lra.
  rewrite (py_truediv_by_zero rem tot _ Hremv Htotv).
  reflexivity.
Qed.

(** What a call of [stop] that returns has done: it has read the encoder,
    made the reading the goal and set the velocity of the motor to [0]. *)
Lemma stop_returns (w w' : Wheel.t) (s s' : W) :
  Wheel.stop (w, s) = (Ok tt, (w', s')) ->
  exists (enc : pyval) (s1 : W) (m : Motor.t),
    Motor.get_encoder (Wheel._motor w) s = (Ok enc, s1)
    /\ Motor.set_velocity (Wheel._motor w) (PInt 0) s1 = (Ok m, s')
    /\ w' = Wheel.set_goal_pos enc w.
Proof.
  unfold Wheel.stop, bind, Wheel.self, Wheel.on_robot, zoom, Wheel.assign,
    modify, ret.
  cbn [fst snd].
  destruct (Motor.get_encoder (Wheel._motor w) s) as [[enc | e] s1]
    eqn:Henc; [| discriminate].
  cbn [fst snd].
  destruct (Motor.set_velocity (Wheel._motor w) (PInt 0) s1)
    as [[m | e] s2] eqn:Hset; [| discriminate].
  cbn [fst snd]. intros H. inversion H; subst.
  exists enc, s1, m. split; [reflexivity |]. split; [exact Hset |].
  reflexivity.
Qed.

Lemma stop_runs (w : Wheel.t) (s s1 s' : W) (enc : pyval) (m : Motor.t) :
  Motor.get_encoder (Wheel._motor w) s = (Ok enc, s1) ->
  Motor.set_velocity (Wheel._motor w) (PInt 0) s1 = (Ok m, s') ->
  Wheel.stop (w, s) = (Ok tt, (Wheel.set_goal_pos enc w, s')).
Proof.
  intros Henc Hset.
  unfold Wheel.stop, bind, Wheel.self, Wheel.on_robot, zoom, Wheel.assign,
    modify, ret.
  cbn [fst snd]. rewrite Henc. cbn [fst snd]. rewrite Hset. reflexivity.
Qed.

(** After [stop], with the encoder where it was at the stop: the progress
    is [1] when that reading is [0], and when it differs from the start of
    the goal. *)
Lemma progress_after_stop (w w' : Wheel.t) (s s' s'' : W) (enc : pyval)
    (x_enc x_start : R) :
  Wheel.stop (w, s) = (Ok tt, (w', s')) ->
  progress_guard w' = Ok false ->
  Wheel._goal_pos w' = Some enc ->
  num_val enc = Some x_enc ->
  num_val (Wheel._start_pos w) = Some x_start ->
  Motor.get_encoder (Wheel._motor w) s' = (Ok enc, s'') ->
  x_enc = 0 \/ x_enc <> x_start ->
  exists (r : pyval) (s2 : W),
    Wheel.get_goal_progress progress_guard (w', s') = (Ok r, (w', s2))
    /\ num_val r = Some 1.
Proof.
  intros Hstop Hguard Hgoal Hx Hstart Hread Hcase.
  destruct (stop_returns _ _ _ _ Hstop) as (enc0 & s1 & m & _ & _ & Hw').
  assert (Hstart' : num_val (Wheel._start_pos w') = Some x_start)
    by (subst w'; exact Hstart).
  assert (Hmotor : Wheel._motor w' = Wheel._motor w)
    by (subst w'; reflexivity).
  destruct (Req_dec_T x_enc 0) as [Hzero | Hnz].
  - exists (PInt 1), s'. split; [| reflexivity].
    eapply get_goal_progress_zero_goal; [exact Hgoal | | exact Hguard].
    rewrite (py_eq_zero enc x_enc Hx).
    apply bool_decide_eq_true_2. exact Hzero.
  - destruct Hcase as [Hzero | Hne]; [contradiction |].
    eexists. exists s''. split.
    + eapply get_goal_progress_formula
        with (x_goal := x_enc) (x_enc := x_enc) (x_start := x_start);
        try eassumption.
      rewrite Hmotor. exact Hread.
    + cbn. f_equal. field. lra.
Qed.

End GoalTrackerProgress.

(* ===================================================================== *)
(** ** Running the simulated robot *)
(* ===================================================================== *)

Lemma bind_ok {S A B : Type} (m : M S A) (k : A -> M S B) (s s' : S)
    (a : A) :
  m s = (Ok a, s') -> bind m k s = k a s'.
Proof. intros H. unfold bind. rewrite H. reflexivity. Qed.

Lemma bind_raise {S A B : Type} (m : M S A) (k : A -> M S B) (s s' : S)
    (e : exn) :
  m s = (Raise e, s') -> bind m k s = (Raise e, s').
Proof. intros H. unfold bind. rewrite H. reflexivity. Qed.

Lemma bind_inv {S A B : Type} (m : M S A) (k : A -> M S B) (s s' : S)
    (b : B) :
  bind m k s = (Ok b, s') ->
  exists (a : A) (s1 : S), m s = (Ok a, s1) /\ k a s1 = (Ok b, s').
Proof.
  unfold bind. destruct (m s) as [[a | e] s1]; [| discriminate].
  intros H. exists a, s1. split; [reflexivity | exact H].
Qed.

(** One step of a method: the first computation of a sequence returns. *)
Tactic Notation "mstep" "by" tactic3(tac) :=
  erewrite bind_ok; [| tac]; cbv beta.
Tactic Notation "mstep" := erewrite bind_ok; [| reflexivity]; cbv beta.

(** The fields of a robot that is written out. *)
Ltac robot_fields :=
  cbn [MockRobot.clock_reads MockRobot.set_clock_reads MockRobot.set_devices
       MockRobot._devices MockRobot._device_types MockRobot._max_devices
       MockRobot._device_counts].

Section MockRobotRuns.

Import MockRobot.

Variable clock : nat -> R.

Local Open Scope R_scope.

Lemma device_get_runs (s : t) (id key : string) (dev : gmap string pyval)
    (v : pyval) :
  _devices s !! id = Some dev -> dev !! key = Some v ->
  device_get id key s = (Ok v, s).
Proof.
  intros Hd Hk. unfold device_get, bind, get, dict_get.
  rewrite Hd. cbn. rewrite Hk. reflexivity.
Qed.

Lemma device_set_runs (s : t) (id key : string) (dev : gmap string pyval)
    (v : pyval) :
  _devices s !! id = Some dev ->
  device_set id key v s
  = (Ok tt, set_devices (<[id := <[key := v]> dev]> (_devices s)) s).
Proof.
  intros Hd. unfold device_set, bind, get, dict_get, modify.
  rewrite Hd. reflexivity.
Qed.

(** A property of the controller [id], read after some properties were
    written: the current dict of the controller is the one last stored. *)
Ltac read_device H :=
  eapply device_get_runs;
  [apply lookup_insert_eq | rewrite ?lookup_insert_ne by done; exact H].

(** [_update_koalabear] on a controller whose velocities are in bounds. *)
Lemma update_koalabear_runs (s : t) (id : string) (dev : gmap string pyval)
    (t0 va vb xa xb : R) (ea eb : pyval) :
  _devices s !! id = Some dev ->
  dev !! "_LAST_UPDATED" = Some (PFloat t0) ->
  dev !! "velocity_a" = Some (PFloat va) ->
  dev !! "velocity_b" = Some (PFloat vb) ->
  dev !! "enc_a" = Some ea -> num_val ea = Some xa ->
  dev !! "enc_b" = Some eb -> num_val eb = Some xb ->
  Rabs va <= 1 -> Rabs vb <= 1 ->
  _update_koalabear clock id s
  = (Ok tt,
     set_devices
       (<[id := integrate (clock (clock_reads s)) t0 va vb xa xb dev]>
          (_devices s))
       (set_clock_reads (S (clock_reads s)) s)).
Proof.
  intros Hd Ht Hva Hvb Hea Hxa Heb Hxb Hba Hbb.
  destruct s as [devices types limits counts n]. cbn in Hd.
  unfold _update_koalabear.
  mstep.
  mstep by (unfold dict_get; cbn [_devices]; rewrite Hd; reflexivity).
  mstep.
  robot_fields.
  mstep by (eapply device_get_runs; [exact Hd | exact Ht]).
  mstep.
  mstep by (eapply device_set_runs; exact Hd).
  robot_fields.
  mstep by (read_device Hva).
  mstep.
  mstep.
  mstep by (rewrite bool_decide_eq_false_2 by lra; reflexivity).
  mstep by (read_device Hvb).
  mstep.
  mstep.
  mstep by (rewrite bool_decide_eq_false_2 by lra; reflexivity).
  robot_fields.
  mstep by (read_device Hea).
  mstep by (read_device Hva).
  mstep.
  mstep.
  mstep by (unfold lift, py_add, arith; rewrite Hxa;
            destruct (int_val ea); reflexivity).
  mstep by (eapply device_set_runs; apply lookup_insert_eq).
  robot_fields.
  rewrite insert_insert_eq.
  mstep by (read_device Heb).
  mstep by (read_device Hvb).
  mstep.
  mstep.
  mstep by (unfold lift, py_add, arith; rewrite Hxb;
            destruct (int_val eb); reflexivity).
  erewrite device_set_runs; [| apply lookup_insert_eq].
  robot_fields.
  rewrite insert_insert_eq.
  reflexivity.
Qed.


Lemma check_property_known (s : t) (id key : string) (dev : gmap string pyval) :
  _devices s !! id = Some dev -> is_Some (dev !! key) ->
  _check_property clock id key s = (Ok tt, s).
Proof.
  intros Hd Hk. unfold _check_property.
  mstep.
  mstep by (rewrite bool_decide_eq_true_2 by (rewrite Hd; eauto); reflexivity).
  mstep.
  mstep by (unfold dict_get; rewrite Hd; reflexivity).
  rewrite bool_decide_eq_true_2 by exact Hk. reflexivity.
Qed.

Lemma scan_koalabear (key : string) :
  scan_device_types key _default_device_properties = Some "koalabear" ->
  is_Some (koalabear_defaults !! key).
Proof.
  unfold _default_device_properties. cbn [scan_device_types].
  case_bool_decide as Hk; [intros _; exact Hk |].
  case_bool_decide; discriminate.
Qed.

Lemma check_property_creates (s : t) (id key : string) (limit count : Z) :
  _devices s !! id = None ->
  scan_device_types key _default_device_properties = Some "koalabear" ->
  _max_devices s !! "koalabear" = Some limit ->
  _device_counts s !! "koalabear" = Some count ->
  (count < limit)%Z ->
  _check_property clock id key s
  = (Ok tt,
     mk (<[id := <["_LAST_UPDATED" := PFloat (clock (clock_reads s))]>
                   koalabear_defaults]> (_devices s))
        (<[id := "koalabear"]> (_device_types s))
        (_max_devices s)
        (<["koalabear" := (count + 1)%Z]> (_device_counts s))
        (S (clock_reads s))).
Proof.
  intros Hd Hscan Hmax Hcount Hlt.
  pose proof (scan_koalabear key Hscan) as Hkey.
  destruct s as [devices types limits counts n]. cbn in Hd, Hmax, Hcount.
  unfold _check_property.
  mstep.
  robot_fields.
  erewrite bind_ok.
  2:{ rewrite bool_decide_eq_false_2
        by (rewrite Hd; intros [? ?]; discriminate).
      rewrite Hscan.
      mstep by (rewrite bool_decide_eq_true_2 by (rewrite Hmax; eauto);
                  unfold dict_get; rewrite Hcount, Hmax;
                  mstep; mstep;
                  rewrite (proj2 (Z.leb_gt limit count)) by exact Hlt;
                  reflexivity).
      mstep by (unfold dict_get; rewrite Hcount; reflexivity).
      mstep.
      mstep.
      mstep.
      mstep.
      reflexivity. }
  cbv beta.
  mstep.
  mstep by (unfold dict_get; cbn; rewrite lookup_insert_eq; reflexivity).
  rewrite bool_decide_eq_true_2.
  2:{ destruct (decide (key = "_LAST_UPDATED")) as [-> | Hne].
      - rewrite lookup_insert_eq. eauto.
      - rewrite lookup_insert_ne by congruence. exact Hkey. }
  reflexivity.
Qed.

Lemma update_if_koalabear_runs (s : t) (id : string) (dev : gmap string pyval)
    (t0 va vb xa xb : R) :
  _devices s !! id = Some dev ->
  _device_types s !! id = Some "koalabear" ->
  koalabear dev t0 va vb xa xb ->
  Rabs va <= 1 -> Rabs vb <= 1 ->
  update_if_koalabear clock id s
  = (Ok tt,
     accessed s id (integrate (clock (clock_reads s)) t0 va vb xa xb dev)).
Proof.
  intros Hd Hty [Ht Hva Hvb (ea & Hea & Hxa) (eb & Heb & Hxb)] Hba Hbb.
  unfold update_if_koalabear.
  mstep.
  mstep by (unfold dict_get; rewrite Hty; reflexivity).
  cbn [String.eqb Ascii.eqb Bool.eqb].
  eapply update_koalabear_runs; eassumption.
Qed.

(** A read, once [_check_property] has let it pass. *)
Lemma get_value_checked (s s1 : t) (id key : string)
    (dev : gmap string pyval) (t0 va vb xa xb : R) (v : pyval) :
  _check_property clock id key s = (Ok tt, s1) ->
  _devices s1 !! id = Some dev ->
  _device_types s1 !! id = Some "koalabear" ->
  koalabear dev t0 va vb xa xb ->
  Rabs va <= 1 -> Rabs vb <= 1 ->
  integrate (clock (clock_reads s1)) t0 va vb xa xb dev !! key = Some v ->
  get_value clock id key s
  = (Ok v,
     accessed s1 id
       (integrate (clock (clock_reads s1)) t0 va vb xa xb dev)).
Proof.
  intros Hcheck Hd Hty Hkb Hba Hbb Hv.
  unfold get_value.
  mstep by (exact Hcheck).
  mstep by (eapply update_if_koalabear_runs; eassumption).
  eapply device_get_runs; [| exact Hv].
  unfold accessed. destruct s1; cbn. apply lookup_insert_eq.
Qed.

(** A write, once [_check_property] has let it pass. *)
Lemma set_value_checked (s s1 : t) (id key : string)
    (dev : gmap string pyval) (t0 va vb xa xb : R) (current value : pyval) :
  _check_property clock id key s = (Ok tt, s1) ->
  _devices s1 !! id = Some dev ->
  _device_types s1 !! id = Some "koalabear" ->
  koalabear dev t0 va vb xa xb ->
  Rabs va <= 1 -> Rabs vb <= 1 ->
  integrate (clock (clock_reads s1)) t0 va vb xa xb dev !! key
  = Some current ->
  type_of current = type_of (coerce current value) ->
  set_value clock id key value s
  = (Ok tt,
     accessed s1 id
       (<[key := coerce current value]>
          (integrate (clock (clock_reads s1)) t0 va vb xa xb dev))).
Proof.
  intros Hcheck Hd Hty Hkb Hba Hbb Hcur Htype.
  unfold set_value.
  mstep by (exact Hcheck).
  mstep by (eapply update_if_koalabear_runs; eassumption).
  assert (Hlook :
    _devices (accessed s1 id
                (integrate (clock (clock_reads s1)) t0 va vb xa xb dev))
      !! id
    = Some (integrate (clock (clock_reads s1)) t0 va vb xa xb dev)).
  { unfold accessed. destruct s1; cbn. apply lookup_insert_eq. }
  mstep by (eapply device_get_runs; [exact Hlook | exact Hcur]).
  fold (coerce current value).
  rewrite bool_decide_eq_false_2 by (intros Hne; apply Hne; exact Htype).
  erewrite device_set_runs by exact Hlook.
  unfold accessed. destruct s1; cbn. rewrite insert_insert_eq.
  reflexivity.
Qed.

(** The properties of a device that [_update_koalabear] does not write. *)
Lemma integrate_other (now t0 va vb xa xb : R) (dev : gmap string pyval)
    (key : string) :
  key <> "enc_a" -> key <> "enc_b" -> key <> "_LAST_UPDATED" ->
  integrate now t0 va vb xa xb dev !! key = dev !! key.
Proof.
  intros Ha Hb Hl. unfold integrate.
  rewrite !lookup_insert_ne by congruence. reflexivity.
Qed.

Lemma integrate_is_Some (now t0 va vb xa xb : R) (dev : gmap string pyval)
    (key : string) :
  is_Some (dev !! key) ->
  is_Some (integrate now t0 va vb xa xb dev !! key).
Proof.
  intros Hk. unfold integrate.
  destruct (decide (key = "enc_b")) as [-> | Hb];
    [rewrite lookup_insert_eq; eauto | rewrite lookup_insert_ne by done].
  destruct (decide (key = "enc_a")) as [-> | Ha];
    [rewrite lookup_insert_eq; eauto | rewrite lookup_insert_ne by done].
  destruct (decide (key = "_LAST_UPDATED")) as [-> | Hl];
    [rewrite lookup_insert_eq; eauto | rewrite lookup_insert_ne by done].
  exact Hk.
Qed.

Lemma integrate_koalabear (now t0 va vb xa xb : R)
    (dev : gmap string pyval) :
  koalabear dev t0 va vb xa xb ->
  koalabear (integrate now t0 va vb xa xb dev) now va vb
    (xa + va * (t0 - now) * 2000) (xb + vb * (t0 - now) * 2000).
Proof.
  intros [Ht Hva Hvb Hea Heb]. unfold integrate.
  split.
  - rewrite !lookup_insert_ne by done. apply lookup_insert_eq.
  - rewrite !lookup_insert_ne by done. exact Hva.
  - rewrite !lookup_insert_ne by done. exact Hvb.
  - eexists. rewrite lookup_insert_ne by done.
    rewrite lookup_insert_eq. split; reflexivity.
  - eexists. rewrite lookup_insert_eq. split; reflexivity.
Qed.

(** The device that [_check_property] creates at time [now]. *)
Lemma created_koalabear (now : R) :
  koalabear (<["_LAST_UPDATED" := PFloat now]> koalabear_defaults)
    now 0.0 0.0 0 0.
Proof.
  split; try reflexivity; eexists; split; reflexivity.
Qed.

(** Storing a velocity, storing an encoder count. *)
Lemma koalabear_velocity_a (dev : gmap string pyval)
    (t0 va vb xa xb v : R) :
  koalabear dev t0 va vb xa xb ->
  koalabear (<["velocity_a" := PFloat v]> dev) t0 v vb xa xb.
Proof.
  intros [Ht Hva Hvb Hea Heb].
  split; rewrite ?lookup_insert_eq, ?lookup_insert_ne by done; auto.
Qed.

Lemma koalabear_velocity_b (dev : gmap string pyval)
    (t0 va vb xa xb v : R) :
  koalabear dev t0 va vb xa xb ->
  koalabear (<["velocity_b" := PFloat v]> dev) t0 va v xa xb.
Proof.
  intros [Ht Hva Hvb Hea Heb].
  split; rewrite ?lookup_insert_eq, ?lookup_insert_ne by done; auto.
Qed.

Lemma koalabear_enc_a (dev : gmap string pyval) (t0 va vb xa xb x : R) :
  koalabear dev t0 va vb xa xb ->
  koalabear (<["enc_a" := PFloat x]> dev) t0 va vb x xb.
Proof.
  intros [Ht Hva Hvb Hea Heb].
  split; rewrite ?lookup_insert_eq, ?lookup_insert_ne by done; eauto.
Qed.

Lemma koalabear_enc_b (dev : gmap string pyval) (t0 va vb xa xb x : R) :
  koalabear dev t0 va vb xa xb ->
  koalabear (<["enc_b" := PFloat x]> dev) t0 va vb xa x.
Proof.
  intros [Ht Hva Hvb Hea Heb].
  split; rewrite ?lookup_insert_eq, ?lookup_insert_ne by done; eauto.
Qed.

(** A stored velocity out of bounds: [_update_koalabear] raises, after it
    has moved the time stamp of the device. *)
Lemma update_koalabear_out_of_bounds (s : t) (id : string)
    (dev : gmap string pyval) (t0 va vb xa xb : R) :
  _devices s !! id = Some dev ->
  koalabear dev t0 va vb xa xb ->
  1 < Rabs va ->
  _update_koalabear clock id s
  = (Raise ValueError,
     accessed s id
       (<["_LAST_UPDATED" := PFloat (clock (clock_reads s))]> dev)).
Proof.
  intros Hd [Ht Hva Hvb _ _] Hout.
  destruct s as [devices types limits counts n]. cbn in Hd.
  unfold _update_koalabear.
  mstep.
  mstep by (unfold dict_get; cbn [_devices]; rewrite Hd; reflexivity).
  mstep.
  cbn [clock_reads set_clock_reads set_devices _devices _device_types
       _max_devices _device_counts].
  mstep by (eapply device_get_runs; [exact Hd | exact Ht]).
  mstep.
  mstep by (eapply device_set_runs; exact Hd).
  cbn [clock_reads set_clock_reads set_devices _devices _device_types
       _max_devices _device_counts].
  mstep by (eapply device_get_runs;
            [apply lookup_insert_eq
            | rewrite lookup_insert_ne by done; exact Hva]).
  mstep. mstep.
  erewrite bind_raise; [reflexivity |].
  cbn [num_val]. rewrite bool_decide_eq_true_2 by lra. reflexivity.
Qed.

Lemma accessed_lookup (s : t) (id : string) (dev : gmap string pyval) :
  _devices (accessed s id dev) !! id = Some dev.
Proof. unfold accessed. destruct s; cbn. apply lookup_insert_eq. Qed.

Lemma accessed_type (s : t) (id : string) (dev : gmap string pyval)
    (ty : string) :
  _device_types s !! id = Some ty ->
  _device_types (accessed s id dev) !! id = Some ty.
Proof. intros H. unfold accessed. destruct s; cbn in *. exact H. Qed.

Lemma accessed_reads (s : t) (id : string) (dev : gmap string pyval) :
  clock_reads (accessed s id dev) = S (clock_reads s).
Proof. unfold accessed. destruct s; reflexivity. Qed.

Lemma update_if_koalabear_out_of_bounds (s : t) (id : string)
    (dev : gmap string pyval) (t0 va vb xa xb : R) :
  _devices s !! id = Some dev ->
  _device_types s !! id = Some "koalabear" ->
  koalabear dev t0 va vb xa xb ->
  1 < Rabs va ->
  update_if_koalabear clock id s
  = (Raise ValueError,
     accessed s id (<["_LAST_UPDATED" := PFloat (clock (clock_reads s))]> dev)).
Proof.
  intros Hd Hty Hkb Hout. unfold update_if_koalabear.
  mstep.
  mstep by (unfold dict_get; rewrite Hty; reflexivity).
  cbn [String.eqb Ascii.eqb Bool.eqb].
  eapply update_koalabear_out_of_bounds; eassumption.
Qed.

Lemma get_value_out_of_bounds (s : t) (id key : string)
    (dev : gmap string pyval) (t0 va vb xa xb : R) :
  _devices s !! id = Some dev ->
  _device_types s !! id = Some "koalabear" ->
  koalabear dev t0 va vb xa xb ->
  1 < Rabs va ->
  is_Some (dev !! key) ->
  get_value clock id key s
  = (Raise ValueError,
     accessed s id (<["_LAST_UPDATED" := PFloat (clock (clock_reads s))]> dev)).
Proof.
  intros Hd Hty Hkb Hout Hkey. unfold get_value.
  mstep by (eapply check_property_known; eassumption).
  erewrite bind_raise; [reflexivity |].
  eapply update_if_koalabear_out_of_bounds; eassumption.
Qed.

Lemma set_value_out_of_bounds (s : t) (id key : string)
    (value : pyval) (dev : gmap string pyval) (t0 va vb xa xb : R) :
  _devices s !! id = Some dev ->
  _device_types s !! id = Some "koalabear" ->
  koalabear dev t0 va vb xa xb ->
  1 < Rabs va ->
  is_Some (dev !! key) ->
  set_value clock id key value s
  = (Raise ValueError,
     accessed s id (<["_LAST_UPDATED" := PFloat (clock (clock_reads s))]> dev)).
Proof.
  intros Hd Hty Hkb Hout Hkey. unfold set_value.
  mstep by (eapply check_property_known; eassumption).
  erewrite bind_raise; [reflexivity |].
  eapply update_if_koalabear_out_of_bounds; eassumption.
Qed.

End MockRobotRuns.

(* ===================================================================== *)
(** ** A motor on the simulated robot *)
(* ===================================================================== *)

Section MotorOnMockRobot.

Import MockRobot.

Variable clock : nat -> R.

Local Open Scope R_scope.

Lemma koalabear_has (dev : gmap string pyval) (t0 va vb xa xb : R)
    (key : string) :
  koalabear dev t0 va vb xa xb -> motor_property key -> is_Some (dev !! key).
Proof.
  intros [Ht Hva Hvb (ea & Hea & _) (eb & Heb & _)] [-> | [-> | [-> | ->]]];
    eauto.
Qed.

Lemma admitted_known (s : t) (id key : string) (t0 va vb xa xb : R) :
  koalabear_at s id t0 va vb xa xb ->
  motor_property key ->
  admitted clock s s id key t0 va vb xa xb.
Proof.
  intros Hat Hkey. split; [| exact Hat].
  destruct Hat as (dev & Hd & _ & Hkb).
  eapply check_property_known; [exact Hd |].
  eapply koalabear_has; eassumption.
Qed.

Lemma admitted_created (s : t) (id key : string) :
  koalabear_free s id ->
  scan_device_types key _default_device_properties = Some "koalabear" ->
  exists s1 : t,
    admitted clock s s1 id key (clock (clock_reads s)) 0.0 0.0 0 0
    /\ clock_reads s1 = S (clock_reads s).
Proof.
  intros (Hnone & limit & count & Hmax & Hcount & Hlt) Hscan.
  eexists. split; [split |].
  - eapply check_property_creates; eassumption.
  - eexists. split; [apply lookup_insert_eq |].
    split; [apply lookup_insert_eq | apply created_koalabear].
  - reflexivity.
Qed.


(** A motor of the controller reads its encoder. *)
Lemma motor_get_encoder_a (s s1 : t) (id : string) (inverted : bool)
    (t0 va vb xa xb : R) :
  admitted clock s s1 id "enc_a" t0 va vb xa xb ->
  Rabs va <= 1 -> Rabs vb <= 1 ->
  exists s' : t,
    Motor.get_encoder (runtime := MockRobot.runtime clock)
      (Motor.mk id "a" inverted) s
    = (Ok (PFloat ((xa + va * (t0 - clock (clock_reads s1)) * 2000)
                   * IZR (if inverted then -1 else 1))),
       s')
    /\ koalabear_at s' id (clock (clock_reads s1)) va vb
         (xa + va * (t0 - clock (clock_reads s1)) * 2000)
         (xb + vb * (t0 - clock (clock_reads s1)) * 2000)
    /\ clock_reads s' = S (clock_reads s1).
Proof.
  intros [Hcheck (dev & Hd & Hty & Hkb)] Hba Hbb.
  eexists. split; [| split].
  - unfold Motor.get_encoder, Motor._get.
    cbn [Motor._controller Motor._motor Motor._is_inverted robot_get_value
         MockRobot.runtime String.append].
    mstep by (eapply get_value_checked; try eassumption;
              unfold integrate; rewrite lookup_insert_ne by done;
              apply lookup_insert_eq).
    reflexivity.
  - eexists. split; [apply accessed_lookup |].
    split; [apply accessed_type; exact Hty |].
    apply integrate_koalabear. exact Hkb.
  - apply accessed_reads.
Qed.

(** A motor of the controller is given a velocity; the controller stores
    the velocity as a float. *)
Lemma motor_set_velocity_a (s s1 : t) (id : string) (inverted : bool)
    (t0 va vb xa xb : R) (value : pyval) (v : R) :
  admitted clock s s1 id "velocity_a" t0 va vb xa xb ->
  Rabs va <= 1 -> Rabs vb <= 1 ->
  coerce (PFloat va) value = PFloat v ->
  exists s' : t,
    Motor.set_velocity (runtime := MockRobot.runtime clock)
      (Motor.mk id "a" inverted) value s
    = (Ok (Motor.mk id "a" inverted), s')
    /\ koalabear_at s' id (clock (clock_reads s1)) v vb
         (xa + va * (t0 - clock (clock_reads s1)) * 2000)
         (xb + vb * (t0 - clock (clock_reads s1)) * 2000)
    /\ clock_reads s' = S (clock_reads s1).
Proof.
  intros [Hcheck (dev & Hd & Hty & Hkb)] Hba Hbb Hvalue.
  assert (Hcur :
    integrate (clock (clock_reads s1)) t0 va vb xa xb dev !! "velocity_a"
    = Some (PFloat va)).
  { rewrite integrate_other by done. apply Hkb. }
  eexists. split; [| split].
  - unfold Motor.set_velocity, Motor._set.
    cbn [Motor._controller Motor._motor Motor._is_inverted robot_set_value
         MockRobot.runtime String.append].
    mstep by (eapply set_value_checked; try eassumption;
              rewrite Hvalue; reflexivity).
    reflexivity.
  - eexists. split; [apply accessed_lookup |].
    split; [apply accessed_type; exact Hty |].
    rewrite Hvalue.
    eapply koalabear_velocity_a, integrate_koalabear. exact Hkb.
  - apply accessed_reads.
Qed.

End MotorOnMockRobot.

(* ===================================================================== *)
(** ** A wheel on the simulated robot *)
(* ===================================================================== *)

Section WheelOnMockRobot.

Import MockRobot.

Variable clock : nat -> R.

Local Open Scope R_scope.

(** [set_goal] on a wheel of motor [a]: two accesses to the controller. *)
Lemma wheel_set_goal_on_robot (w : Wheel.t) (s s1 : t) (id : string)
    (inverted : bool) (goal velocity t0 va vb xa xb : R) :
  Wheel._motor w = Motor.mk id "a" inverted ->
  admitted clock s s1 id "enc_a" t0 va vb xa xb ->
  Rabs va <= 1 -> Rabs vb <= 1 ->
  Wheel._radius w * 2 * math_pi <> 0 ->
  exists (s' : t) (x_start x_a x_b : R),
    Wheel.set_goal (runtime := MockRobot.runtime clock) goal velocity (w, s)
    = (Ok tt,
       (Wheel.mk (Wheel._motor w) (Wheel._radius w) (Wheel._ticks_per_rot w)
          (Some (PInt (math_ceil (goal / (Wheel._radius w * 2 * math_pi)
                                  * Wheel._ticks_per_rot w))))
          (Some velocity) (PFloat x_start),
        s'))
    /\ x_start = (xa + va * (t0 - clock (clock_reads s1)) * 2000)
                 * IZR (if inverted then -1 else 1)
    /\ koalabear_at s' id (clock (S (clock_reads s1)))
         (math_copysign velocity
            (IZR (math_ceil (goal / (Wheel._radius w * 2 * math_pi)
                             * Wheel._ticks_per_rot w))))
         vb x_a x_b
    /\ x_a = xa + va * (t0 - clock (S (clock_reads s1))) * 2000
    /\ clock_reads s' = S (S (clock_reads s1)).
Proof.
  intros Hmotor Hadm Hba Hbb Hr.
  destruct (motor_get_encoder_a clock s s1 id inverted _ _ _ _ _ Hadm Hba Hbb)
    as (s2 & Henc & Hat2 & Hreads2).
  destruct (motor_set_velocity_a clock s2 s2 id inverted _ _ _ _ _
              (PFloat (math_copysign velocity
                 (IZR (math_ceil (goal / (Wheel._radius w * 2 * math_pi)
                                  * Wheel._ticks_per_rot w)))))
              _
              (admitted_known clock s2 id "velocity_a" _ _ _ _ _ Hat2
                 (or_intror (or_intror (or_introl eq_refl))))
              Hba Hbb eq_refl)
    as (s3 & Hset & Hat3 & Hreads3).
  exists s3. do 3 eexists.
  split; [| split; [reflexivity | split; [| split]]].
  - eapply set_goal_runs; rewrite ?Hmotor; eassumption.
  - rewrite Hreads2 in Hat3. exact Hat3.
  - ring.
  - rewrite Hreads3, Hreads2. reflexivity.
Qed.


(** [stop] on a wheel of motor [a]: two accesses to the controller. *)
Lemma wheel_stop_on_robot (w : Wheel.t) (s s1 : t) (id : string)
    (inverted : bool) (t0 va vb xa xb : R) :
  Wheel._motor w = Motor.mk id "a" inverted ->
  admitted clock s s1 id "enc_a" t0 va vb xa xb ->
  Rabs va <= 1 -> Rabs vb <= 1 ->
  exists (s' : t) (x_goal x_a x_b : R),
    Wheel.stop (runtime := MockRobot.runtime clock) (w, s)
    = (Ok tt, (Wheel.set_goal_pos (PFloat x_goal) w, s'))
    /\ x_goal = (xa + va * (t0 - clock (clock_reads s1)) * 2000)
                * IZR (if inverted then -1 else 1)
    /\ koalabear_at s' id (clock (S (clock_reads s1))) 0 vb x_a x_b
    /\ x_a = xa + va * (t0 - clock (S (clock_reads s1))) * 2000
    /\ clock_reads s' = S (S (clock_reads s1)).
Proof.
  intros Hmotor Hadm Hba Hbb.
  destruct (motor_get_encoder_a clock s s1 id inverted _ _ _ _ _ Hadm Hba Hbb)
    as (s2 & Henc & Hat2 & Hreads2).
  destruct (motor_set_velocity_a clock s2 s2 id inverted _ _ _ _ _
              (PInt 0) 0
              (admitted_known clock s2 id "velocity_a" _ _ _ _ _ Hat2
                 (or_intror (or_intror (or_introl eq_refl))))
              Hba Hbb eq_refl)
    as (s3 & Hset & Hat3 & Hreads3).
  exists s3. do 3 eexists.
  split; [| split; [reflexivity | split; [| split]]].
  - eapply stop_runs; rewrite ?Hmotor; eassumption.
  - rewrite Hreads2 in Hat3. exact Hat3.
  - ring.
  - rewrite Hreads3, Hreads2. reflexivity.
Qed.

(** The encoder of motor [a] is given a count. *)
Lemma robot_set_enc_a (s s1 : t) (id : string) (t0 va vb xa xb : R)
    (value : pyval) (x : R) :
  admitted clock s s1 id "enc_a" t0 va vb xa xb ->
  Rabs va <= 1 -> Rabs vb <= 1 ->
  (forall y : R, coerce (PFloat y) value = PFloat x) ->
  exists s' : t,
    set_value clock id "enc_a" value s = (Ok tt, s')
    /\ koalabear_at s' id (clock (clock_reads s1)) va vb x
         (xb + vb * (t0 - clock (clock_reads s1)) * 2000)
    /\ clock_reads s' = S (clock_reads s1).
Proof.
  intros [Hcheck (dev & Hd & Hty & Hkb)] Hba Hbb Hvalue.
  assert (Hcur :
    integrate (clock (clock_reads s1)) t0 va vb xa xb dev !! "enc_a"
    = Some (PFloat (xa + va * (t0 - clock (clock_reads s1)) * 2000))).
  { unfold integrate. rewrite lookup_insert_ne by done.
    apply lookup_insert_eq. }
  eexists. split; [| split].
  - eapply set_value_checked; try eassumption.
    rewrite Hvalue. reflexivity.
  - eexists. split; [apply accessed_lookup |].
    split; [apply accessed_type; exact Hty |].
    rewrite Hvalue.
    eapply koalabear_enc_a, integrate_koalabear. exact Hkb.
  - apply accessed_reads.
Qed.

(** The encoder of motor [b] is given a count. *)
Lemma robot_set_enc_b (s s1 : t) (id : string) (t0 va vb xa xb : R)
    (value : pyval) (x : R) :
  admitted clock s s1 id "enc_b" t0 va vb xa xb ->
  Rabs va <= 1 -> Rabs vb <= 1 ->
  (forall y : R, coerce (PFloat y) value = PFloat x) ->
  exists s' : t,
    set_value clock id "enc_b" value s = (Ok tt, s')
    /\ koalabear_at s' id (clock (clock_reads s1)) va vb
         (xa + va * (t0 - clock (clock_reads s1)) * 2000) x
    /\ clock_reads s' = S (clock_reads s1).
Proof.
  intros [Hcheck (dev & Hd & Hty & Hkb)] Hba Hbb Hvalue.
  assert (Hcur :
    integrate (clock (clock_reads s1)) t0 va vb xa xb dev !! "enc_b"
    = Some (PFloat (xb + vb * (t0 - clock (clock_reads s1)) * 2000))).
  { unfold integrate. apply lookup_insert_eq. }
  eexists. split; [| split].
  - eapply set_value_checked; try eassumption.
    rewrite Hvalue. reflexivity.
  - eexists. split; [apply accessed_lookup |].
    split; [apply accessed_type; exact Hty |].
    rewrite Hvalue.
    eapply koalabear_enc_b, integrate_koalabear. exact Hkb.
  - apply accessed_reads.
Qed.

End WheelOnMockRobot.


(* ===================================================================== *)
(** ** The simulated robot on the bench *)
(* ===================================================================== *)

Section BenchRobot.

Import MockRobot.
Local Open Scope R_scope.

Lemma bench_check_creates (key : string) :
  scan_device_types key _default_device_properties = Some "koalabear" ->
  _check_property Bench.clock "kb" key Bench.robot
  = (Ok tt,
     mk {[ "kb" := <["_LAST_UPDATED" := PFloat (Bench.clock 0)]>
                     koalabear_defaults ]}
        {[ "kb" := "koalabear" ]}
        {[ "koalabear" := 1%Z ]}
        (<["koalabear" := 1%Z]> (_device_counts Bench.robot))
        1).
Proof.
  intros Hscan.
  erewrite (check_property_creates Bench.clock Bench.robot "kb" key 1 0);
    try reflexivity; try exact Hscan; try lia.
Qed.

(** C8, the code on a robot whose clock advances by one second from one
  reading to the next.  The device is created at time 0 and the velocity
  [1] of motor [a] is stored at time 1; the read of the encoder at time 2,
  one second later, returns [-2000]: the encoder has moved by
  [velocity * (last - now) * 2000], backwards. *)
Theorem encoder_runs_backwards :
  exists (s1 s2 : MockRobot.t) (x : R),
    set_value Bench.clock "kb" "velocity_a" (PFloat 1) Bench.robot = (Ok tt, s1)
    /\ get_value Bench.clock "kb" "enc_a" s1 = (Ok (PFloat x), s2)
    /\ x = -2000.
Proof.
  do 3 eexists. split; [| split].
  - eapply set_value_checked.
    + apply bench_check_creates. reflexivity.
    + reflexivity.
    + reflexivity.
    + apply created_koalabear.
    + rewrite Rabs_pos_eq; lra.
    + rewrite Rabs_pos_eq; lra.
    + reflexivity.
    + reflexivity.
  - eapply get_value_checked.
    + eapply check_property_known; [apply accessed_lookup |].
      rewrite lookup_insert_ne by done. apply integrate_is_Some.
      cbn [clock_reads].
      rewrite lookup_insert_ne by done. eexists; reflexivity.
    + apply accessed_lookup.
    + apply accessed_type. reflexivity.
    + eapply koalabear_velocity_a.
      apply integrate_koalabear, created_koalabear.
    + cbn [coerce]. rewrite Rabs_pos_eq; lra.
    + rewrite Rabs_pos_eq; lra.
    + unfold integrate at 1. rewrite lookup_insert_ne by done.
      apply lookup_insert_eq.
  - rewrite accessed_reads. cbn [clock_reads coerce].
    unfold Bench.clock. cbn [INR]. lra.
Qed.

(** C6, the code at a velocity of [1.5].  On a device whose velocity is
  [0.0], [set_value] returns and the device holds [1.5]; the bound is
  checked by [_update_koalabear] before the new value is stored, so that it
  is the next access, a read or a write, that raises. *)
Theorem out_of_bounds_velocity_is_stored :
  exists (s0 s1 : MockRobot.t) (dev0 dev1 : gmap string pyval),
    get_value Bench.clock "kb" "velocity_a" Bench.robot = (Ok (PFloat 0.0), s0)
    /\ _devices s0 !! "kb" = Some dev0
    /\ dev0 !! "velocity_a" = Some (PFloat 0.0)
    /\ set_value Bench.clock "kb" "velocity_a" (PFloat 1.5) s0 = (Ok tt, s1)
    /\ _devices s1 !! "kb" = Some dev1
    /\ dev1 !! "velocity_a" = Some (PFloat 1.5)
    /\ fst (get_value Bench.clock "kb" "velocity_a" s1) = Raise ValueError
    /\ fst (set_value Bench.clock "kb" "velocity_a" (PFloat 0.5) s1)
       = Raise ValueError.
Proof.
  do 4 eexists.
  split.
  { eapply get_value_checked.
    - apply bench_check_creates. reflexivity.
    - reflexivity.
    - reflexivity.
    - apply created_koalabear.
    - rewrite Rabs_pos_eq; lra.
    - rewrite Rabs_pos_eq; lra.
    - reflexivity. }
  split; [apply accessed_lookup |].
  split; [reflexivity |].
  split.
  { eapply set_value_checked.
    - eapply check_property_known; [apply accessed_lookup |].
      eexists; reflexivity.
    - apply accessed_lookup.
    - apply accessed_type. reflexivity.
    - apply integrate_koalabear. apply created_koalabear.
    - rewrite Rabs_pos_eq; lra.
    - rewrite Rabs_pos_eq; lra.
    - reflexivity.
    - reflexivity. }
  split; [apply accessed_lookup |].
  split; [apply lookup_insert_eq |].
  split.
  - erewrite get_value_out_of_bounds;
      [reflexivity | apply accessed_lookup | ..].
    + apply accessed_type, accessed_type. reflexivity.
    + eapply koalabear_velocity_a.
      apply integrate_koalabear, integrate_koalabear, created_koalabear.
    + cbn [coerce]. rewrite Rabs_pos_eq; lra.
    + rewrite lookup_insert_eq. eauto.
  - erewrite set_value_out_of_bounds;
      [reflexivity | apply accessed_lookup | ..].
    + apply accessed_type, accessed_type. reflexivity.
    + eapply koalabear_velocity_a.
      apply integrate_koalabear, integrate_koalabear, created_koalabear.
    + cbn [coerce]. rewrite Rabs_pos_eq; lra.
    + rewrite lookup_insert_eq. eauto.
Qed.

Lemma bench_robot_free : koalabear_free Bench.robot "kb".
Proof.
  split; [reflexivity |].
  exists 1%Z, 0%Z. split; [reflexivity |]. split; [reflexivity | lia].
Qed.

Lemma bench_clock_step (n : nat) : Bench.clock (S n) = Bench.clock n + 1.
Proof. unfold Bench.clock. apply S_INR. Qed.

Lemma PI_upper : PI < 3.141618.
Proof.
  destruct (PI_2_3_7_ineq 2) as [_ Hhi].
  unfold sum_f_R0, tg_alt, PI_2_3_7_tg, Ratan_seq in Hhi.
  simpl in Hhi. lra.
Qed.

Lemma PI_lower : 3.14088 < PI.
Proof.
  destruct (PI_2_3_7_ineq 1) as [Hlo _].
  unfold sum_f_R0, tg_alt, PI_2_3_7_tg, Ratan_seq in Hlo.
  simpl in Hlo. lra.
Qed.

Lemma scenario_circumference : 0.0508 * 2 * math_pi <> 0.
Proof. unfold math_pi. pose proof PI_lower. lra. Qed.

(** One meter on a wheel of radius 0.0508 m with 1356.87 ticks per
    rotation is 4251.03... ticks. *)
Lemma scenario_ticks :
  math_ceil (1 / (0.0508 * 2 * math_pi) * 1356.87) = 4252%Z.
Proof.
  apply math_ceil_unique. unfold math_pi.
  pose proof PI_upper. pose proof PI_lower.
  assert (Hpos : 0 < 0.0508 * 2 * PI) by lra.
  split.
  - apply Rmult_lt_reg_r with (0.0508 * 2 * PI); [exact Hpos |].
    field_simplify; lra.
  - apply Rmult_le_reg_r with (0.0508 * 2 * PI); [exact Hpos |].
    field_simplify; lra.
Qed.

(** C5, the code on a wheel that is stopped where its goal was set.  The
    encoder of motor [a] is given the count [5] and the motor stands still;
    [set_goal(1, 0)] captures the start [5] and [stop()] makes the reading
    [5] the goal.  The encoder still reads [5], and [get_goal_progress()]
    divides [5 - 5] by [5 - 5]: it raises when the condition of its first
    [if] is false, and whatever that condition is, the only number it can
    return is the [0] of that first branch, never [1]. *)
Theorem stop_at_start_divides_by_zero :
  exists (sA sB sC sD : MockRobot.t) (w1 w2 : Wheel.t),
    set_value Bench.clock "kb" "enc_a" (PInt 5) Bench.robot = (Ok tt, sA)
    /\ Wheel.set_goal (runtime := Bench.runtime) 1 0 (Bench.wheel, sA)
       = (Ok tt, (w1, sB))
    /\ Wheel.stop (runtime := Bench.runtime) (w1, sB) = (Ok tt, (w2, sC))
    /\ num_val (Wheel._start_pos w2) = Some 5
    /\ (exists g : pyval, Wheel._goal_pos w2 = Some g /\ num_val g = Some 5)
    /\ (exists enc : pyval,
          Motor.get_encoder (runtime := Bench.runtime) (Wheel._motor w2) sC
          = (Ok enc, sD)
          /\ num_val enc = Some 5)
    /\ (forall guard : Wheel.t -> Res bool,
          guard w2 = Ok false ->
          Wheel.get_goal_progress (runtime := Bench.runtime) guard (w2, sC)
          = (Raise ZeroDivisionError, (w2, sD)))
    /\ (forall (guard : Wheel.t -> Res bool) (v : pyval),
          fst (Wheel.get_goal_progress (runtime := Bench.runtime) guard
                 (w2, sC))
          = Ok v ->
          v = PInt 0).
Proof.
  destruct (admitted_created Bench.clock Bench.robot "kb" "enc_a"
              bench_robot_free eq_refl) as (s1 & Hadm1 & Hr1).
  assert (Hzero : Rabs 0.0 <= 1) by (rewrite Rabs_pos_eq; lra).
  destruct (robot_set_enc_a Bench.clock _ _ _ _ _ _ _ _ (PInt 5) 5
              Hadm1 Hzero Hzero (fun _ => eq_refl))
    as (sA & HsetA & HatA & HrA).
  pose proof (admitted_known Bench.clock sA "kb" "enc_a" _ _ _ _ _ HatA
                (or_introl eq_refl)) as HadmA.
  destruct (wheel_set_goal_on_robot Bench.clock Bench.wheel sA sA "kb" false
              1 0 _ _ _ _ _ eq_refl HadmA Hzero Hzero scenario_circumference)
    as (sB & x_start & xa1 & xb1 & HsetB & Hstart & HatB & Hxa1 & HrB).
  set (w1 := Wheel.mk _ _ _ _ _ _) in HsetB.
  set (ticks := math_ceil (1 / (Wheel._radius Bench.wheel * 2 * math_pi)
                           * Wheel._ticks_per_rot Bench.wheel)) in *.
  assert (Hcopy : math_copysign 0 (IZR ticks) = 0).
  { unfold math_copysign. rewrite Rabs_R0. case_decide; lra. }
  assert (Hsign : Rabs (math_copysign 0 (IZR ticks)) <= 1).
  { rewrite Hcopy, Rabs_R0. lra. }
  pose proof (admitted_known Bench.clock sB "kb" "enc_a" _ _ _ _ _ HatB
                (or_introl eq_refl)) as HadmB.
  destruct (wheel_stop_on_robot Bench.clock w1 sB sB "kb" false
              _ _ _ _ _ eq_refl HadmB Hsign Hzero)
    as (sC & x_goal & xa2 & xb2 & HstopC & Hgoal & HatC & Hxa2 & HrC).
  pose proof (admitted_known Bench.clock sC "kb" "enc_a" _ _ _ _ _ HatC
                (or_introl eq_refl)) as HadmC.
  assert (Hzero' : Rabs 0 <= 1) by (rewrite Rabs_R0; lra).
  destruct (motor_get_encoder_a Bench.clock sC sC "kb" false _ _ _ _ _
              HadmC Hzero' Hzero)
    as (sD & Henc & _ & _).
  assert (Hxs : x_start = 5) by (rewrite Hstart; cbn [IZR]; lra).
  assert (Hx1 : xa1 = 5) by (rewrite Hxa1; lra).
  assert (Hxg : x_goal = 5) by (rewrite Hgoal, Hcopy, Hx1; lra).
  assert (Hx2 : xa2 = 5) by (rewrite Hxa2, Hcopy, Hx1; lra).
  set (w2 := Wheel.set_goal_pos (PFloat x_goal) w1).
  assert (Hs2 : num_val (Wheel._start_pos w2) = Some 5).
  { cbn. rewrite Hxs. reflexivity. }
  assert (Hg2 : num_val (PFloat x_goal) = Some 5).
  { cbn. rewrite Hxg. reflexivity. }
  set (enc := PFloat _) in Henc.
  assert (He2 : num_val enc = Some 5).
  { subst enc. cbn [num_val IZR]. rewrite Hx2. f_equal. cbn. lra. }
  assert (Hraise : forall guard : Wheel.t -> Res bool,
             guard w2 = Ok false ->
             Wheel.get_goal_progress (runtime := Bench.runtime) guard (w2, sC)
             = (Raise ZeroDivisionError, (w2, sD))).
  { intros guard Hguard.
    eapply get_goal_progress_goal_at_start with (x_goal := 5);
      [exact Hguard | reflexivity | exact Hg2 | exact Hs2 | exact Henc
      | exact He2 | lra]. }
  exists sA, sB, sC, sD, w1, w2.
  split; [exact HsetA |]. split; [exact HsetB |]. split; [exact HstopC |].
  split; [exact Hs2 |].
  split; [exists (PFloat x_goal); split; [reflexivity | exact Hg2] |].
  split; [eexists; split; [exact Henc | exact He2] |].
  split; [exact Hraise |].
  intros guard v.
  destruct (guard w2) as [[|] | e] eqn:Hguard.
  - rewrite get_goal_progress_guarded by exact Hguard.
    cbn [fst]. congruence.
  - rewrite Hraise by exact Hguard. cbn [fst]. discriminate.
  - unfold Wheel.get_goal_progress, bind, Wheel.self, lift. cbn [fst snd].
    rewrite Hguard. cbn [fst]. discriminate.
Qed.

End BenchRobot.

(* ===================================================================== *)
(** ** The claims about the goal tracker *)
(* ===================================================================== *)

Section GoalTrackerClaims.

Context {W : Type} {runtime : Runtime W}.

Variable progress_guard : Wheel.t -> Res bool.

Local Open Scope R_scope.

(** C9, amended.  Radius 0.0508 m and 1356.87 ticks per rotation:
    [set_goal(1.0, 1.0)] from an encoder reading of [0] stores the goal
    [4252], and [get_goal_progress()] then returns [0] when the encoder
    reads [0] and [1] when it reads [4252]. *)
Theorem scenario_goal_and_progress (w w' : Wheel.t) (s s' : W) :
  Wheel._radius w = 0.0508 ->
  Wheel._ticks_per_rot w = 1356.87 ->
  Wheel.set_goal 1.0 1.0 (w, s) = (Ok tt, (w', s')) ->
  num_val (Wheel._start_pos w') = Some 0 ->
  progress_guard w' = Ok false ->
  Wheel._goal_pos w' = Some (PInt 4252)
  /\ forall (s1 s2 : W) (enc : pyval),
       Motor.get_encoder (Wheel._motor w') s1 = (Ok enc, s2) ->
       (num_val enc = Some 0 ->
        exists r : R,
          Wheel.get_goal_progress progress_guard (w', s1)
          = (Ok (PFloat r), (w', s2)) /\ r = 0)
       /\ (num_val enc = Some 4252 ->
           exists r : R,
             Wheel.get_goal_progress progress_guard (w', s1)
             = (Ok (PFloat r), (w', s2)) /\ r = 1).
Proof.
  intros Hradius Hticks Hset Hstart Hguard.
  destruct (set_goal_returns _ _ _ _ _ _ Hset)
    as (start_pos & s0 & m & _ & _ & _ & Hw').
  rewrite Hradius, Hticks in Hw'.
  replace (1.0 / (0.0508 * 2 * math_pi) * 1356.87)
    with (1 / (0.0508 * 2 * math_pi) * 1356.87) in Hw' by (f_equal; lra).
  rewrite scenario_ticks in Hw'.
  assert (Hgoal : Wheel._goal_pos w' = Some (PInt 4252))
    by (subst w'; reflexivity).
  split; [exact Hgoal |].
  intros s1 s2 enc Henc. split; intros Hread.
  - eexists. split.
    + eapply get_goal_progress_formula with (x_goal := 4252) (x_start := 0);
        try eassumption; try reflexivity; lra.
    + lra.
  - eexists. split.
    + eapply get_goal_progress_formula with (x_goal := 4252) (x_start := 0);
        try eassumption; try reflexivity; lra.
    + lra.
Qed.

End GoalTrackerClaims.

Section BenchGoalTracker.

Import MockRobot.
Local Open Scope R_scope.

(** [set_goal] on the wheel of the bench, from the robot as built. *)
Lemma bench_set_goal (goal velocity : R) :
  exists (s' : MockRobot.t) (x_start : R),
    Wheel.set_goal (runtime := Bench.runtime) goal velocity
      (Bench.wheel, Bench.robot)
    = (Ok tt,
       (Wheel.mk (Motor.mk "kb" "a" false) 0.0508 1356.87
          (Some (PInt (math_ceil (goal / (0.0508 * 2 * math_pi) * 1356.87))))
          (Some velocity) (PFloat x_start),
        s'))
    /\ x_start = 0.
Proof.
  destruct (admitted_created Bench.clock Bench.robot "kb" "enc_a"
              bench_robot_free eq_refl) as (s1 & Hadm1 & Hr1).
  assert (Hzero : Rabs 0.0 <= 1) by (rewrite Rabs_pos_eq; lra).
  destruct (wheel_set_goal_on_robot Bench.clock Bench.wheel Bench.robot s1
              "kb" false goal velocity _ _ _ _ _ eq_refl Hadm1 Hzero Hzero
              scenario_circumference)
    as (s' & x_start & xa1 & xb1 & Hset & Hstart & _).
  exists s', x_start. split; [exact Hset |].
  rewrite Hstart. cbn [IZR]. lra.
Qed.

(** The wheel of the bench, stopped before any call of [set_goal]: the
    encoder reads [0], [stop()] makes that the goal, and
    [get_goal_progress()] returns a number whenever the condition of its
    first [if] evaluates to a truth value, [1] when that is false. *)
Lemma progress_of_a_wheel_stopped_first :
  exists (w' : Wheel.t) (s' : MockRobot.t),
    Wheel.stop (runtime := Bench.runtime) (Bench.wheel, Bench.robot)
    = (Ok tt, (w', s'))
    /\ Wheel._start_pos w' = PNone
    /\ Wheel._velocity w' = None
    /\ Wheel.get_goal_progress (runtime := Bench.runtime) spec_progress_guard
         (w', s')
       = (Ok (PInt 1), (w', s'))
    /\ forall (guard : Wheel.t -> Res bool) (b : bool),
         guard w' = Ok b ->
         exists v : pyval,
           Wheel.get_goal_progress (runtime := Bench.runtime) guard (w', s')
           = (Ok v, (w', s')).
Proof.
  destruct (admitted_created Bench.clock Bench.robot "kb" "enc_a"
              bench_robot_free eq_refl) as (s1 & Hadm1 & Hr1).
  assert (Hzero : Rabs 0.0 <= 1) by (rewrite Rabs_pos_eq; lra).
  destruct (wheel_stop_on_robot Bench.clock Bench.wheel Bench.robot s1
              "kb" false _ _ _ _ _ eq_refl Hadm1 Hzero Hzero)
    as (s' & x_goal & xa1 & xb1 & Hstop & Hgoal & _).
  assert (Hx : x_goal = 0) by (rewrite Hgoal; cbn [IZR]; lra).
  exists (Wheel.set_goal_pos (PFloat x_goal) Bench.wheel), s'.
  split; [exact Hstop |]. split; [reflexivity |]. split; [reflexivity |].
  assert (Hzero_goal : py_eq (PFloat x_goal) (PInt 0) = true).
  { cbn. apply bool_decide_eq_true_2. exact Hx. }
  split.
  - eapply get_goal_progress_zero_goal; [reflexivity | exact Hzero_goal |].
    reflexivity.
  - intros guard [|] Hguard.
    + eexists. apply get_goal_progress_guarded. exact Hguard.
    + eexists.
      eapply get_goal_progress_zero_goal;
        [reflexivity | exact Hzero_goal | exact Hguard].
Qed.

Lemma zero_goal_progress_is_one_witness :
  exists (w' : Wheel.t) (s' : MockRobot.t),
    Wheel.set_goal (runtime := Bench.runtime) 0 1 (Bench.wheel, Bench.robot)
    = (Ok tt, (w', s'))
    /\ spec_progress_guard w' = Ok false
    /\ Wheel._goal_pos w' = Some (PInt 0)
    /\ py_eq (PInt 0) (PInt 0) = true
    /\ Wheel.get_goal_progress (runtime := Bench.runtime) spec_progress_guard
         (w', s')
       = (Ok (PInt 1), (w', s')).
Proof.
  destruct (bench_set_goal 0 1) as (s' & x_start & Hset & _).
  eexists. exists s'.
  split; [exact Hset |]. split; [reflexivity |].
  split; [cbn [Wheel._goal_pos]; rewrite zero_distance_ticks; reflexivity |].
  split; [apply bool_decide_eq_true_2; reflexivity |].
  exact (proj1 (zero_goal_progress_is_one (runtime := Bench.runtime)
                  spec_progress_guard Bench.wheel Bench.robot)
           1 _ s' Hset eq_refl).
Defined.

(** On the bench [set_goal(1.0, 1.0)] stores the goal [4252], not [4253],
    and at an encoder reading of [4253] the progress is not [1]. *)
Lemma scenario_goal_counterexample :
  exists (w' : Wheel.t) (s' : MockRobot.t),
    Wheel.set_goal (runtime := Bench.runtime) 1.0 1.0
      (Bench.wheel, Bench.robot)
    = (Ok tt, (w', s'))
    /\ num_val (Wheel._start_pos w') = Some 0
    /\ Wheel._goal_pos w' = Some (PInt 4252)
    /\ PInt 4252 <> PInt 4253
    /\ forall (s1 s2 : MockRobot.t) (enc : pyval),
         Motor.get_encoder (runtime := Bench.runtime) (Wheel._motor w') s1
         = (Ok enc, s2) ->
         num_val enc = Some 4253 ->
         exists r : R,
           Wheel.get_goal_progress (runtime := Bench.runtime)
             spec_progress_guard (w', s1)
           = (Ok (PFloat r), (w', s2))
           /\ r <> 1.
Proof.
  destruct (bench_set_goal 1.0 1.0) as (s' & x_start & Hset & Hx).
  eexists. exists s'.
  split; [exact Hset |].
  split; [cbn; rewrite Hx; reflexivity |].
  assert (Hticks :
    math_ceil (1.0 / (0.0508 * 2 * math_pi) * 1356.87) = 4252%Z).
  { replace (1.0 / (0.0508 * 2 * math_pi) * 1356.87)
      with (1 / (0.0508 * 2 * math_pi) * 1356.87) by (f_equal; lra).
    apply scenario_ticks. }
  split; [cbn [Wheel._goal_pos]; rewrite Hticks; reflexivity |].
  split; [intros H; inversion H |].
  intros s1 s2 enc Henc Hread.
  eexists. split.
  - eapply get_goal_progress_formula
      with (x_goal := 4252) (x_start := 0) (x_enc := 4253);
      try eassumption; try reflexivity; try lra.
    + cbn [Wheel._goal_pos]. rewrite Hticks. reflexivity.
    + cbn. rewrite Hx. reflexivity.
  - lra.
Qed.

Lemma scenario_goal_and_progress_witness :
  exists (w' : Wheel.t) (s' : MockRobot.t),
    Wheel._radius Bench.wheel = 0.0508
    /\ Wheel._ticks_per_rot Bench.wheel = 1356.87
    /\ Wheel.set_goal (runtime := Bench.runtime) 1.0 1.0
         (Bench.wheel, Bench.robot)
       = (Ok tt, (w', s'))
    /\ num_val (Wheel._start_pos w') = Some 0
    /\ spec_progress_guard w' = Ok false
    /\ Wheel._goal_pos w' = Some (PInt 4252).
Proof.
  destruct (bench_set_goal 1.0 1.0) as (s' & x_start & Hset & Hx).
  eexists. exists s'.
  assert (Hstart :
    num_val (Wheel._start_pos
               (Wheel.mk (Motor.mk "kb" "a" false) 0.0508 1356.87
                  (Some (PInt (math_ceil (1.0 / (0.0508 * 2 * math_pi)
                                          * 1356.87))))
                  (Some 1.0) (PFloat x_start)))
    = Some 0).
  { cbn. rewrite Hx. reflexivity. }
  split; [reflexivity |]. split; [reflexivity |].
  split; [exact Hset |]. split; [exact Hstart |]. split; [reflexivity |].
  exact (proj1 (scenario_goal_and_progress (runtime := Bench.runtime)
                  spec_progress_guard Bench.wheel _ Bench.robot s'
                  eq_refl eq_refl Hset Hstart eq_refl)).
Defined.

End BenchGoalTracker.

(* ===================================================================== *)
(** ** The idle flag and the hooks of the base class *)
(* ===================================================================== *)

Section IdleFlag.

Import BaseQueuedChassis HookLog.

Context {W : Type} {runtime : Runtime W} {ext : Externals W}.
Context {T : Type} {variant : Variant T}.

(** The hooks and the update functions of the chassis leave the fields of
    the base class alone, whether they return or raise. *)
Hypothesis base_with_base :
  forall (b : fields) (c : T), base (with_base b c) = b.
Hypothesis start_frame :
  forall (m : QueuedMotion.t) (s s' : T * W) (r : Res unit),
    _on_start_new_motion m s = (r, s') -> base (fst s') = base (fst s).
Hypothesis finish_frame :
  forall (s s' : T * W) (r : Res unit),
    _on_queue_finish s = (r, s') -> base (fst s') = base (fst s).
Hypothesis post_frame :
  forall (s s' : T * W) (r : Res unit),
    _on_post_update s = (r, s') -> base (fst s') = base (fst s).
Hypothesis update_frame :
  forall (m : QueuedMotion.t) (s s' : T * W) (r : Res bool),
    motion_update m s = (r, s') -> base (fst s') = base (fst s).

Abbreviation state := ((T * list hook) * W)%type.

Lemma unlogged_inv {A : Type} (m : M (T * W) A) (s s' : state) (r : Res A) :
  unlogged m s = (r, s') ->
  m (fst (fst s), snd s) = (r, (fst (fst s'), snd s'))
  /\ log_of s' = log_of s.
Proof.
  unfold unlogged, zoom.
  destruct (m (fst (fst s), snd s)) as [r0 [t' w']].
  intros H. inversion H; subst. split; reflexivity.
Qed.

Lemma logged_start_inv (m : QueuedMotion.t) (s s' : state) (r : Res unit) :
  _on_start_new_motion (Variant := logged) m s = (r, s') ->
  base_of s' = base_of s /\ log_of s' = (log_of s ++ [Started m])%list.
Proof.
  cbn [_on_start_new_motion logged]. unfold bind, record, modify.
  intros H. apply unlogged_inv in H. destruct H as [H Hlog].
  apply start_frame in H. split; [exact H | exact Hlog].
Qed.


Lemma logged_finish_inv (s s' : state) (r : Res unit) :
  _on_queue_finish (Variant := logged) s = (r, s') ->
  base_of s' = base_of s /\ log_of s' = (log_of s ++ [Finished])%list.
Proof.
  cbn [_on_queue_finish logged]. unfold bind, record, modify.
  intros H. apply unlogged_inv in H. destruct H as [H Hlog].
  apply finish_frame in H. split; [exact H | exact Hlog].
Qed.

Lemma logged_post_inv (s s' : state) (r : Res unit) :
  _on_post_update (Variant := logged) s = (r, s') ->
  base_of s' = base_of s /\ log_of s' = log_of s.
Proof.
  cbn [_on_post_update logged].
  intros H. apply unlogged_inv in H. destruct H as [H Hlog].
  apply post_frame in H. split; [exact H | exact Hlog].
Qed.

Lemma logged_update_inv (m : QueuedMotion.t) (s s' : state) (r : Res bool) :
  motion_update (variant := logged) m s = (r, s') ->
  base_of s' = base_of s /\ log_of s' = log_of s.
Proof.
  unfold motion_update.
  cbn [_update_move _update_turn _update_peripheral logged].
  intros H.
  assert (H' : unlogged (motion_update m) s = (r, s')).
  { unfold motion_update. destruct (QueuedMotion._update m); exact H. }
  apply unlogged_inv in H'. destruct H' as [H' Hlog].
  apply update_frame in H'. split; [exact H' | exact Hlog].
Qed.

Lemma logged_setup_inv (m : QueuedMotion.t) (s s' : state) (r : Res unit) :
  motion_setup m s = (r, s') ->
  base_of s' = base_of s /\ log_of s' = log_of s.
Proof.
  unfold motion_setup, on_world, zoom.
  destruct (QueuedMotion._setup_func m) as [f |].
  - destruct (run_action f (snd s)) as [r0 w']. intros H. inversion H; subst.
    split; reflexivity.
  - unfold ret. intros H. inversion H; subst. split; reflexivity.
Qed.

Lemma logged_assign_inv (f : fields -> fields) (s s' : state) (r : Res unit) :
  assign (variant := logged) f s = (r, s') ->
  r = Ok tt /\ base_of s' = f (base_of s) /\ log_of s' = log_of s.
Proof.
  unfold assign, modify. intros H. inversion H; subst.
  split; [reflexivity |]. split; [| reflexivity].
  unfold base_of. cbn. apply base_with_base.
Qed.

Lemma logged_front_inv (s s' : state) (m : QueuedMotion.t) :
  front (variant := logged) s = (Ok m, s') ->
  s' = s /\ exists rest, _queue (base_of s) = m :: rest.
Proof.
  unfold front, bind, self. cbn [base logged fst snd].
  fold (base_of s).
  destruct (_queue (base_of s)) as [| m0 rest]; [discriminate |].
  unfold ret. intros H. inversion H; subst. split; [reflexivity | eauto].
Qed.


Lemma logged_pop_front_inv (s s' : state) :
  pop_front (variant := logged) s = (Ok tt, s') ->
  exists (m : QueuedMotion.t) (rest : list QueuedMotion.t),
    _queue (base_of s) = m :: rest
    /\ base_of s' = set_queue rest (base_of s)
    /\ log_of s' = log_of s.
Proof.
  unfold pop_front, bind, self. cbn [base logged fst snd].
  fold (base_of s).
  destruct (_queue (base_of s)) as [| m rest] eqn:Hq; [discriminate |].
  intros H. apply logged_assign_inv in H. destruct H as (_ & Hb & Hl).
  exists m, rest. split; [reflexivity |]. split; [exact Hb | exact Hl].
Qed.


End IdleFlag.

Section Frames.

Context {T W : Type}.

Lemma frame_ret {A : Type} (a : A) : frame (ret a : M (T * W) A).
Proof. intros s s' r H. inversion H; reflexivity. Qed.

Lemma frame_raise {A : Type} (e : exn) : frame (raise e : M (T * W) A).
Proof. intros s s' r H. inversion H; reflexivity. Qed.

Lemma frame_lift {A : Type} (x : Res A) : frame (lift x : M (T * W) A).
Proof. intros s s' r H. inversion H; reflexivity. Qed.

Lemma frame_attr {A : Type} (slot : option A) :
  frame (attr slot : M (T * W) A).
Proof. destruct slot; [apply frame_ret | apply frame_raise]. Qed.

Lemma frame_bind {A B : Type} (m : M (T * W) A) (k : A -> M (T * W) B) :
  frame m -> (forall a : A, frame (k a)) -> frame (bind m k).
Proof.
  intros Hm Hk s s' r. unfold bind.
  destruct (m s) as [[a | e] s1] eqn:Hms.
  - intros H. apply Hk in H. apply Hm in Hms. congruence.
  - intros H. inversion H; subst. eapply Hm. exact Hms.
Qed.

Lemma frame_world {A : Type} (m : M W A) :
  frame (T := T) (zoom snd (fun w s => (fst s, w)) m).
Proof.
  intros s s' r. unfold zoom. destruct (m (snd s)) as [r0 w'].
  intros H. inversion H; reflexivity.
Qed.

End Frames.

Section TestChassisFrames.

Context {W : Type} {runtime : Runtime W} {ext : Externals W}.

Lemma test_this_frame : frame (TestChassis.this (W := W)).
Proof. intros s s' r H. inversion H; reflexivity. Qed.

Lemma test_estimate_frame (v d : R) (stop : bool) :
  frame (TestChassis._estimate_travel_time (W := W) v d stop).
Proof.
  unfold TestChassis._estimate_travel_time.
  apply frame_bind; [apply test_this_frame | intros c].
  destruct stop.
  - apply frame_bind; [apply frame_raise | intros hits].
    destruct hits; repeat (apply frame_bind; [apply frame_lift | intros ?]);
      apply frame_ret.
  - repeat (apply frame_bind; [apply frame_lift | intros ?]).
    apply frame_ret.
Qed.

Lemma test_update_motors_frame (l r : R) :
  frame (TestChassis._update_motors (W := W) l r).
Proof.
  unfold TestChassis._update_motors.
  apply frame_bind; [apply test_this_frame | intros c].
  apply frame_bind; [apply test_estimate_frame | intros [ld lf]].
  apply frame_bind; [apply test_estimate_frame | intros [rd rf]].
  apply frame_bind; [apply frame_attr | intros start].
  apply frame_bind; [apply frame_world | intros now].
  apply frame_bind; [| intros ?; apply frame_ret].
  case_bool_decide.
  - apply frame_bind; [apply frame_world | intros ?; apply frame_world].
  - apply frame_bind; [apply frame_lift | intros ?].
    apply frame_bind; [apply frame_world | intros ?].
    apply frame_bind; [apply frame_lift | intros ?].
    apply frame_bind; [apply frame_world | intros ?; apply frame_ret].
Qed.

Lemma test_motion_update_frame (m : QueuedMotion.t) :
  frame (BaseQueuedChassis.motion_update (variant := TestChassis.variant) m).
Proof.
  unfold BaseQueuedChassis.motion_update.
  destruct (QueuedMotion._update m) as [path | angle | p];
    cbn [BaseQueuedChassis._update_move BaseQueuedChassis._update_turn
         BaseQueuedChassis._update_peripheral TestChassis.variant].
  - apply test_update_motors_frame.
  - unfold TestChassis._update_turn.
    apply frame_bind; [apply frame_lift | intros ?].
    apply test_update_motors_frame.
  - apply frame_world.
Qed.

Lemma test_finish_frame : frame (TestChassis._on_queue_finish (W := W)).
Proof.
  unfold TestChassis._on_queue_finish.
  apply frame_bind; [apply test_this_frame | intros c].
  apply frame_bind; [apply frame_world | intros ?; apply frame_world].
Qed.

End TestChassisFrames.

Section BenchChassis.

Import BaseQueuedChassis HookLog.
Local Open Scope R_scope.

Lemma test_chassis_start_frame (m : QueuedMotion.t)
    (s s' : TestChassis.t * MockRobot.t) (r : Res unit) :
  _on_start_new_motion (Variant := TestChassis.variant) m s = (r, s') ->
  base (fst s') = base (fst s).
Proof. intros H. inversion H; reflexivity. Qed.

Lemma test_chassis_update_frame (m : QueuedMotion.t)
    (s s' : TestChassis.t * MockRobot.t) (r : Res bool) :
  motion_update (variant := TestChassis.variant) m s = (r, s') ->
  base (fst s') = base (fst s).
Proof. intros H. apply test_motion_update_frame in H. congruence. Qed.

Lemma test_chassis_finish_frame
    (s s' : TestChassis.t * MockRobot.t) (r : Res unit) :
  _on_queue_finish (Variant := TestChassis.variant) s = (r, s') ->
  base (fst s') = base (fst s).
Proof. intros H. apply test_finish_frame in H. congruence. Qed.

Lemma test_chassis_post_frame
    (s s' : TestChassis.t * MockRobot.t) (r : Res unit) :
  _on_post_update (Variant := TestChassis.variant) s = (r, s') ->
  base (fst s') = base (fst s).
Proof. intros H. inversion H; reflexivity. Qed.



End BenchChassis.

(* ===================================================================== *)
(** ** A motion whose two distances are zero *)
(* ===================================================================== *)

Section ZeroDistances.

Import BaseQueuedChassis.

Context {W : Type} {runtime : Runtime W} {ext : Externals W}.

Variable progress_guard : Wheel.t -> Res bool.

Local Open Scope R_scope.

Lemma zero_max_abs (l r : R) : l = 0 -> r = 0 -> Rmax (Rabs l) (Rabs r) = 0.
Proof. intros -> ->. rewrite Rabs_R0. apply Rmax_left. lra. Qed.

(** [QuadChassis._update_motors] divides before it does anything else. *)
Lemma quad_update_motors_zero (l r : R) (s : QuadChassis.t * W) :
  l = 0 -> r = 0 ->
  QuadChassis._update_motors progress_guard l r s
  = (Raise ZeroDivisionError, s).
Proof.
  intros Hl Hr. unfold QuadChassis._update_motors.
  rewrite (zero_max_abs l r Hl Hr), fdiv_zero. reflexivity.
Qed.

Lemma front_runs {T : Type} {variant : Variant T} (s : T * W)
    (m : QueuedMotion.t) (rest : list QueuedMotion.t) :
  _queue (base (fst s)) = m :: rest -> front s = (Ok m, s).
Proof.
  intros Hq. unfold front. mstep. rewrite Hq. reflexivity.
Qed.

(** The first statement of [update]: on an idle chassis with a motion at
    the front, the start hook and the end of idleness. *)
Lemma update_starts {T : Type} {variant : Variant T}
    (base_with_base : forall (b : fields) (c : T), base (with_base b c) = b)
    (s s1 : T * W) (head : QueuedMotion.t) (rest : list QueuedMotion.t) :
  _queue (base (fst s)) = head :: rest ->
  _is_idle (base (fst s)) = true ->
  _on_start_new_motion head s = (Ok tt, s1) ->
  (if negb (bool_decide (_queue (base (fst s)) = []))
      && _is_idle (base (fst s))
   then head <- front ;;
        _on_start_new_motion head ;;
        assign (set_is_idle false)
   else ret tt) s
  = (Ok tt,
     (with_base (set_is_idle false (base (fst s1))) (fst s1), snd s1)).
Proof.
  intros Hq Hidle Hrun. rewrite Hq, Hidle.
  rewrite bool_decide_eq_false_2 by discriminate. cbn [negb andb].
  mstep by (eapply front_runs; exact Hq).
  mstep by (exact Hrun).
  reflexivity.
Qed.

Lemma update_continues {T : Type} {variant : Variant T}
    (s : T * W) (head : QueuedMotion.t) (rest : list QueuedMotion.t) :
  _queue (base (fst s)) = head :: rest ->
  _is_idle (base (fst s)) = false ->
  (if negb (bool_decide (_queue (base (fst s)) = []))
      && _is_idle (base (fst s))
   then head <- front ;;
        _on_start_new_motion head ;;
        assign (set_is_idle false)
   else ret tt) s
  = (Ok tt, s).
Proof.
  intros Hq Hidle. rewrite Hq, Hidle.
  rewrite bool_decide_eq_false_2 by discriminate. reflexivity.
Qed.

(** An update whose front motion raises: the update raises the same. *)
Lemma update_front_raises {T : Type} {variant : Variant T}
    (s s2 s3 : T * W) (head : QueuedMotion.t) (rest : list QueuedMotion.t)
    (e : exn) :
  (if negb (bool_decide (_queue (base (fst s)) = []))
      && _is_idle (base (fst s))
   then head <- front ;;
        _on_start_new_motion head ;;
        assign (set_is_idle false)
   else ret tt) s
  = (Ok tt, s2) ->
  _queue (base (fst s2)) = head :: rest ->
  motion_update head s2 = (Raise e, s3) ->
  update s = (Raise e, s3).
Proof.
  intros Hfirst Hq2 Hhead.
  unfold update. mstep. mstep by (exact Hfirst). mstep.
  rewrite Hq2. rewrite bool_decide_eq_false_2 by discriminate. cbn [negb].
  erewrite bind_raise; [reflexivity |].
  mstep by (eapply front_runs; exact Hq2).
  erewrite bind_raise; [reflexivity | exact Hhead].
Qed.

Lemma quad_start_frame (m : QueuedMotion.t) :
  frame (QuadChassis._on_start_new_motion (W := W) m).
Proof.
  unfold QuadChassis._on_start_new_motion.
  apply frame_bind; [| intros c].
  - intros s s' r H. inversion H; reflexivity.
  - apply frame_bind; [apply frame_world | intros ?; apply frame_world].
Qed.

(** [TestChassis._update_motors] with a single motion in the queue asks the
    estimator for a full stop. *)
Lemma test_update_motors_last (l r : R) (c : TestChassis.t) (w : W) :
  length (_queue (TestChassis._base c)) = 1%nat ->
  TestChassis._update_motors l r (c, w) = (Raise NotImplementedError, (c, w)).
Proof.
  intros Hlen. unfold TestChassis._update_motors.
  mstep. cbn [fst]. rewrite Hlen. cbn [Nat.eqb].
  erewrite bind_raise; [reflexivity |].
  apply estimate_travel_time_must_stop.
Qed.

(** With more motions queued, no velocity yet and the clock not before the
    start of the motion, it reaches the division by the greatest distance. *)
Lemma test_update_motors_zero (l r now : R) (c : TestChassis.t) (w w1 : W) :
  l = 0 -> r = 0 ->
  length (_queue (TestChassis._base c)) <> 1%nat ->
  TestChassis._actual_motor_velocity c = LRStruct.mk 0 0 ->
  0 <= TestChassis._max_velocity c ->
  0 < TestChassis._max_acceleration c ->
  TestChassis._motion_start_timestamp c = Some 0 ->
  time_time w = (Ok now, w1) ->
  0 <= now ->
  TestChassis._update_motors l r (c, w) = (Raise ZeroDivisionError, (c, w1)).
Proof.
  intros -> -> Hlen Hvel Hv Ha Hstart Hclock Hnow.
  assert (Htime :
    Rmin (0 + sqrt (0 ^ 2 + 2 * TestChassis._max_acceleration c * Rabs 0))
      (TestChassis._max_velocity c)
    / TestChassis._max_acceleration c = 0).
  { rewrite Rabs_R0.
    replace (0 ^ 2 + 2 * TestChassis._max_acceleration c * 0) with 0 by ring.
    rewrite sqrt_0, Rplus_0_l, Rmin_left by exact Hv.
    unfold Rdiv. apply Rmult_0_l. }
  unfold TestChassis._update_motors.
  mstep. cbn [fst].
  rewrite (proj2 (Nat.eqb_neq _ _) Hlen). rewrite Hvel.
  cbn [LRStruct.left LRStruct.right].
  mstep by (apply estimate_travel_time_no_stop; exact Ha).
  mstep by (apply estimate_travel_time_no_stop; exact Ha).
  rewrite Htime, Hstart.
  mstep.
  mstep by (unfold TestChassis.on_robot, zoom; cbn [fst snd];
            rewrite Hclock; reflexivity).
  rewrite bool_decide_eq_false_2.
  2:{ rewrite Rmin_left by lra. lra. }
  erewrite bind_raise; [reflexivity |].
  erewrite bind_raise; [reflexivity |].
  rewrite (zero_max_abs 0 0 eq_refl eq_refl), fdiv_zero. reflexivity.
Qed.


Lemma test_update_first (c : TestChassis.t) (w : W)
    (head : QueuedMotion.t) (rest : list QueuedMotion.t) :
  _queue (TestChassis._base c) = head :: rest ->
  (if negb (bool_decide (_queue (base (Variant := TestChassis.variant)
                                   (fst (c, w))) = []))
      && _is_idle (base (Variant := TestChassis.variant) (fst (c, w)))
   then head <- front ;;
        _on_start_new_motion (Variant := TestChassis.variant) head ;;
        assign (set_is_idle false)
   else ret tt) (c, w)
  = (Ok tt, (test_started c, w)).
Proof.
  intros Hq. unfold test_started.
  destruct (_is_idle (TestChassis._base c)) eqn:Hidle.
  - apply (update_starts (variant := TestChassis.variant)
             (fun b c0 => eq_refl) (c, w)
             (TestChassis.set_motion_start_timestamp 0 c, w) head rest
             Hq Hidle eq_refl).
  - apply (update_continues (variant := TestChassis.variant) (c, w) head rest
             Hq Hidle).
Qed.

Lemma test_started_queue (c : TestChassis.t) :
  _queue (TestChassis._base (test_started c)) = _queue (TestChassis._base c).
Proof.
  unfold test_started. destruct (_is_idle (TestChassis._base c)); reflexivity.
Qed.

(** The update of a [TestChassis] whose only motion is a turn by [0.0]. *)
Lemma test_update_turn_zero_last (c : TestChassis.t) (w : W)
    (head : QueuedMotion.t) (angle : R) :
  _queue (TestChassis._base c) = [head] ->
  QueuedMotion._update head = QueuedMotion.Turn angle ->
  angle = 0 ->
  TestChassis._wheelspan <> 0 ->
  exists s' : TestChassis.t * W,
    update (variant := TestChassis.variant) (c, w)
    = (Raise NotImplementedError, s').
Proof.
  intros Hq Hturn -> Hspan.
  eexists.
  eapply (update_front_raises (variant := TestChassis.variant)).
  - eapply test_update_first. exact Hq.
  - cbn [fst base TestChassis.variant]. rewrite test_started_queue. exact Hq.
  - unfold motion_update. rewrite Hturn.
    cbn [_update_turn TestChassis.variant]. unfold TestChassis._update_turn.
    unfold TestChassis.turn_distances. rewrite fdiv_ok by exact Hspan.
    mstep.
    apply test_update_motors_last.
    rewrite test_started_queue, Hq. reflexivity.
Qed.

(** The update function of a motion calls [_update_motors] with the two
    distances of the motion. *)
Lemma quad_motion_update (head : QueuedMotion.t) (l r : R)
    (s : QuadChassis.t * W) :
  quad_distances head = Some (l, r) ->
  motion_update (variant := QuadChassis.variant progress_guard) head s
  = QuadChassis._update_motors progress_guard l r s.
Proof.
  unfold quad_distances, motion_distances, motion_update.
  destruct (QueuedMotion._update head) as [path | angle | p].
  - intros Hd. inversion Hd; subst. reflexivity.
  - destruct (QuadChassis.turn_distances angle) as [[l' r'] | e] eqn:Hturn;
      [| discriminate].
    intros Hd. inversion Hd; subst.
    cbn [_update_turn QuadChassis.variant]. unfold QuadChassis._update_turn.
    rewrite Hturn. reflexivity.
  - discriminate.
Qed.

Lemma test_motion_update (head : QueuedMotion.t) (l r : R)
    (s : TestChassis.t * W) :
  test_distances head = Some (l, r) ->
  motion_update (variant := TestChassis.variant) head s
  = TestChassis._update_motors l r s.
Proof.
  unfold test_distances, motion_distances, motion_update.
  destruct (QueuedMotion._update head) as [path | angle | p].
  - intros Hd. inversion Hd; subst. reflexivity.
  - destruct (TestChassis.turn_distances angle) as [[l' r'] | e] eqn:Hturn;
      [| discriminate].
    intros Hd. inversion Hd; subst.
    cbn [_update_turn TestChassis.variant]. unfold TestChassis._update_turn.
    rewrite Hturn. reflexivity.
  - discriminate.
Qed.

(** The update of a [QuadChassis] whose front motion has two distances of
    zero. *)
Lemma quad_update_zero_raises (c : QuadChassis.t) (w : W)
    (head : QueuedMotion.t) (rest : list QueuedMotion.t) :
  _queue (QuadChassis._base c) = head :: rest ->
  quad_distances head = Some (0, 0) ->
  (_is_idle (QuadChassis._base c) = true ->
   exists s1 : QuadChassis.t * W,
     QuadChassis._on_start_new_motion head (c, w) = (Ok tt, s1)) ->
  exists s' : QuadChassis.t * W,
    update (variant := QuadChassis.variant progress_guard) (c, w)
    = (Raise ZeroDivisionError, s').
Proof.
  intros Hq Hzero Hstart.
  assert (Hhead :
    forall s : QuadChassis.t * W,
      motion_update (variant := QuadChassis.variant progress_guard) head s
      = (Raise ZeroDivisionError, s)).
  { intros s. rewrite (quad_motion_update head 0 0 s Hzero).
    apply quad_update_motors_zero; reflexivity. }
  destruct (_is_idle (QuadChassis._base c)) eqn:Hidle.
  - destruct (Hstart eq_refl) as (s1 & Hrun).
    pose proof (quad_start_frame head _ _ _ Hrun) as Hframe.
    cbn [fst] in Hframe.
    eexists.
    eapply (update_front_raises
              (variant := QuadChassis.variant progress_guard)).
    + eapply (update_starts (variant := QuadChassis.variant progress_guard));
        [reflexivity | exact Hq | exact Hidle | exact Hrun].
    + cbn [fst base with_base QuadChassis.variant QuadChassis.set_base
           QuadChassis._base set_is_idle _queue].
      rewrite Hframe. exact Hq.
    + apply Hhead.
  - eexists.
    eapply (update_front_raises
              (variant := QuadChassis.variant progress_guard)).
    + eapply (update_continues (variant := QuadChassis.variant progress_guard));
        [exact Hq | exact Hidle].
    + exact Hq.
    + apply Hhead.
Qed.

(** The update of a [TestChassis] whose only motion has two distances of
    zero. *)
Lemma test_update_zero_last (c : TestChassis.t) (w : W)
    (head : QueuedMotion.t) :
  _queue (TestChassis._base c) = [head] ->
  test_distances head = Some (0, 0) ->
  exists s' : TestChassis.t * W,
    update (variant := TestChassis.variant) (c, w)
    = (Raise NotImplementedError, s').
Proof.
  intros Hq Hzero.
  eexists.
  eapply (update_front_raises (variant := TestChassis.variant)).
  - eapply test_update_first. exact Hq.
  - cbn [fst base TestChassis.variant]. rewrite test_started_queue. exact Hq.
  - rewrite (test_motion_update head 0 0 _ Hzero).
    apply test_update_motors_last.
    rewrite test_started_queue, Hq. reflexivity.
Qed.

(** The same update when more motions are queued behind that motion. *)
Lemma test_update_zero_more (c : TestChassis.t) (w w1 : W)
    (head next : QueuedMotion.t) (rest : list QueuedMotion.t) (now : R) :
  _queue (TestChassis._base c) = head :: next :: rest ->
  test_distances head = Some (0, 0) ->
  TestChassis._actual_motor_velocity c = LRStruct.mk 0 0 ->
  0 <= TestChassis._max_velocity c ->
  0 < TestChassis._max_acceleration c ->
  (_is_idle (TestChassis._base c) = false ->
   TestChassis._motion_start_timestamp c = Some 0) ->
  time_time w = (Ok now, w1) ->
  0 <= now ->
  exists s' : TestChassis.t * W,
    update (variant := TestChassis.variant) (c, w)
    = (Raise ZeroDivisionError, s').
Proof.
  intros Hq Hzero Hvel Hv Ha Hstamp Hclock Hnow.
  exists (test_started c, w1).
  eapply (update_front_raises (variant := TestChassis.variant)).
  - eapply test_update_first. exact Hq.
  - cbn [fst base TestChassis.variant]. rewrite test_started_queue. exact Hq.
  - rewrite (test_motion_update head 0 0 _ Hzero).
    apply test_update_motors_zero with (now := now);
      try reflexivity; try assumption.
    + rewrite test_started_queue, Hq. cbn. lia.
    + unfold test_started.
      destruct (_is_idle (TestChassis._base c)); exact Hvel.
    + unfold test_started.
      destruct (_is_idle (TestChassis._base c)); exact Hv.
    + unfold test_started.
      destruct (_is_idle (TestChassis._base c)); exact Ha.
    + unfold test_started.
      destruct (_is_idle (TestChassis._base c)) eqn:Hidle;
        [reflexivity | apply Hstamp; reflexivity].
Qed.

(** C10, amended.  The front motion is a move or a turn whose two distances,
    left and right, are zero, as those of a turn by [0.0] are.  On a
    [QuadChassis] the next [update()] raises [ZeroDivisionError], once the
    start hook, if the chassis was idle, has returned.  On a [TestChassis]
    it raises [ZeroDivisionError] when more motions are queued behind that
    motion, the chassis has no velocity and the clock reads a time that is
    not negative; when the motion is the only one queued it raises
    [NotImplementedError], from the travel-time estimator, before the
    division is reached. *)
Theorem zero_distances_update_raises (head : QueuedMotion.t) :
  (quad_distances head = Some (0, 0) ->
   forall (c : QuadChassis.t) (w : W) (rest : list QueuedMotion.t),
     _queue (QuadChassis._base c) = head :: rest ->
     (_is_idle (QuadChassis._base c) = true ->
      exists s1 : QuadChassis.t * W,
        QuadChassis._on_start_new_motion head (c, w) = (Ok tt, s1)) ->
     exists s' : QuadChassis.t * W,
       update (variant := QuadChassis.variant progress_guard) (c, w)
       = (Raise ZeroDivisionError, s'))
  /\ (test_distances head = Some (0, 0) ->
      (forall (c : TestChassis.t) (w w1 : W) (next : QueuedMotion.t)
              (rest : list QueuedMotion.t) (now : R),
          _queue (TestChassis._base c) = head :: next :: rest ->
          TestChassis._actual_motor_velocity c = LRStruct.mk 0 0 ->
          0 <= TestChassis._max_velocity c ->
          0 < TestChassis._max_acceleration c ->
          (_is_idle (TestChassis._base c) = false ->
           TestChassis._motion_start_timestamp c = Some 0) ->
          time_time w = (Ok now, w1) ->
          0 <= now ->
          exists s' : TestChassis.t * W,
            update (variant := TestChassis.variant) (c, w)
            = (Raise ZeroDivisionError, s'))
      /\ (forall (c : TestChassis.t) (w : W),
            _queue (TestChassis._base c) = [head] ->
            exists s' : TestChassis.t * W,
              update (variant := TestChassis.variant) (c, w)
              = (Raise NotImplementedError, s'))).
Proof.
  split.
  - intros Hzero c w rest Hq Hstart.
    eapply quad_update_zero_raises; eassumption.
  - intros Hzero. split.
    + intros c w w1 next rest now Hq Hvel Hv Ha Hstamp Hclock Hnow.
      eapply test_update_zero_more; eassumption.
    + intros c w Hq.
      eapply test_update_zero_last; eassumption.
Qed.

End ZeroDistances.

Section BenchZeroTurn.

Import MockRobot BaseQueuedChassis.
Local Open Scope R_scope.

Lemma bench_quad_controller_free :
  koalabear_free Bench.robot QuadChassis._drive_controller_id.
Proof.
  split; [reflexivity |].
  exists 1%Z, 0%Z. split; [reflexivity |]. split; [reflexivity | lia].
Qed.

(** The start hook of the [QuadChassis] of the bench resets the two encoders
    and returns. *)
Lemma bench_quad_start (queue : list QueuedMotion.t) (idle : bool)
    (head : QueuedMotion.t) :
  exists s1 : QuadChassis.t * MockRobot.t,
    QuadChassis._on_start_new_motion (runtime := Bench.runtime) head
      (Bench.quad_chassis queue idle, Bench.robot)
    = (Ok tt, s1).
Proof.
  destruct (admitted_created Bench.clock Bench.robot
              QuadChassis._drive_controller_id "enc_b"
              bench_quad_controller_free eq_refl) as (s0 & Hadm0 & Hr0).
  assert (Hzero : Rabs 0.0 <= 1) by (rewrite Rabs_pos_eq; lra).
  destruct (robot_set_enc_b Bench.clock _ _ _ _ _ _ _ _ (PInt 0) 0
              Hadm0 Hzero Hzero (fun _ => eq_refl))
    as (sB & HsetB & HatB & HrB).
  pose proof (admitted_known Bench.clock sB QuadChassis._drive_controller_id
                "enc_a" _ _ _ _ _ HatB (or_introl eq_refl)) as HadmB.
  destruct (robot_set_enc_a Bench.clock _ _ _ _ _ _ _ _ (PInt 0) 0
              HadmB Hzero Hzero (fun _ => eq_refl))
    as (sA & HsetA & HatA & HrA).
  exists (Bench.quad_chassis queue idle, sA).
  unfold QuadChassis._on_start_new_motion.
  mstep.
  mstep by (unfold QuadChassis.on_robot, zoom, Motor.reset_encoder,
              Motor._set;
            cbn [fst snd QuadChassis._motors Bench.quad_chassis
                 LRStruct.left LRStruct.right Motor._controller Motor._motor
                 robot_set_value Bench.runtime MockRobot.runtime
                 String.append];
            change ("enc" +:+ "_" +:+ "b") with "enc_b";
            rewrite HsetB; reflexivity).
  unfold QuadChassis.on_robot, zoom, Motor.reset_encoder, Motor._set.
  cbn [fst snd QuadChassis._motors Bench.quad_chassis
       LRStruct.left LRStruct.right Motor._controller Motor._motor
       robot_set_value Bench.runtime MockRobot.runtime String.append].
  change ("enc" +:+ "_" +:+ "a") with "enc_a".
  rewrite HsetA. reflexivity.
Qed.

Lemma bench_test_wheelspan :
  TestChassis._wheelspan (ext := Bench.externals) <> 0.
Proof.
  unfold TestChassis._wheelspan. cbn [inches_to_meters Bench.externals].
  unfold Bench.inches_to_meters. lra.
Qed.

(** On the test chassis of the bench [turn(0.0)] queues a turn whose
    distances are zero, and the next update raises [NotImplementedError],
    not [ZeroDivisionError]. *)
Lemma zero_turn_counterexample :
  exists s2 : TestChassis.t * MockRobot.t,
    turn (variant := TestChassis.variant (runtime := Bench.runtime)) 0
      (Bench.light_chassis, Bench.robot)
    = (Ok tt,
       (TestChassis.set_base
          (set_angle (0 + 0)
             (set_queue [Bench.zero_turn]
                (TestChassis._base Bench.light_chassis)))
          Bench.light_chassis,
        Bench.robot))
    /\ TestChassis.turn_distances (ext := Bench.externals) 0
       = Ok (Rabs (0 / TestChassis._wheelspan / 2),
             - Rabs (0 / TestChassis._wheelspan / 2))
    /\ update (variant := TestChassis.variant (runtime := Bench.runtime))
         (TestChassis.set_base
            (set_angle (0 + 0)
               (set_queue [Bench.zero_turn]
                  (TestChassis._base Bench.light_chassis)))
            Bench.light_chassis,
          Bench.robot)
       = (Raise NotImplementedError, s2)
    /\ NotImplementedError <> ZeroDivisionError.
Proof.
  destruct (test_update_turn_zero_last (runtime := Bench.runtime)
              (TestChassis.set_base
                 (set_angle (0 + 0)
                    (set_queue [Bench.zero_turn]
                       (TestChassis._base Bench.light_chassis)))
                 Bench.light_chassis)
              Bench.robot Bench.zero_turn 0 eq_refl eq_refl eq_refl
              bench_test_wheelspan) as (s2 & Hrun).
  exists s2.
  split; [reflexivity |].
  split.
  - unfold TestChassis.turn_distances.
    rewrite fdiv_ok by exact bench_test_wheelspan.
    unfold math_copysign. case_decide; [lra | reflexivity].
  - split; [exact Hrun | discriminate].
Qed.

Lemma bench_zero_turn_distances :
  quad_distances Bench.zero_turn = Some (0, 0)
  /\ test_distances Bench.zero_turn = Some (0, 0).
Proof.
  assert (Hquad : 0 < QuadChassis._wheelspan (ext := Bench.externals)).
  { unfold QuadChassis._wheelspan. cbn [inches_to_meters Bench.externals].
    unfold Bench.inches_to_meters. lra. }
  assert (Htest : 0 < TestChassis._wheelspan (ext := Bench.externals)).
  { unfold TestChassis._wheelspan. cbn [inches_to_meters Bench.externals].
    unfold Bench.inches_to_meters. lra. }
  unfold quad_distances, test_distances, motion_distances.
  cbn [QueuedMotion._update Bench.zero_turn].
  rewrite (quad_turn_distances 0 Hquad), (test_turn_distances 0 Htest).
  split; do 2 f_equal; unfold Rdiv; ring.
Qed.

Lemma bench_zero_move_distances :
  quad_distances Bench.zero_move = Some (0, 0)
  /\ test_distances Bench.zero_move = Some (0, 0).
Proof.
  assert (Hlength : sqrt ((0 - 0) ^ 2 + (0 - 0) ^ 2) = 0).
  { replace ((0 - 0) ^ 2 + (0 - 0) ^ 2) with 0 by ring. apply sqrt_0. }
  unfold quad_distances, test_distances, motion_distances.
  cbn [QueuedMotion._update Bench.zero_move get_offset_length path_Path
       Bench.externals Bench.segment_length fst snd].
  rewrite Hlength. split; reflexivity.
Qed.

(** On the bench: a [QuadChassis] with a turn by [0.0] or a move of length
    zero at the front, and a [TestChassis] with that move at the front,
    followed by another motion or alone. *)
Lemma zero_distances_update_raises_witness :
  quad_distances Bench.zero_turn = Some (0, 0)
  /\ quad_distances Bench.zero_move = Some (0, 0)
  /\ test_distances Bench.zero_move = Some (0, 0)
  /\ (exists s' : QuadChassis.t * MockRobot.t,
        update (variant := QuadChassis.variant (runtime := Bench.runtime)
                             spec_progress_guard)
          (Bench.quad_chassis [Bench.zero_turn] true, Bench.robot)
        = (Raise ZeroDivisionError, s'))
  /\ (exists s' : QuadChassis.t * MockRobot.t,
        update (variant := QuadChassis.variant (runtime := Bench.runtime)
                             spec_progress_guard)
          (Bench.quad_chassis [Bench.zero_move] true, Bench.robot)
        = (Raise ZeroDivisionError, s'))
  /\ (exists s' : TestChassis.t * MockRobot.t,
        update (variant := TestChassis.variant (runtime := Bench.runtime))
          (Bench.test_chassis [Bench.zero_move; Bench.zero_turn] true None,
           Bench.robot)
        = (Raise ZeroDivisionError, s'))
  /\ (exists s' : TestChassis.t * MockRobot.t,
        update (variant := TestChassis.variant (runtime := Bench.runtime))
          (Bench.test_chassis [Bench.zero_move] true None, Bench.robot)
        = (Raise NotImplementedError, s')).
Proof.
  destruct bench_zero_turn_distances as [Hturn_quad _].
  destruct bench_zero_move_distances as [Hmove_quad Hmove_test].
  destruct (zero_distances_update_raises (runtime := Bench.runtime)
              spec_progress_guard Bench.zero_turn) as (Hquad_turn & _).
  destruct (zero_distances_update_raises (runtime := Bench.runtime)
              spec_progress_guard Bench.zero_move) as (Hquad_move & Htest).
  destruct (Htest Hmove_test) as (Hmore & Hlast).
  split; [exact Hturn_quad |]. split; [exact Hmove_quad |].
  split; [exact Hmove_test |].
  split; [| split; [| split]].
  - apply (Hquad_turn Hturn_quad
             (Bench.quad_chassis [Bench.zero_turn] true) Bench.robot []
             eq_refl).
    intros _. apply bench_quad_start.
  - apply (Hquad_move Hmove_quad
             (Bench.quad_chassis [Bench.zero_move] true) Bench.robot []
             eq_refl).
    intros _. apply bench_quad_start.
  - apply (Hmore (Bench.test_chassis [Bench.zero_move; Bench.zero_turn]
                    true None)
             Bench.robot
             (MockRobot.set_clock_reads 1 Bench.robot)
             Bench.zero_turn [] (Bench.clock 0)
             eq_refl eq_refl).
    + pose proof light_chassis_velocity as Hv. left. exact Hv.
    + exact light_chassis_acceleration.
    + intros Hidle. discriminate Hidle.
    + reflexivity.
    + unfold Bench.clock. cbn [INR]. lra.
  - apply (Hlast (Bench.test_chassis [Bench.zero_move] true None)
             Bench.robot eq_refl).
Defined.

End BenchZeroTurn.

(* ===================================================================== *)
(** ** The simulated robot: refused accesses *)
(* ===================================================================== *)

Section MockRobotRefusals.

Import MockRobot.

Variable clock : nat -> R.

Lemma scan_unknown (key : string) :
  koalabear_defaults !! key = None ->
  servocontroller_defaults !! key = None ->
  scan_device_types key _default_device_properties = None.
Proof.
  intros Hk Hs. unfold _default_device_properties. cbn [scan_device_types].
  rewrite !bool_decide_eq_false_2; [reflexivity | |];
    rewrite ?Hk, ?Hs; intros [? ?]; discriminate.
Qed.

Lemma check_property_unbound (s : t) (id key : string) :
  _devices s !! id = None ->
  scan_device_types key _default_device_properties = None ->
  _check_property clock id key s = (Raise UnboundLocalError, s).
Proof.
  intros Hd Hscan. unfold _check_property.
  mstep.
  erewrite bind_raise; [reflexivity |].
  rewrite bool_decide_eq_false_2 by (rewrite Hd; intros [? ?]; discriminate).
  rewrite Hscan. reflexivity.
Qed.

Lemma check_property_limit (s : t) (id key ty : string) :
  _devices s !! id = None ->
  scan_device_types key _default_device_properties = Some ty ->
  (_max_devices s !! ty = None
   \/ exists limit count : Z,
        _max_devices s !! ty = Some limit
        /\ _device_counts s !! ty = Some count
        /\ (limit <= count)%Z) ->
  _check_property clock id key s = (Raise ValueError, s).
Proof.
  intros Hd Hscan Hfull. unfold _check_property.
  mstep.
  erewrite bind_raise; [reflexivity |].
  rewrite bool_decide_eq_false_2 by (rewrite Hd; intros [? ?]; discriminate).
  rewrite Hscan.
  erewrite bind_raise; [reflexivity |].
  destruct Hfull as [Hnone | (limit & count & Hmax & Hcount & Hle)].
  - rewrite bool_decide_eq_false_2
      by (rewrite Hnone; intros [? ?]; discriminate).
    reflexivity.
  - rewrite bool_decide_eq_true_2 by (rewrite Hmax; eauto).
    unfold dict_get. rewrite Hcount, Hmax.
    mstep. mstep.
    rewrite (proj2 (Z.leb_le limit count)) by exact Hle.
    reflexivity.
Qed.

Lemma check_property_missing (s : t) (id key : string)
    (dev : gmap string pyval) :
  _devices s !! id = Some dev -> dev !! key = None ->
  _check_property clock id key s = (Raise ValueError, s).
Proof.
  intros Hd Hk. unfold _check_property.
  mstep.
  mstep by (rewrite bool_decide_eq_true_2 by (rewrite Hd; eauto); reflexivity).
  mstep.
  mstep by (unfold dict_get; rewrite Hd; reflexivity).
  rewrite bool_decide_eq_false_2 by (rewrite Hk; intros [? ?]; discriminate).
  reflexivity.
Qed.

(** An access that [_check_property] refuses goes no further. *)
Lemma refused_access (s s' : t) (id key : string) (value : pyval) (e : exn) :
  _check_property clock id key s = (Raise e, s') ->
  get_value clock id key s = (Raise e, s')
  /\ set_value clock id key value s = (Raise e, s').
Proof.
  intros Hcheck. unfold get_value, set_value.
  split; erewrite bind_raise; try reflexivity; exact Hcheck.
Qed.

(** X1.  A property name that no type of device declares, on an id the robot
    has not seen: the loop of [_check_property] ends without binding
    [found_device_type], and the read of that name raises [UnboundLocalError],
    not the [ValueError] of the line below it. The robot is left as it was. *)
Theorem unknown_property_is_unbound_local (s : t) (id key : string)
    (value : pyval) :
  _devices s !! id = None ->
  koalabear_defaults !! key = None ->
  servocontroller_defaults !! key = None ->
  get_value clock id key s = (Raise UnboundLocalError, s)
  /\ set_value clock id key value s = (Raise UnboundLocalError, s).
Proof.
  intros Hd Hk Hs.
  apply refused_access, check_property_unbound; [exact Hd |].
  apply scan_unknown; assumption.
Qed.

(** X2.  A new id whose type of device is not allowed by [max_devices], or has
    reached its limit: the access raises [ValueError] and creates nothing. *)
Theorem device_limit_is_enforced (s : t) (id key ty : string)
    (value : pyval) :
  _devices s !! id = None ->
  scan_device_types key _default_device_properties = Some ty ->
  (_max_devices s !! ty = None
   \/ exists limit count : Z,
        _max_devices s !! ty = Some limit
        /\ _device_counts s !! ty = Some count
        /\ (limit <= count)%Z) ->
  get_value clock id key s = (Raise ValueError, s)
  /\ set_value clock id key value s = (Raise ValueError, s).
Proof.
  intros Hd Hscan Hfull.
  eapply refused_access, check_property_limit; eassumption.
Qed.

(** X3.  A device the robot holds, asked for a property it does not have: the
    access raises [ValueError]; the clock is not read and nothing is stored. *)
Theorem missing_property_is_refused (s : t) (id key : string)
    (dev : gmap string pyval) (value : pyval) :
  _devices s !! id = Some dev ->
  dev !! key = None ->
  get_value clock id key s = (Raise ValueError, s)
  /\ set_value clock id key value s = (Raise ValueError, s).
Proof.
  intros Hd Hk.
  eapply refused_access, check_property_missing; eassumption.
Qed.

End MockRobotRefusals.

(* ===================================================================== *)
(** ** The simulated robot: what an access stores and returns *)
(* ===================================================================== *)

Section MockRobotLaws.

Import MockRobot.

Variable clock : nat -> R.

Local Open Scope R_scope.

Lemma koalabear_other (dev : gmap string pyval) (t0 va vb xa xb : R)
    (key : string) (v : pyval) :
  koalabear dev t0 va vb xa xb ->
  ~ integrated key -> key <> "velocity_a" -> key <> "velocity_b" ->
  koalabear (<[key := v]> dev) t0 va vb xa xb.
Proof.
  intros [Ht Hva Hvb Hea Heb] Hint Ha Hb. unfold integrated in Hint.
  split; rewrite lookup_insert_ne by (intros ->; tauto); assumption.
Qed.

Lemma koalabear_default_scan (key : string) (v : pyval) :
  koalabear_defaults !! key = Some v ->
  scan_device_types key _default_device_properties = Some "koalabear".
Proof.
  intros Hk. unfold _default_device_properties. cbn [scan_device_types].
  rewrite bool_decide_eq_true_2 by (rewrite Hk; eauto). reflexivity.
Qed.

Lemma koalabear_at_eq (s : t) (id : string)
    (t0 va vb xa xb t0' va' vb' xa' xb' : R) :
  koalabear_at s id t0 va vb xa xb ->
  t0 = t0' -> va = va' -> vb = vb' -> xa = xa' -> xb = xb' ->
  koalabear_at s id t0' va' vb' xa' xb'.
Proof. intros H -> -> -> -> ->. exact H. Qed.

(** X4.  The first access to an id the robot has not seen creates the
    controller: a read returns the default of the property (the count [0] of
    an encoder as a float), one more controller is counted, and the clock has
    been read twice. *)
Theorem first_read_returns_default (s : t) (id key : string) (v : pyval)
    (limit count : Z) :
  _devices s !! id = None ->
  _max_devices s !! "koalabear" = Some limit ->
  _device_counts s !! "koalabear" = Some count ->
  (count < limit)%Z ->
  koalabear_defaults !! key = Some v ->
  exists (s' : t) (v' : pyval),
    get_value clock id key s = (Ok v', s')
    /\ (key <> "enc_a" -> key <> "enc_b" -> v' = v)
    /\ (key = "enc_a" \/ key = "enc_b" -> v' = PFloat 0)
    /\ koalabear_at s' id (clock (S (clock_reads s))) 0 0 0 0
    /\ _device_counts s' !! "koalabear" = Some (count + 1)%Z
    /\ clock_reads s' = S (S (clock_reads s)).
Proof.
  intros Hnone Hmax Hcount Hlt Hdef.
  pose proof (koalabear_default_scan key v Hdef) as Hscan.
  pose proof (check_property_creates clock s id key limit count
                Hnone Hscan Hmax Hcount Hlt) as Hcheck.
  set (s1 := mk _ _ _ _ _) in Hcheck.
  set (dev := <["_LAST_UPDATED" := PFloat (clock (clock_reads s))]>
                koalabear_defaults).
  assert (Hd1 : _devices s1 !! id = Some dev) by apply lookup_insert_eq.
  assert (Hty1 : _device_types s1 !! id = Some "koalabear")
    by apply lookup_insert_eq.
  pose proof (created_koalabear (clock (clock_reads s))) as Hkb.
  assert (Hb : Rabs 0.0 <= 1) by (rewrite Rabs_pos_eq; lra).
  assert (Hkey : key <> "_LAST_UPDATED").
  { intros ->. vm_compute in Hdef. discriminate. }
  assert (Hin : exists v' : pyval,
    integrate (clock (clock_reads s1)) (clock (clock_reads s)) 0.0 0.0 0 0
      dev !! key = Some v'
    /\ (key <> "enc_a" -> key <> "enc_b" -> v' = v)
    /\ (key = "enc_a" \/ key = "enc_b" -> v' = PFloat 0)).
  { unfold integrate.
    destruct (decide (key = "enc_b")) as [-> | Hnb].
    { rewrite lookup_insert_eq. eexists. split; [reflexivity |].
      split; [congruence |]. intros _. f_equal. lra. }
    rewrite lookup_insert_ne by congruence.
    destruct (decide (key = "enc_a")) as [-> | Hna].
    { rewrite lookup_insert_eq. eexists. split; [reflexivity |].
      split; [congruence |]. intros _. f_equal. lra. }
    rewrite lookup_insert_ne by congruence.
    rewrite lookup_insert_ne by congruence.
    unfold dev. rewrite lookup_insert_ne by congruence.
    exists v. split; [exact Hdef |]. split; [reflexivity | tauto]. }
  destruct Hin as (v' & Hv' & Hother & Henc).
  eexists. exists v'.
  split; [eapply get_value_checked; eassumption |].
  split; [exact Hother |]. split; [exact Henc |].
  split; [| split].
  - eapply koalabear_at_eq.
    + eexists. split; [apply accessed_lookup |].
      split; [apply accessed_type; exact Hty1 |].
      apply integrate_koalabear. exact Hkb.
    + reflexivity.
    + lra.
    + lra.
    + lra.
    + lra.
  - unfold accessed, s1. cbn. apply lookup_insert_eq.
  - rewrite accessed_reads. reflexivity.
Qed.

End MockRobotLaws.

Section MockRobotStores.

Import MockRobot.

Variable clock : nat -> R.

Local Open Scope R_scope.

(** The controller after a write of [value] to [key]: the velocity that
    the write may have replaced. *)
Lemma koalabear_written (dev : gmap string pyval) (t0 va vb xa xb : R)
    (key : string) (stored : pyval) :
  koalabear dev t0 va vb xa xb ->
  ~ integrated key ->
  (key = "velocity_a" -> exists v : R, stored = PFloat v /\ Rabs v <= 1) ->
  (key = "velocity_b" -> exists v : R, stored = PFloat v /\ Rabs v <= 1) ->
  Rabs va <= 1 -> Rabs vb <= 1 ->
  exists va' vb' : R,
    koalabear (<[key := stored]> dev) t0 va' vb' xa xb
    /\ Rabs va' <= 1 /\ Rabs vb' <= 1.
Proof.
  intros Hkb Hint Ha Hb Hba Hbb.
  destruct (decide (key = "velocity_a")) as [-> | Hna].
  { destruct (Ha eq_refl) as (v & -> & Hv).
    exists v, vb. split; [| split; assumption].
    apply koalabear_velocity_a with (va := va). exact Hkb. }
  destruct (decide (key = "velocity_b")) as [-> | Hnb].
  { destruct (Hb eq_refl) as (v & -> & Hv).
    exists va, v. split; [| split; assumption].
    apply koalabear_velocity_b with (vb := vb). exact Hkb. }
  exists va, vb. split; [| split; assumption].
  apply koalabear_other; assumption.
Qed.

(** X5.  A write followed by a read of the same property of a controller whose
    velocities are in bounds, for a property other than the encoders and the
    time stamp: the read returns what the write stored, an [int] given for a
    [float] property as that float.  The value written and the encoder
    counts of the controller are in the range of floats: [float(value)] and
    the sum of an [int] count and its step raise [OverflowError] on others. *)
Theorem write_then_read (s : t) (id key : string) (dev : gmap string pyval)
    (t0 va vb xa xb : R) (current value : pyval) :
  _devices s !! id = Some dev ->
  _device_types s !! id = Some "koalabear" ->
  koalabear dev t0 va vb xa xb ->
  Rabs va <= 1 -> Rabs vb <= 1 ->
  ~ integrated key ->
  dev !! key = Some current ->
  type_of current = type_of (coerce current value) ->
  (key = "velocity_a" \/ key = "velocity_b" ->
   exists v : R, coerce current value = PFloat v /\ Rabs v <= 1) ->
  float_range value ->
  (forall e : pyval,
      dev !! "enc_a" = Some e \/ dev !! "enc_b" = Some e -> float_range e) ->
  exists s1 s2 : t,
    set_value clock id key value s = (Ok tt, s1)
    /\ get_value clock id key s1 = (Ok (coerce current value), s2).
Proof.
  intros Hd Hty Hkb Hba Hbb Hint Hcur Htype Hvel _ _.
  assert (Hkey : key <> "enc_a" /\ key <> "enc_b" /\ key <> "_LAST_UPDATED")
    by (unfold integrated in Hint; tauto).
  destruct Hkey as (Hna & Hnb & Hnl).
  set (dev1 := integrate (clock (clock_reads s)) t0 va vb xa xb dev).
  assert (Hkb1 := integrate_koalabear (clock (clock_reads s)) _ _ _ _ _ _ Hkb).
  fold dev1 in Hkb1.
  assert (Hcur1 : dev1 !! key = Some current).
  { unfold dev1. rewrite integrate_other by assumption. exact Hcur. }
  destruct (koalabear_written dev1 _ _ _ _ _ key (coerce current value)
              Hkb1 Hint (fun H => Hvel (or_introl H))
              (fun H => Hvel (or_intror H)) Hba Hbb)
    as (va' & vb' & Hkb2 & Hba' & Hbb').
  set (dev2 := <[key := coerce current value]> dev1) in *.
  exists (accessed s id dev2). eexists.
  split.
  - eapply set_value_checked; try eassumption.
    eapply check_property_known; [exact Hd | rewrite Hcur; eauto].
  - eapply get_value_checked.
    + eapply check_property_known; [apply accessed_lookup |].
      unfold dev2. rewrite lookup_insert_eq. eauto.
    + apply accessed_lookup.
    + apply accessed_type. exact Hty.
    + exact Hkb2.
    + exact Hba'.
    + exact Hbb'.
    + rewrite integrate_other by assumption.
      unfold dev2. apply lookup_insert_eq.
Qed.

(** X6.  A write of a value of another type than the property has (after the
    conversion of an [int] given for a [float]): [set_value] raises
    [TypeError] and the property keeps its value. *)
Theorem write_of_wrong_type (s : t) (id key : string)
    (dev : gmap string pyval) (t0 va vb xa xb : R) (current value : pyval) :
  _devices s !! id = Some dev ->
  _device_types s !! id = Some "koalabear" ->
  koalabear dev t0 va vb xa xb ->
  Rabs va <= 1 -> Rabs vb <= 1 ->
  ~ integrated key ->
  dev !! key = Some current ->
  type_of current <> type_of (coerce current value) ->
  exists (s' : t) (dev' : gmap string pyval),
    set_value clock id key value s = (Raise TypeError, s')
    /\ _devices s' !! id = Some dev'
    /\ dev' !! key = Some current.
Proof.
  intros Hd Hty Hkb Hba Hbb Hint Hcur Htype.
  assert (Hkey : key <> "enc_a" /\ key <> "enc_b" /\ key <> "_LAST_UPDATED")
    by (unfold integrated in Hint; tauto).
  destruct Hkey as (Hna & Hnb & Hnl).
  set (dev1 := integrate (clock (clock_reads s)) t0 va vb xa xb dev).
  assert (Hcur1 : dev1 !! key = Some current).
  { unfold dev1. rewrite integrate_other by assumption. exact Hcur. }
  exists (accessed s id dev1), dev1.
  split; [| split; [apply accessed_lookup | exact Hcur1]].
  unfold set_value.
  mstep by (eapply check_property_known; [exact Hd | rewrite Hcur; eauto]).
  mstep by (eapply update_if_koalabear_runs; eassumption).
  mstep by (eapply device_get_runs; [apply accessed_lookup | exact Hcur1]).
  fold (coerce current value).
  rewrite bool_decide_eq_true_2 by exact Htype.
  reflexivity.
Qed.

(** X7.  A read of an encoder of a controller whose velocities are in bounds:
    the count has moved by the stored velocity times the time of the last
    access minus the time of this one, times 2000; with the velocity [0] it is
    the count that was stored. *)
Theorem encoder_read_law (s : t) (id : string) (dev : gmap string pyval)
    (t0 va vb xa xb : R) :
  _devices s !! id = Some dev ->
  _device_types s !! id = Some "koalabear" ->
  koalabear dev t0 va vb xa xb ->
  Rabs va <= 1 -> Rabs vb <= 1 ->
  let now := clock (clock_reads s) in
  exists s' : t,
    get_value clock id "enc_a" s
    = (Ok (PFloat (xa + va * (t0 - now) * 2000)), s')
    /\ get_value clock id "enc_b" s
       = (Ok (PFloat (xb + vb * (t0 - now) * 2000)), s')
    /\ koalabear_at s' id now va vb
         (xa + va * (t0 - now) * 2000) (xb + vb * (t0 - now) * 2000)
    /\ (va = 0 -> xa + va * (t0 - now) * 2000 = xa)
    /\ (vb = 0 -> xb + vb * (t0 - now) * 2000 = xb).
Proof.
  intros Hd Hty Hkb Hba Hbb now.
  pose proof Hkb as [_ _ _ (ea & Hea & _) (eb & Heb & _)].
  exists (accessed s id (integrate now t0 va vb xa xb dev)).
  split; [| split; [| split; [| split]]].
  - eapply get_value_checked; try eassumption.
    + eapply check_property_known; [exact Hd | rewrite Hea; eauto].
    + unfold integrate. rewrite lookup_insert_ne by done.
      apply lookup_insert_eq.
  - eapply get_value_checked; try eassumption.
    + eapply check_property_known; [exact Hd | rewrite Heb; eauto].
    + unfold integrate. apply lookup_insert_eq.
  - eexists. split; [apply accessed_lookup |].
    split; [apply accessed_type; exact Hty |].
    apply integrate_koalabear. exact Hkb.
  - intros ->. lra.
  - intros ->. lra.
Qed.

End MockRobotStores.

Section MockRobotBounds.

Import MockRobot.

Variable clock : nat -> R.

Local Open Scope R_scope.

Lemma update_koalabear_out_of_bounds_b (s : t) (id : string)
    (dev : gmap string pyval) (t0 va vb xa xb : R) :
  _devices s !! id = Some dev ->
  koalabear dev t0 va vb xa xb ->
  Rabs va <= 1 -> 1 < Rabs vb ->
  _update_koalabear clock id s
  = (Raise ValueError,
     accessed s id
       (<["_LAST_UPDATED" := PFloat (clock (clock_reads s))]> dev)).
Proof.
  intros Hd [Ht Hva Hvb _ _] Hin Hout.
  destruct s as [devices types limits counts n]. cbn in Hd.
  unfold _update_koalabear.
  mstep.
  mstep by (unfold dict_get; cbn [_devices]; rewrite Hd; reflexivity).
  mstep.
  robot_fields.
  mstep by (eapply device_get_runs; [exact Hd | exact Ht]).
  mstep.
  mstep by (eapply device_set_runs; exact Hd).
  robot_fields.
  mstep by (eapply device_get_runs;
            [apply lookup_insert_eq
            | rewrite lookup_insert_ne by done; exact Hva]).
  mstep. mstep.
  mstep by (rewrite bool_decide_eq_false_2 by lra; reflexivity).
  mstep by (eapply device_get_runs;
            [apply lookup_insert_eq
            | rewrite lookup_insert_ne by done; exact Hvb]).
  mstep. mstep.
  erewrite bind_raise; [reflexivity |].
  cbn [num_val]. rewrite bool_decide_eq_true_2 by lra. reflexivity.
Qed.

Lemma update_if_koalabear_stuck (s : t) (id : string)
    (dev : gmap string pyval) (t0 va vb xa xb : R) :
  _devices s !! id = Some dev ->
  _device_types s !! id = Some "koalabear" ->
  koalabear dev t0 va vb xa xb ->
  1 < Rabs va \/ 1 < Rabs vb ->
  update_if_koalabear clock id s
  = (Raise ValueError,
     accessed s id (<["_LAST_UPDATED" := PFloat (clock (clock_reads s))]> dev)).
Proof.
  intros Hd Hty Hkb Hout.
  destruct (Rle_dec (Rabs va) 1) as [Hin | Hna].
  - destruct Hout as [Hout | Hout]; [lra |].
    unfold update_if_koalabear.
    mstep.
    mstep by (unfold dict_get; rewrite Hty; reflexivity).
    cbn [String.eqb Ascii.eqb Bool.eqb].
    eapply update_koalabear_out_of_bounds_b; eassumption.
  - eapply update_if_koalabear_out_of_bounds; try eassumption. lra.
Qed.

Lemma koalabear_stamped (dev : gmap string pyval) (t0 va vb xa xb now : R) :
  koalabear dev t0 va vb xa xb ->
  koalabear (<["_LAST_UPDATED" := PFloat now]> dev) now va vb xa xb.
Proof.
  intros [Ht Hva Hvb Hea Heb].
  split; rewrite ?lookup_insert_eq, ?lookup_insert_ne by done; auto.
Qed.

(** X8.  A controller that holds a velocity out of bounds refuses every access
    to a property it has, reads and writes alike, with [ValueError]; the
    access leaves the velocities and the encoders as they are, so that the
    next access is refused as well and the velocity can no longer be brought
    back into bounds. *)
Theorem out_of_bounds_controller_is_stuck (s : t) (id key : string)
    (dev : gmap string pyval) (t0 va vb xa xb : R) (value : pyval) :
  _devices s !! id = Some dev ->
  _device_types s !! id = Some "koalabear" ->
  koalabear dev t0 va vb xa xb ->
  1 < Rabs va \/ 1 < Rabs vb ->
  is_Some (dev !! key) ->
  exists s' : t,
    get_value clock id key s = (Raise ValueError, s')
    /\ set_value clock id key value s = (Raise ValueError, s')
    /\ koalabear_at s' id (clock (clock_reads s)) va vb xa xb.
Proof.
  intros Hd Hty Hkb Hout Hkey.
  eexists. split; [| split].
  - unfold get_value.
    mstep by (eapply check_property_known; eassumption).
    erewrite bind_raise; [reflexivity |].
    eapply update_if_koalabear_stuck; eassumption.
  - unfold set_value.
    mstep by (eapply check_property_known; eassumption).
    erewrite bind_raise; [reflexivity |].
    eapply update_if_koalabear_stuck; eassumption.
  - eexists. split; [apply accessed_lookup |].
    split; [apply accessed_type; exact Hty |].
    eapply koalabear_stamped. exact Hkb.
Qed.

(** A write to and a read of a device that is not a koalabear
    controller. *)
Lemma plain_device_write (s : t) (id key ty : string)
    (dev : gmap string pyval) (current value : pyval) :
  _devices s !! id = Some dev ->
  _device_types s !! id = Some ty ->
  ty <> "koalabear" ->
  dev !! key = Some current ->
  type_of current = type_of (coerce current value) ->
  set_value clock id key value s
  = (Ok tt,
     set_devices (<[id := <[key := coerce current value]> dev]> (_devices s))
       s).
Proof.
  intros Hd Hty Hne Hcur Htype.
  assert (Heqb : String.eqb ty "koalabear" = false)
    by (apply String.eqb_neq; exact Hne).
  unfold set_value.
  mstep by (eapply check_property_known; [exact Hd | rewrite Hcur; eauto]).
  mstep by (unfold update_if_koalabear; mstep;
            mstep by (unfold dict_get; rewrite Hty; reflexivity);
            rewrite Heqb; reflexivity).
  mstep by (eapply device_get_runs; eassumption).
  fold (coerce current value).
  rewrite bool_decide_eq_false_2 by (intros Hn; apply Hn; exact Htype).
  eapply device_set_runs. exact Hd.
Qed.

Lemma plain_device_read (s : t) (id key ty : string)
    (dev : gmap string pyval) (v : pyval) :
  _devices s !! id = Some dev ->
  _device_types s !! id = Some ty ->
  ty <> "koalabear" ->
  dev !! key = Some v ->
  get_value clock id key s = (Ok v, s).
Proof.
  intros Hd Hty Hne Hv.
  assert (Heqb : String.eqb ty "koalabear" = false)
    by (apply String.eqb_neq; exact Hne).
  unfold get_value.
  mstep by (eapply check_property_known; [exact Hd | rewrite Hv; eauto]).
  mstep by (unfold update_if_koalabear; mstep;
            mstep by (unfold dict_get; rewrite Hty; reflexivity);
            rewrite Heqb; reflexivity).
  eapply device_get_runs; eassumption.
Qed.

(** X9.  A device that is not a koalabear controller, a servo controller for
    one: a write stores the value, a float of any magnitude or an [int] in
    the range of floats, and changes nothing else, the clock is not read,
    and a read returns the value stored. *)
Theorem servo_write_then_read (s : t) (id key ty : string)
    (dev : gmap string pyval) (current value : pyval) :
  _devices s !! id = Some dev ->
  _device_types s !! id = Some ty ->
  ty <> "koalabear" ->
  dev !! key = Some current ->
  type_of current = type_of (coerce current value) ->
  float_range value ->
  let s' :=
    set_devices (<[id := <[key := coerce current value]> dev]> (_devices s)) s
  in
  set_value clock id key value s = (Ok tt, s')
  /\ get_value clock id key s' = (Ok (coerce current value), s')
  /\ clock_reads s' = clock_reads s.
Proof.
  intros Hd Hty Hne Hcur Htype _ s'.
  split; [| split].
  - eapply plain_device_write; eassumption.
  - eapply plain_device_read with (ty := ty).
    + unfold s'. destruct s; cbn. apply lookup_insert_eq.
    + unfold s'. destruct s; cbn in *. exact Hty.
    + exact Hne.
    + apply lookup_insert_eq.
  - unfold s'. destruct s; reflexivity.
Qed.

End MockRobotBounds.

(* ===================================================================== *)
(** ** The simulated robot: an invariant of its use *)
(* ===================================================================== *)

Section MockRobotInvariant.

Import MockRobot.

Variable clock : nat -> R.

Local Open Scope R_scope.

Lemma init_well_formed (max_devices : gmap string Z) :
  well_formed (init max_devices).
Proof.
  split; [| split].
  - intros id dev H. cbn in H. rewrite lookup_empty in H. discriminate.
  - eexists. reflexivity.
  - eexists. reflexivity.
Qed.

(** Replacing the dict of one device. *)
Lemma well_formed_store (s s' : t) (id ty : string)
    (dev' : gmap string pyval) :
  well_formed s ->
  _devices s' = <[id := dev']> (_devices s) ->
  _device_types s' = _device_types s ->
  _device_counts s' = _device_counts s ->
  _device_types s !! id = Some ty ->
  (ty = "koalabear" ->
   exists t0 va vb xa xb : R, koalabear dev' t0 va vb xa xb) ->
  well_formed s'.
Proof.
  intros (Hdev & Hka & Hsc) Hd Ht Hc Hty Hkb.
  split; [| rewrite Hc; split; assumption].
  intros id0 dev0. rewrite Hd, Ht.
  destruct (decide (id0 = id)) as [-> | Hne].
  - rewrite lookup_insert_eq. intros [= <-]. exists ty. split; assumption.
  - rewrite lookup_insert_ne by congruence. apply Hdev.
Qed.

Lemma scan_cases (key ty : string) :
  scan_device_types key _default_device_properties = Some ty ->
  (ty = "koalabear" /\ is_Some (koalabear_defaults !! key))
  \/ (ty = "servocontroller" /\ is_Some (servocontroller_defaults !! key)).
Proof.
  unfold _default_device_properties. cbn [scan_device_types].
  case_bool_decide as Hk.
  { intros [= <-]. left. split; [reflexivity | exact Hk]. }
  case_bool_decide as Hs; [| discriminate].
  intros [= <-]. right. split; [reflexivity | exact Hs].
Qed.

Lemma check_property_creates_servo (s : t) (id key : string)
    (limit count : Z) :
  _devices s !! id = None ->
  scan_device_types key _default_device_properties = Some "servocontroller" ->
  _max_devices s !! "servocontroller" = Some limit ->
  _device_counts s !! "servocontroller" = Some count ->
  (count < limit)%Z ->
  _check_property clock id key s
  = (Ok tt,
     mk (<[id := servocontroller_defaults]> (_devices s))
        (<[id := "servocontroller"]> (_device_types s))
        (_max_devices s)
        (<["servocontroller" := (count + 1)%Z]> (_device_counts s))
        (clock_reads s)).
Proof.
  intros Hd Hscan Hmax Hcount Hlt.
  assert (Hkey : is_Some (servocontroller_defaults !! key)).
  { destruct (scan_cases _ _ Hscan) as [[Hty _] | [_ Hk]];
      [discriminate | exact Hk]. }
  destruct s as [devices types limits counts n]. cbn in Hd, Hmax, Hcount.
  unfold _check_property.
  mstep.
  robot_fields.
  erewrite bind_ok.
  2:{ rewrite bool_decide_eq_false_2
        by (rewrite Hd; intros [? ?]; discriminate).
      rewrite Hscan.
      mstep by (rewrite bool_decide_eq_true_2 by (rewrite Hmax; eauto);
                  unfold dict_get; rewrite Hcount, Hmax;
                  mstep; mstep;
                  rewrite (proj2 (Z.leb_gt limit count)) by exact Hlt;
                  reflexivity).
      mstep by (unfold dict_get; rewrite Hcount; reflexivity).
      mstep.
      mstep.
      mstep.
      mstep.
      reflexivity. }
  cbv beta.
  mstep.
  mstep by (unfold dict_get; cbn; rewrite lookup_insert_eq; reflexivity).
  rewrite bool_decide_eq_true_2 by exact Hkey.
  reflexivity.
Qed.

(** The outcomes of [_check_property]. *)
Lemma check_property_outcomes (s : t) (id key : string) :
  well_formed s ->
  exists (r : Res unit) (s1 : t),
    _check_property clock id key s = (r, s1)
    /\ well_formed s1
    /\ ((r = Ok tt
         /\ exists dev : gmap string pyval,
              _devices s1 !! id = Some dev /\ is_Some (dev !! key))
        \/ r = Raise UnboundLocalError
        \/ r = Raise ValueError).
Proof.
  intros Hwf.
  destruct (_devices s !! id) as [dev |] eqn:Hd.
  { destruct (dev !! key) as [v |] eqn:Hk.
    - exists (Ok tt), s. split; [| split; [exact Hwf |]].
      + eapply check_property_known; [exact Hd | rewrite Hk; eauto].
      + left. split; [reflexivity |]. exists dev. rewrite Hk. eauto.
    - exists (Raise ValueError), s. split; [| split; [exact Hwf | tauto]].
      eapply check_property_missing; eassumption. }
  destruct (scan_device_types key _default_device_properties) as [ty |]
    eqn:Hscan.
  2:{ exists (Raise UnboundLocalError), s.
      split; [| split; [exact Hwf | tauto]].
      apply check_property_unbound; assumption. }
  assert (Hcount : is_Some (_device_counts s !! ty)).
  { destruct Hwf as (_ & Hka & Hsc).
    destruct (scan_cases _ _ Hscan) as [[-> _] | [-> _]]; assumption. }
  destruct Hcount as [count Hcount].
  destruct (_max_devices s !! ty) as [limit |] eqn:Hmax.
  2:{ exists (Raise ValueError), s. split; [| split; [exact Hwf | tauto]].
      eapply check_property_limit; eauto. }
  destruct (Z_lt_le_dec count limit) as [Hlt | Hle].
  2:{ exists (Raise ValueError), s. split; [| split; [exact Hwf | tauto]].
      eapply check_property_limit; eauto 10. }
  destruct Hwf as (Hdev & Hka & Hsc).
  destruct (scan_cases _ _ Hscan) as [[-> Hkey] | [-> Hkey]].
  - eexists. eexists.
    split; [eapply check_property_creates; eassumption |].
    split; [| left; split; [reflexivity |]].
    + split; [| split].
      * intros id0 dev0. robot_fields.
        destruct (decide (id0 = id)) as [-> | Hne].
        -- rewrite !lookup_insert_eq. intros [= <-].
           exists "koalabear". split; [reflexivity |]. intros _.
           do 5 eexists. apply created_koalabear.
        -- rewrite !lookup_insert_ne by congruence. apply Hdev.
      * robot_fields. rewrite lookup_insert_eq. eauto.
      * robot_fields. rewrite lookup_insert_ne by done. exact Hsc.
    + eexists. robot_fields. split; [apply lookup_insert_eq |].
      destruct (decide (key = "_LAST_UPDATED")) as [-> | Hne].
      * rewrite lookup_insert_eq. eauto.
      * rewrite lookup_insert_ne by congruence. exact Hkey.
  - eexists. eexists.
    split; [eapply check_property_creates_servo; eassumption |].
    split; [| left; split; [reflexivity |]].
    + split; [| split].
      * intros id0 dev0. robot_fields.
        destruct (decide (id0 = id)) as [-> | Hne].
        -- rewrite !lookup_insert_eq. intros [= <-].
           exists "servocontroller". split; [reflexivity |]. discriminate.
        -- rewrite !lookup_insert_ne by congruence. apply Hdev.
      * robot_fields. rewrite lookup_insert_ne by done. exact Hka.
      * robot_fields. rewrite lookup_insert_eq. eauto.
    + eexists. robot_fields. split; [apply lookup_insert_eq | exact Hkey].
Qed.

Lemma koalabear_typed_write (dev : gmap string pyval) (t0 va vb xa xb : R)
    (key : string) (current stored : pyval) :
  koalabear dev t0 va vb xa xb ->
  dev !! key = Some current ->
  type_of current = type_of stored ->
  exists t0' va' vb' xa' xb' : R,
    koalabear (<[key := stored]> dev) t0' va' vb' xa' xb'.
Proof.
  intros Hkb Hcur Htype.
  pose proof Hkb as [Ht Hva Hvb (ea & Hea & Hxa) (eb & Heb & Hxb)].
  destruct (decide (key = "_LAST_UPDATED")) as [-> | Hnl].
  { rewrite Ht in Hcur. injection Hcur as <-.
    destruct stored as [| | | x]; try discriminate.
    do 5 eexists. eapply koalabear_stamped. exact Hkb. }
  destruct (decide (key = "velocity_a")) as [-> | Hna].
  { rewrite Hva in Hcur. injection Hcur as <-.
    destruct stored as [| | | x]; try discriminate.
    do 5 eexists. eapply koalabear_velocity_a. exact Hkb. }
  destruct (decide (key = "velocity_b")) as [-> | Hnb].
  { rewrite Hvb in Hcur. injection Hcur as <-.
    destruct stored as [| | | x]; try discriminate.
    do 5 eexists. eapply koalabear_velocity_b. exact Hkb. }
  destruct (decide (key = "enc_a")) as [-> | Hnea].
  { rewrite Hea in Hcur. injection Hcur as <-.
    assert (Hnum : exists x : R, num_val stored = Some x).
    { destruct ea, stored; try discriminate; cbn; eauto. }
    destruct Hnum as [x Hx].
    exists t0, va, vb, x, xb.
    split; rewrite ?lookup_insert_eq, ?lookup_insert_ne by done; eauto. }
  destruct (decide (key = "enc_b")) as [-> | Hneb].
  { rewrite Heb in Hcur. injection Hcur as <-.
    assert (Hnum : exists x : R, num_val stored = Some x).
    { destruct eb, stored; try discriminate; cbn; eauto. }
    destruct Hnum as [x Hx].
    exists t0, va, vb, xa, x.
    split; rewrite ?lookup_insert_eq, ?lookup_insert_ne by done; eauto. }
  exists t0, va, vb, xa, xb.
  apply koalabear_other; try assumption.
  unfold integrated. intros [? | [? | ?]]; congruence.
Qed.

(** The outcomes of the update that follows the check. *)
Lemma update_if_koalabear_outcomes (s : t) (id key : string)
    (dev : gmap string pyval) :
  well_formed s ->
  _devices s !! id = Some dev ->
  is_Some (dev !! key) ->
  exists (r : Res unit) (s2 : t),
    update_if_koalabear clock id s = (r, s2)
    /\ well_formed s2
    /\ ((r = Ok tt
         /\ exists (dev2 : gmap string pyval) (ty : string),
              _devices s2 !! id = Some dev2
              /\ _device_types s2 !! id = Some ty
              /\ is_Some (dev2 !! key)
              /\ (ty = "koalabear" ->
                  exists t0 va vb xa xb : R, koalabear dev2 t0 va vb xa xb))
        \/ r = Raise ValueError).
Proof.
  intros Hwf Hd Hkey.
  destruct (proj1 Hwf id dev Hd) as (ty & Hty & Hkb).
  destruct (decide (ty = "koalabear")) as [-> | Hne].
  - destruct (Hkb eq_refl) as (t0 & va & vb & xa & xb & Hk).
    destruct (Rle_dec (Rabs va) 1) as [Hba |];
      [destruct (Rle_dec (Rabs vb) 1) as [Hbb |] |].
    + eexists. eexists.
      split; [eapply update_if_koalabear_runs; eassumption |].
      split.
      * apply (well_formed_store s _ id "koalabear"
                 (integrate (clock (clock_reads s)) t0 va vb xa xb dev) Hwf);
          try (unfold accessed; destruct s; reflexivity); [exact Hty |].
        intros _. do 5 eexists. apply integrate_koalabear. exact Hk.
      * left. split; [reflexivity |].
        eexists. exists "koalabear".
        split; [apply accessed_lookup |].
        split; [apply accessed_type; exact Hty |].
        split; [apply integrate_is_Some; exact Hkey |].
        intros _. do 5 eexists. apply integrate_koalabear. exact Hk.
    + eexists. eexists.
      split; [eapply update_if_koalabear_stuck; try eassumption; lra |].
      split; [| tauto].
      apply (well_formed_store s _ id "koalabear"
               (<["_LAST_UPDATED" := PFloat (clock (clock_reads s))]> dev)
               Hwf);
        try (unfold accessed; destruct s; reflexivity); [exact Hty |].
      intros _. do 5 eexists. eapply koalabear_stamped. exact Hk.
    + eexists. eexists.
      split; [eapply update_if_koalabear_stuck; try eassumption; lra |].
      split; [| tauto].
      apply (well_formed_store s _ id "koalabear"
               (<["_LAST_UPDATED" := PFloat (clock (clock_reads s))]> dev)
               Hwf);
        try (unfold accessed; destruct s; reflexivity); [exact Hty |].
      intros _. do 5 eexists. eapply koalabear_stamped. exact Hk.
  - exists (Ok tt), s. split; [| split; [exact Hwf |]].
    + unfold update_if_koalabear.
      mstep.
      mstep by (unfold dict_get; rewrite Hty; reflexivity).
      rewrite (proj2 (String.eqb_neq ty "koalabear")) by exact Hne.
      reflexivity.
    + left. split; [reflexivity |]. exists dev, ty.
      split; [exact Hd |]. split; [exact Hty |]. split; [exact Hkey |].
      intros ->. contradiction.
Qed.

Lemma get_value_outcomes (s : t) (id key : string) :
  well_formed s ->
  exists (r : Res pyval) (s' : t),
    get_value clock id key s = (r, s')
    /\ well_formed s'
    /\ ((exists v : pyval, r = Ok v)
        \/ r = Raise UnboundLocalError
        \/ r = Raise ValueError).
Proof.
  intros Hwf.
  destruct (check_property_outcomes s id key Hwf)
    as (r1 & s1 & Hcheck & Hwf1 & Hr1).
  destruct Hr1 as [[-> (dev & Hd & Hkey)] | Hraise].
  2:{ exists (match r1 with Ok _ => Raise ValueError | Raise e => Raise e end).
      exists s1. split; [| split; [exact Hwf1 |]].
      - unfold get_value. destruct Hraise as [-> | ->];
          erewrite bind_raise; try reflexivity; exact Hcheck.
      - destruct Hraise as [-> | ->]; tauto. }
  destruct (update_if_koalabear_outcomes s1 id key dev Hwf1 Hd Hkey)
    as (r2 & s2 & Hupd & Hwf2 & Hr2).
  destruct Hr2 as [[-> (dev2 & ty & Hd2 & _ & [v Hv] & _)] | ->].
  - exists (Ok v), s2. split; [| split; [exact Hwf2 | eauto]].
    unfold get_value.
    mstep by exact Hcheck.
    mstep by exact Hupd.
    eapply device_get_runs; eassumption.
  - exists (Raise ValueError), s2. split; [| split; [exact Hwf2 | tauto]].
    unfold get_value.
    mstep by exact Hcheck.
    erewrite bind_raise; [reflexivity | exact Hupd].
Qed.

Lemma set_value_outcomes (s : t) (id key : string) (value : pyval) :
  well_formed s ->
  exists (r : Res unit) (s' : t),
    set_value clock id key value s = (r, s')
    /\ well_formed s'
    /\ (r = Ok tt
        \/ r = Raise UnboundLocalError
        \/ r = Raise ValueError
        \/ r = Raise TypeError).
Proof.
  intros Hwf.
  destruct (check_property_outcomes s id key Hwf)
    as (r1 & s1 & Hcheck & Hwf1 & Hr1).
  destruct Hr1 as [[-> (dev & Hd & Hkey)] | Hraise].
  2:{ exists (match r1 with Ok _ => Raise ValueError | Raise e => Raise e end).
      exists s1. split; [| split; [exact Hwf1 |]].
      - unfold set_value. destruct Hraise as [-> | ->];
          erewrite bind_raise; try reflexivity; exact Hcheck.
      - destruct Hraise as [-> | ->]; tauto. }
  destruct (update_if_koalabear_outcomes s1 id key dev Hwf1 Hd Hkey)
    as (r2 & s2 & Hupd & Hwf2 & Hr2).
  destruct Hr2 as [[-> (dev2 & ty & Hd2 & Hty2 & [current Hcur] & Hkb2)] | ->].
  2:{ exists (Raise ValueError), s2. split; [| split; [exact Hwf2 | tauto]].
      unfold set_value.
      mstep by exact Hcheck.
      erewrite bind_raise; [reflexivity | exact Hupd]. }
  destruct (decide (type_of current = type_of (coerce current value)))
    as [Htype | Htype].
  - eexists. eexists. split; [| split; [| left; reflexivity]].
    + unfold set_value.
      mstep by exact Hcheck.
      mstep by exact Hupd.
      mstep by (eapply device_get_runs; eassumption).
      fold (coerce current value).
      rewrite bool_decide_eq_false_2 by (intros Hn; apply Hn; exact Htype).
      eapply device_set_runs. exact Hd2.
    + apply (well_formed_store s2 _ id ty
               (<[key := coerce current value]> dev2) Hwf2);
        try (destruct s2; reflexivity); [exact Hty2 |].
      intros Hk. destruct (Hkb2 Hk) as (t0 & va & vb & xa & xb & Hkb).
      eapply koalabear_typed_write; eassumption.
  - exists (Raise TypeError), s2. split; [| split; [exact Hwf2 | tauto]].
    unfold set_value.
    mstep by exact Hcheck.
    mstep by exact Hupd.
    mstep by (eapply device_get_runs; eassumption).
    fold (coerce current value).
    rewrite bool_decide_eq_true_2 by exact Htype.
    reflexivity.
Qed.

Lemma reachable_well_formed (max_devices : gmap string Z) (s : t) :
  reachable clock max_devices s -> well_formed s.
Proof.
  induction 1 as [| s id key _ IH | s id key value _ _ IH].
  - apply init_well_formed.
  - destruct (get_value_outcomes s id key IH) as (r & s' & Hrun & Hwf & _).
    rewrite Hrun. exact Hwf.
  - destruct (set_value_outcomes s id key value IH)
      as (r & s' & Hrun & Hwf & _).
    rewrite Hrun. exact Hwf.
Qed.

(** X10.  On a robot built by [__init__] and used through [get_value] and
    [set_value] only, with values in the range of floats, however often and
    whether the accesses returned or raised: a read raises nothing but
    [UnboundLocalError] and [ValueError], and a write of such a value
    nothing but these and [TypeError].  No access fails on a missing key or
    on the arithmetic of the encoder update. *)
Theorem accesses_raise_only_declared_errors (max_devices : gmap string Z)
    (s : t) (id key : string) (value : pyval) :
  reachable clock max_devices s ->
  float_range value ->
  (forall e : exn,
      fst (get_value clock id key s) = Raise e ->
      e = UnboundLocalError \/ e = ValueError)
  /\ (forall e : exn,
        fst (set_value clock id key value s) = Raise e ->
        e = UnboundLocalError \/ e = ValueError \/ e = TypeError).
Proof.
  intros Hreach _. apply reachable_well_formed in Hreach.
  split; intros e He.
  - destruct (get_value_outcomes s id key Hreach)
      as (r & s' & Hrun & _ & Hr).
    rewrite Hrun in He. cbn in He. subst r.
    destruct Hr as [[v Hv] | [Hr | Hr]]; [discriminate | |];
      injection Hr as ->; tauto.
  - destruct (set_value_outcomes s id key value Hreach)
      as (r & s' & Hrun & _ & Hr).
    rewrite Hrun in He. cbn in He. subst r.
    destruct Hr as [Hr | [Hr | [Hr | Hr]]]; [discriminate | | |];
      injection Hr as ->; tauto.
Qed.

End MockRobotInvariant.

(* ===================================================================== *)
(** ** The robots of the bench *)
(* ===================================================================== *)

Section BenchRobots.

Import MockRobot.

Local Open Scope R_scope.

Lemma koalabear_eq (dev : gmap string pyval)
    (t0 va vb xa xb t0' va' vb' xa' xb' : R) :
  koalabear dev t0 va vb xa xb ->
  t0 = t0' -> va = va' -> vb = vb' -> xa = xa' -> xb = xb' ->
  koalabear dev t0' va' vb' xa' xb'.
Proof. intros H -> -> -> -> ->. exact H. Qed.

(** The robot in use holds the controller ["kb"], at rest. *)
Lemma robot_in_use_holds :
  exists dev : gmap string pyval,
    _devices Bench.robot_in_use !! "kb" = Some dev
    /\ _device_types Bench.robot_in_use !! "kb" = Some "koalabear"
    /\ koalabear dev (Bench.clock 1) 0 0 0 0
    /\ dev !! "deadband_a" = Some (PFloat 0.05)
    /\ dev !! "servo0" = None
    /\ clock_reads Bench.robot_in_use = 2%nat.
Proof.
  assert (Hb : Rabs 0.0 <= 1) by (rewrite Rabs_pos_eq; lra).
  pose proof (fun v H =>
    get_value_checked Bench.clock Bench.robot _ "kb" "velocity_a" _ _ _ _ _ _
      v (bench_check_creates "velocity_a" eq_refl) eq_refl eq_refl
      (created_koalabear (Bench.clock 0)) Hb Hb H) as Hrun.
  specialize (Hrun (PFloat 0.0) eq_refl).
  unfold Bench.robot_in_use. rewrite Hrun. cbn [snd].
  eexists. split; [apply accessed_lookup |].
  split; [apply accessed_type; reflexivity |].
  split; [| split; [reflexivity | split; reflexivity]].
  eapply koalabear_eq.
  - apply integrate_koalabear, created_koalabear.
  - reflexivity.
  - lra.
  - lra.
  - lra.
  - lra.
Qed.

(** The wedged robot holds the controller ["kb"] with the velocity [1.5]. *)
Lemma wedged_robot_holds :
  exists dev : gmap string pyval,
    _devices Bench.wedged_robot !! "kb" = Some dev
    /\ _device_types Bench.wedged_robot !! "kb" = Some "koalabear"
    /\ koalabear dev (Bench.clock 1) 1.5 0 0 0
    /\ is_Some (dev !! "velocity_a").
Proof.
  assert (Hb : Rabs 0.0 <= 1) by (rewrite Rabs_pos_eq; lra).
  pose proof (set_value_checked Bench.clock Bench.robot _ "kb" "velocity_a"
                _ _ _ _ _ _ (PFloat 0.0) (PFloat 1.5)
                (bench_check_creates "velocity_a" eq_refl) eq_refl eq_refl
                (created_koalabear (Bench.clock 0)) Hb Hb eq_refl eq_refl)
    as Hrun.
  unfold Bench.wedged_robot. rewrite Hrun. cbn [snd].
  eexists. split; [apply accessed_lookup |].
  split; [apply accessed_type; reflexivity |].
  split; [| rewrite lookup_insert_eq; eauto].
  eapply koalabear_eq.
  - eapply koalabear_velocity_a, integrate_koalabear, created_koalabear.
  - reflexivity.
  - reflexivity.
  - lra.
  - lra.
  - lra.
Qed.

End BenchRobots.

Section MockRobotWitnesses.

Import MockRobot.

Local Open Scope R_scope.

Lemma unknown_property_is_unbound_local_witness :
  _devices Bench.robot !! "kb" = None
  /\ koalabear_defaults !! "servo2" = None
  /\ servocontroller_defaults !! "servo2" = None
  /\ get_value Bench.clock "kb" "servo2" Bench.robot
     = (Raise UnboundLocalError, Bench.robot)
  /\ set_value Bench.clock "kb" "servo2" (PFloat 0) Bench.robot
     = (Raise UnboundLocalError, Bench.robot).
Proof.
  split; [reflexivity |]. split; [reflexivity |]. split; [reflexivity |].
  exact (unknown_property_is_unbound_local Bench.clock Bench.robot "kb"
           "servo2" (PFloat 0) eq_refl eq_refl eq_refl).
Defined.

Lemma device_limit_is_enforced_witness :
  _devices Bench.robot !! "sc" = None
  /\ scan_device_types "servo0" _default_device_properties
     = Some "servocontroller"
  /\ _max_devices Bench.robot !! "servocontroller" = None
  /\ get_value Bench.clock "sc" "servo0" Bench.robot
     = (Raise ValueError, Bench.robot)
  /\ set_value Bench.clock "sc" "servo0" (PFloat 0) Bench.robot
     = (Raise ValueError, Bench.robot).
Proof.
  split; [reflexivity |]. split; [reflexivity |]. split; [reflexivity |].
  exact (device_limit_is_enforced Bench.clock Bench.robot "sc" "servo0"
           "servocontroller" (PFloat 0) eq_refl eq_refl
           (or_introl eq_refl)).
Defined.

Lemma missing_property_is_refused_witness :
  exists dev : gmap string pyval,
    _devices Bench.robot_in_use !! "kb" = Some dev
    /\ dev !! "servo0" = None
    /\ get_value Bench.clock "kb" "servo0" Bench.robot_in_use
       = (Raise ValueError, Bench.robot_in_use)
    /\ set_value Bench.clock "kb" "servo0" (PFloat 0) Bench.robot_in_use
       = (Raise ValueError, Bench.robot_in_use).
Proof.
  destruct robot_in_use_holds as (dev & Hd & _ & _ & _ & Hk & _).
  exists dev. split; [exact Hd |]. split; [exact Hk |].
  exact (missing_property_is_refused Bench.clock Bench.robot_in_use "kb"
           "servo0" dev (PFloat 0) Hd Hk).
Defined.

Lemma first_read_returns_default_witness :
  _devices Bench.robot !! "kb" = None
  /\ _max_devices Bench.robot !! "koalabear" = Some 1%Z
  /\ _device_counts Bench.robot !! "koalabear" = Some 0%Z
  /\ (0 < 1)%Z
  /\ koalabear_defaults !! "pid_ki_a" = Some (PFloat 0.035)
  /\ exists (s' : t) (v' : pyval),
       get_value Bench.clock "kb" "pid_ki_a" Bench.robot = (Ok v', s')
       /\ ("pid_ki_a" <> "enc_a" -> "pid_ki_a" <> "enc_b" ->
           v' = PFloat 0.035)
       /\ ("pid_ki_a" = "enc_a" \/ "pid_ki_a" = "enc_b" -> v' = PFloat 0)
       /\ koalabear_at s' "kb" (Bench.clock (S (clock_reads Bench.robot)))
            0 0 0 0
       /\ _device_counts s' !! "koalabear" = Some (0 + 1)%Z
       /\ clock_reads s' = S (S (clock_reads Bench.robot)).
Proof.
  split; [reflexivity |]. split; [reflexivity |]. split; [reflexivity |].
  split; [lia |]. split; [reflexivity |].
  exact (first_read_returns_default Bench.clock Bench.robot "kb" "pid_ki_a"
           (PFloat 0.035) 1 0 eq_refl eq_refl eq_refl eq_refl eq_refl).
Defined.

Lemma write_then_read_witness :
  float_range (PInt 1)
  /\ exists s1 s2 : t,
       set_value Bench.clock "kb" "velocity_a" (PInt 1) Bench.robot_in_use
       = (Ok tt, s1)
       /\ get_value Bench.clock "kb" "velocity_a" s1 = (Ok (PFloat 1), s2).
Proof.
  destruct robot_in_use_holds as (dev & Hd & Hty & Hkb & _).
  assert (Hb : Rabs 0 <= 1) by (rewrite Rabs_R0; lra).
  assert (Hint : ~ integrated "velocity_a")
    by (intros [H | [H | H]]; discriminate).
  assert (Hone : exists v : R,
             coerce (PFloat 0) (PInt 1) = PFloat v /\ Rabs v <= 1).
  { exists 1. split; [reflexivity |]. rewrite Rabs_pos_eq; lra. }
  assert (Hvalue : float_range (PInt 1)).
  { apply (float_range_unit (PInt 1) 1); [reflexivity |].
    rewrite Rabs_R1. lra. }
  assert (Hencoders :
    forall e : pyval,
      dev !! "enc_a" = Some e \/ dev !! "enc_b" = Some e -> float_range e).
  { destruct (kb_enc_a _ _ _ _ _ _ Hkb) as (ea & Hea & Hxa).
    destruct (kb_enc_b _ _ _ _ _ _ Hkb) as (eb & Heb & Hxb).
    intros e [He | He].
    - rewrite Hea in He. inversion He; subst e.
      apply (float_range_unit ea 0 Hxa Hb).
    - rewrite Heb in He. inversion He; subst e.
      apply (float_range_unit eb 0 Hxb Hb). }
  split; [exact Hvalue |].
  exact (write_then_read Bench.clock Bench.robot_in_use "kb" "velocity_a"
           dev (Bench.clock 1) 0 0 0 0 (PFloat 0) (PInt 1)
           Hd Hty Hkb Hb Hb Hint (kb_velocity_a _ _ _ _ _ _ Hkb) eq_refl
           (fun _ => Hone) Hvalue Hencoders).
Defined.

Lemma write_of_wrong_type_witness :
  exists (s' : t) (dev' : gmap string pyval),
    set_value Bench.clock "kb" "velocity_a" (PBool true) Bench.robot_in_use
    = (Raise TypeError, s')
    /\ _devices s' !! "kb" = Some dev'
    /\ dev' !! "velocity_a" = Some (PFloat 0).
Proof.
  destruct robot_in_use_holds as (dev & Hd & Hty & Hkb & _).
  assert (Hb : Rabs 0 <= 1) by (rewrite Rabs_R0; lra).
  assert (Hint : ~ integrated "velocity_a")
    by (intros [H | [H | H]]; discriminate).
  assert (Htype : type_of (PFloat 0)
                  <> type_of (coerce (PFloat 0) (PBool true)))
    by discriminate.
  exact (write_of_wrong_type Bench.clock Bench.robot_in_use "kb"
           "velocity_a" dev (Bench.clock 1) 0 0 0 0 (PFloat 0) (PBool true)
           Hd Hty Hkb Hb Hb Hint (kb_velocity_a _ _ _ _ _ _ Hkb) Htype).
Defined.

Lemma encoder_read_law_witness :
  exists s' : t,
    get_value Bench.clock "kb" "enc_a" Bench.robot_in_use
    = (Ok (PFloat (0 + 0 * (Bench.clock 1
                            - Bench.clock (clock_reads Bench.robot_in_use))
                   * 2000)), s').
Proof.
  destruct robot_in_use_holds as (dev & Hd & Hty & Hkb & _).
  assert (Hb : Rabs 0 <= 1) by (rewrite Rabs_R0; lra).
  destruct (encoder_read_law Bench.clock Bench.robot_in_use "kb" dev
              (Bench.clock 1) 0 0 0 0 Hd Hty Hkb Hb Hb) as (s' & Ha & _).
  exists s'. exact Ha.
Defined.

Lemma out_of_bounds_controller_is_stuck_witness :
  exists s' : t,
    get_value Bench.clock "kb" "velocity_a" Bench.wedged_robot
    = (Raise ValueError, s')
    /\ set_value Bench.clock "kb" "velocity_a" (PFloat 0) Bench.wedged_robot
       = (Raise ValueError, s')
    /\ koalabear_at s' "kb"
         (Bench.clock (clock_reads Bench.wedged_robot)) 1.5 0 0 0.
Proof.
  destruct wedged_robot_holds as (dev & Hd & Hty & Hkb & Hkey).
  assert (Hout : 1 < Rabs 1.5 \/ 1 < Rabs 0)
    by (left; rewrite Rabs_pos_eq; lra).
  exact (out_of_bounds_controller_is_stuck Bench.clock Bench.wedged_robot
           "kb" "velocity_a" dev (Bench.clock 1) 1.5 0 0 0 (PFloat 0)
           Hd Hty Hkb Hout Hkey).
Defined.

(** The robot of the bench after the write of the velocity [1.5], which it
    accepts, and a write of the [int] [7] to an encoder. *)
Lemma accesses_raise_only_declared_errors_witness :
  float_range (PFloat 1.5) /\ float_range (PInt 7)
  /\ (forall e : exn,
        fst (get_value Bench.clock "kb" "enc_a" Bench.wedged_robot)
        = Raise e ->
        e = UnboundLocalError \/ e = ValueError)
  /\ (forall e : exn,
        fst (set_value Bench.clock "kb" "enc_a" (PInt 7) Bench.wedged_robot)
        = Raise e ->
        e = UnboundLocalError \/ e = ValueError \/ e = TypeError).
Proof.
  assert (Hint : float_range (PInt 7)) by (cbn; unfold float_max_int; lia).
  split; [exact I |]. split; [exact Hint |].
  exact (accesses_raise_only_declared_errors Bench.clock
           {[ "koalabear" := 1%Z ]} Bench.wedged_robot "kb" "enc_a" (PInt 7)
           (reachable_set Bench.clock {[ "koalabear" := 1%Z ]} Bench.robot
              "kb" "velocity_a" (PFloat 1.5) I
              (reachable_init Bench.clock {[ "koalabear" := 1%Z ]}))
           Hint).
Defined.

(** The servo robot in use holds the servo controller ["sc"]. *)
Lemma servo_robot_in_use_holds :
  Bench.servo_robot_in_use
  = mk {[ "sc" := servocontroller_defaults ]}
       {[ "sc" := "servocontroller" ]}
       {[ "servocontroller" := 1%Z ]}
       (<["servocontroller" := 1%Z]> (_device_counts Bench.servo_robot))
       0.
Proof.
  unfold Bench.servo_robot_in_use, get_value.
  erewrite bind_ok.
  2:{ apply (check_property_creates_servo Bench.clock Bench.servo_robot
               "sc" "servo0" 1 0); reflexivity. }
  cbv beta.
  erewrite bind_ok.
  2:{ unfold update_if_koalabear. mstep.
      mstep by (unfold dict_get; cbn; rewrite lookup_insert_eq; reflexivity).
      reflexivity. }
  cbv beta.
  erewrite device_get_runs;
    [reflexivity | cbn; apply lookup_insert_eq | reflexivity].
Qed.

Lemma servo_write_then_read_witness :
  let s' :=
    set_devices
      (<["sc" := <["servo0" := PFloat 90]> servocontroller_defaults]>
         (_devices Bench.servo_robot_in_use))
      Bench.servo_robot_in_use in
  float_range (PInt 90)
  /\ set_value Bench.clock "sc" "servo0" (PInt 90) Bench.servo_robot_in_use
     = (Ok tt, s')
  /\ get_value Bench.clock "sc" "servo0" s' = (Ok (PFloat 90), s')
  /\ clock_reads s' = clock_reads Bench.servo_robot_in_use.
Proof.
  assert (Hd : _devices Bench.servo_robot_in_use !! "sc"
               = Some servocontroller_defaults)
    by (rewrite servo_robot_in_use_holds; reflexivity).
  assert (Hty : _device_types Bench.servo_robot_in_use !! "sc"
                = Some "servocontroller")
    by (rewrite servo_robot_in_use_holds; reflexivity).
  assert (Hne : "servocontroller" <> "koalabear") by discriminate.
  assert (Hvalue : float_range (PInt 90))
    by (cbn; unfold float_max_int; lia).
  intros s'. split; [exact Hvalue |].
  exact (servo_write_then_read Bench.clock Bench.servo_robot_in_use "sc"
           "servo0" "servocontroller" servocontroller_defaults (PFloat 0.0)
           (PInt 90) Hd Hty Hne eq_refl eq_refl Hvalue).
Defined.

End MockRobotWitnesses.

(* ===================================================================== *)
(** ** The goal tracker: rounding, direction and progress *)
(* ===================================================================== *)

Section GoalTrackerLaws.

Context {W : Type} {runtime : Runtime W}.

Variable progress_guard : Wheel.t -> Res bool.

Local Open Scope R_scope.

Lemma math_copysign_opp (x y : R) :
  math_copysign (- x) y = math_copysign x y.
Proof. unfold math_copysign. rewrite Rabs_Ropp. reflexivity. Qed.

Lemma math_copysign_nonneg (x y : R) :
  0 <= y -> math_copysign x y = Rabs x.
Proof. intros Hy. unfold math_copysign. case_decide; [lra | reflexivity]. Qed.

(** X11.  The progress towards a goal that is neither zero ticks nor the
    start: the part of the way from the start to the goal that the encoder has
    covered. It is [0] at the start and [1] at the goal, and it is not
    clamped: beyond the goal it exceeds [1]. *)
Theorem progress_is_linear (w : Wheel.t) (s s1 : W) (g enc : pyval)
    (x_goal x_enc x_start : R) :
  progress_guard w = Ok false ->
  Wheel._goal_pos w = Some g ->
  num_val g = Some x_goal ->
  num_val (Wheel._start_pos w) = Some x_start ->
  Motor.get_encoder (Wheel._motor w) s = (Ok enc, s1) ->
  num_val enc = Some x_enc ->
  x_goal <> 0 ->
  x_goal <> x_start ->
  exists r : R,
    Wheel.get_goal_progress progress_guard (w, s)
    = (Ok (PFloat r), (w, s1))
    /\ r = (x_enc - x_start) / (x_goal - x_start)
    /\ (x_enc = x_start -> r = 0)
    /\ (x_enc = x_goal -> r = 1)
    /\ (x_start < x_goal < x_enc -> 1 < r).
Proof.
  intros Hguard Hgoal Hg Hstart Henc He Hnz Hne.
  eexists. split.
  { eapply get_goal_progress_formula; eassumption. }
  assert (Hr : 1 - (x_goal - x_enc) / (x_goal - x_start)
               = (x_enc - x_start) / (x_goal - x_start))
    by (field; lra).
  split; [exact Hr |]. rewrite Hr.
  split; [| split].
  - intros ->. unfold Rdiv. replace (x_start - x_start) with 0 by lra. lra.
  - intros ->. field. lra.
  - intros [Hlo Hhi].
    apply Rmult_lt_reg_r with (x_goal - x_start); [lra |].
    unfold Rdiv. rewrite Rmult_assoc, Rinv_l by lra. lra.
Qed.

(** X12.  The direction in which [set_goal] drives the motor is that of the
    goal: the sign of the velocity it is given is dropped. The same goal with
    the opposite velocity has the same outcome and leaves the robot in the
    same state; the two wheels differ in the velocity they remember. *)
Theorem set_goal_ignores_velocity_sign (goal velocity : R) (w : Wheel.t)
    (s : W) :
  fst (Wheel.set_goal goal (- velocity) (w, s))
  = fst (Wheel.set_goal goal velocity (w, s))
  /\ snd (snd (Wheel.set_goal goal (- velocity) (w, s)))
     = snd (snd (Wheel.set_goal goal velocity (w, s)))
  /\ (fst (Wheel.set_goal goal velocity (w, s)) = Ok tt ->
      fst (snd (Wheel.set_goal goal (- velocity) (w, s)))
      = Wheel.set_velocity_attr (- velocity)
          (fst (snd (Wheel.set_goal goal velocity (w, s))))).
Proof.
  unfold Wheel.set_goal, bind, Wheel.self, Wheel.on_robot, zoom, lift,
    Wheel.assign, modify.
  cbn [fst snd].
  destruct (Motor.get_encoder (Wheel._motor w) s) as [[enc | e] s1];
    [| cbn; split; [reflexivity | split; [reflexivity | discriminate]]].
  cbn [fst snd]. unfold fdiv.
  case_decide as Hzero;
    [cbn; split; [reflexivity | split; [reflexivity | discriminate]] |].
  cbn [fst snd Wheel._motor Wheel._radius Wheel._ticks_per_rot
       Wheel.set_start_pos Wheel.set_goal_pos].
  rewrite math_copysign_opp.
  destruct (Motor.set_velocity _ _ s1) as [[m | e] s2];
    cbn; split; try reflexivity; split; try reflexivity; discriminate.
Qed.

(** X13.  The goal in ticks is the distance in rotations times the ticks of a
    rotation, rounded up. A goal of less than one tick backwards is rounded to
    [0]: the wheel reports the goal as reached at once, and the motor has been
    told to run forwards at the magnitude of the velocity. *)
Theorem set_goal_rounds_up (goal velocity : R) (w w' : Wheel.t)
    (s s' : W) :
  Wheel.set_goal goal velocity (w, s) = (Ok tt, (w', s')) ->
  exists n : Z,
    Wheel._goal_pos w' = Some (PInt n)
    /\ IZR n - 1
       < goal / (Wheel._radius w * 2 * math_pi) * Wheel._ticks_per_rot w
       <= IZR n
    /\ (-1 < goal / (Wheel._radius w * 2 * math_pi) * Wheel._ticks_per_rot w
        <= 0 ->
        n = 0%Z
        /\ (progress_guard w' = Ok false ->
            Wheel.get_goal_progress progress_guard (w', s')
            = (Ok (PInt 1), (w', s')))
        /\ exists (s1 : W) (m : Motor.t),
             Motor.set_velocity (Wheel._motor w) (PFloat (Rabs velocity)) s1
             = (Ok m, s')).
Proof.
  intros Hset.
  destruct (set_goal_returns _ _ _ _ _ _ Hset)
    as (start_pos & s1 & m & _ & _ & Hvel & ->).
  set (turns := goal / (Wheel._radius w * 2 * math_pi)
                * Wheel._ticks_per_rot w) in *.
  exists (math_ceil turns).
  split; [reflexivity |].
  split; [apply math_ceil_bounds |].
  intros Hsmall.
  assert (Hn : math_ceil turns = 0%Z)
    by (apply math_ceil_unique; cbn [IZR]; lra).
  split; [exact Hn |]. split.
  - intros Hguard.
    eapply get_goal_progress_zero_goal; [reflexivity | | exact Hguard].
    rewrite Hn. apply bool_decide_eq_true_2. reflexivity.
  - exists s1, m. rewrite Hn in Hvel.
    rewrite math_copysign_nonneg in Hvel by (cbn [IZR]; lra).
    exact Hvel.
Qed.

(** X14.  [stop()] reads the encoder, makes the reading the goal and commands
    the velocity [0]. When the next reading of the encoder is the same and is
    [0] or differs from the start, [get_goal_progress()] returns [1]. *)
Theorem stopped_wheel_is_done (w w' : Wheel.t) (s s' s2 : W)
    (enc2 : pyval) (x x_start : R) :
  Wheel.stop (w, s) = (Ok tt, (w', s')) ->
  progress_guard w' = Ok false ->
  num_val (Wheel._start_pos w) = Some x_start ->
  Motor.get_encoder (Wheel._motor w) s' = (Ok enc2, s2) ->
  num_val enc2 = Some x ->
  (forall g : pyval, Wheel._goal_pos w' = Some g -> num_val g = Some x) ->
  x = 0 \/ x <> x_start ->
  (exists (enc : pyval) (s1 : W) (m : Motor.t),
      Motor.get_encoder (Wheel._motor w) s = (Ok enc, s1)
      /\ Motor.set_velocity (Wheel._motor w) (PInt 0) s1 = (Ok m, s')
      /\ Wheel._goal_pos w' = Some enc)
  /\ exists (r : pyval) (s3 : W),
       Wheel.get_goal_progress progress_guard (w', s') = (Ok r, (w', s3))
       /\ num_val r = Some 1.
Proof.
  intros Hstop Hguard Hstart Hread Hx Hsame Hcase.
  destruct (stop_returns _ _ _ _ Hstop) as (enc & s1 & m & Henc & Hvel & Hw').
  assert (Hgoal : Wheel._goal_pos w' = Some enc) by (subst w'; reflexivity).
  split; [exists enc, s1, m; auto |].
  pose proof (Hsame enc Hgoal) as Hg.
  assert (Hstart' : num_val (Wheel._start_pos w') = Some x_start)
    by (subst w'; exact Hstart).
  assert (Hmotor : Wheel._motor w' = Wheel._motor w)
    by (subst w'; reflexivity).
  destruct (Req_dec_T x 0) as [Hzero | Hnz].
  - exists (PInt 1), s'. split; [| reflexivity].
    eapply get_goal_progress_zero_goal; [exact Hgoal | | exact Hguard].
    rewrite (py_eq_zero enc x Hg).
    apply bool_decide_eq_true_2. exact Hzero.
  - destruct Hcase as [Hzero | Hne]; [contradiction |].
    rewrite <- Hmotor in Hread.
    eexists. exists s2. split.
    + exact (get_goal_progress_formula progress_guard w' s' s2 enc enc2
               x x x_start Hguard Hgoal Hg Hstart' Hread Hx Hnz Hne).
    + cbn. f_equal. field. lra.
Qed.

End GoalTrackerLaws.

Section GoalTrackerWitnesses.

Import MockRobot.

Local Open Scope R_scope.

(** A first read of the encoder of motor [a] on the robot of the bench. *)
Lemma bench_first_encoder_read :
  exists (s1 : MockRobot.t) (x : R),
    Motor.get_encoder (runtime := Bench.runtime) (Motor.mk "kb" "a" false)
      Bench.robot
    = (Ok (PFloat x), s1)
    /\ x = 0.
Proof.
  destruct (admitted_created Bench.clock Bench.robot "kb" "enc_a"
              bench_robot_free eq_refl) as (s0 & Hadm & _).
  assert (Hzero : Rabs 0.0 <= 1) by (rewrite Rabs_pos_eq; lra).
  destruct (motor_get_encoder_a Bench.clock Bench.robot s0 "kb" false
              _ _ _ _ _ Hadm Hzero Hzero) as (s1 & Hread & _).
  eexists. eexists. split; [exact Hread |]. cbn [IZR]. lra.
Qed.

Lemma progress_is_linear_witness :
  let w := Wheel.mk (Motor.mk "kb" "a" false) 0.0508 1356.87
             (Some (PInt 4252)) (Some 1) (PFloat 0) in
  exists (s1 : MockRobot.t) (r : R),
    Wheel.get_goal_progress (runtime := Bench.runtime) spec_progress_guard
      (w, Bench.robot)
    = (Ok (PFloat r), (w, s1))
    /\ r = 0.
Proof.
  intros w.
  destruct bench_first_encoder_read as (s1 & x & Hread & Hx).
  destruct (progress_is_linear (runtime := Bench.runtime)
              spec_progress_guard w Bench.robot s1 (PInt 4252) (PFloat x)
              4252 x 0 eq_refl eq_refl eq_refl eq_refl Hread eq_refl)
    as (r & Hrun & _ & Hzero & _).
  - lra.
  - lra.
  - exists s1, r. split; [exact Hrun |]. apply Hzero. exact Hx.
Defined.

Lemma small_goal_turns :
  -1 < -0.0001 / (0.0508 * 2 * math_pi) * 1356.87 <= 0.
Proof.
  unfold math_pi. pose proof PI_upper. pose proof PI_lower.
  assert (Hpos : 0 < 0.0508 * 2 * PI) by lra.
  split.
  - apply Rmult_lt_reg_r with (0.0508 * 2 * PI); [exact Hpos |].
    field_simplify; lra.
  - apply Rmult_le_reg_r with (0.0508 * 2 * PI); [exact Hpos |].
    field_simplify; lra.
Qed.

Lemma set_goal_rounds_up_witness :
  exists (w' : Wheel.t) (s' : MockRobot.t),
    Wheel.set_goal (runtime := Bench.runtime) (-0.0001) 0.5
      (Bench.wheel, Bench.robot)
    = (Ok tt, (w', s'))
    /\ Wheel._goal_pos w' = Some (PInt 0)
    /\ Wheel.get_goal_progress (runtime := Bench.runtime)
         spec_progress_guard (w', s')
       = (Ok (PInt 1), (w', s'))
    /\ exists (s1 : MockRobot.t) (m : Motor.t),
         Motor.set_velocity (runtime := Bench.runtime)
           (Wheel._motor Bench.wheel) (PFloat (Rabs 0.5)) s1
         = (Ok m, s').
Proof.
  destruct (bench_set_goal (-0.0001) 0.5) as (s' & x_start & Hset & _).
  destruct (set_goal_rounds_up (runtime := Bench.runtime)
              spec_progress_guard (-0.0001) 0.5 Bench.wheel _ Bench.robot s'
              Hset) as (n & Hgoal & _ & Hsmall).
  destruct (Hsmall small_goal_turns) as (Hn & Hdone & Hsent).
  eexists. exists s'. split; [exact Hset |].
  split; [rewrite Hgoal, Hn; reflexivity |].
  split; [exact (Hdone eq_refl) | exact Hsent].
Defined.

Lemma stopped_wheel_is_done_witness :
  let w := Wheel.mk (Motor.mk "kb" "a" false) 0.0508 1356.87
             (Some (PInt 4252)) (Some 1) (PFloat 0) in
  exists (w' : Wheel.t) (s' s3 : MockRobot.t) (r : pyval),
    Wheel.stop (runtime := Bench.runtime) (w, Bench.robot)
    = (Ok tt, (w', s'))
    /\ Wheel.get_goal_progress (runtime := Bench.runtime)
         spec_progress_guard (w', s')
       = (Ok r, (w', s3))
    /\ num_val r = Some 1.
Proof.
  intros w.
  destruct (admitted_created Bench.clock Bench.robot "kb" "enc_a"
              bench_robot_free eq_refl) as (s0 & Hadm & _).
  assert (Hzero : Rabs 0.0 <= 1) by (rewrite Rabs_pos_eq; lra).
  destruct (wheel_stop_on_robot Bench.clock w Bench.robot s0 "kb" false
              _ _ _ _ _ eq_refl Hadm Hzero Hzero)
    as (s' & x_goal & xa & xb & Hstop & Hgoal & Hat & Hxa & _).
  pose proof (admitted_known Bench.clock s' "kb" "enc_a" _ _ _ _ _ Hat
                (or_introl eq_refl)) as Hadm'.
  assert (Hzero' : Rabs 0 <= 1) by (rewrite Rabs_R0; lra).
  destruct (motor_get_encoder_a Bench.clock s' s' "kb" false _ _ _ _ _
              Hadm' Hzero' Hzero) as (s2 & Hread & _).
  assert (Hxg : x_goal = 0) by (rewrite Hgoal; cbn [IZR]; lra).
  assert (Hxa0 : xa = 0) by (rewrite Hxa; lra).
  set (enc2 := PFloat _) in Hread.
  assert (Hx2 : num_val enc2 = Some 0).
  { subst enc2. cbn [num_val IZR]. f_equal. rewrite Hxa0. lra. }
  assert (Hsame : forall g : pyval,
             Wheel._goal_pos (Wheel.set_goal_pos (PFloat x_goal) w) = Some g ->
             num_val g = Some 0).
  { intros g [= <-]. cbn. rewrite Hxg. reflexivity. }
  destruct (stopped_wheel_is_done (runtime := Bench.runtime)
              spec_progress_guard w _ Bench.robot s' s2 enc2 0 0
              Hstop eq_refl eq_refl Hread Hx2 Hsame (or_introl eq_refl))
    as (_ & r & s3 & Hrun & Hr).
  eexists. exists s', s3, r. split; [exact Hstop |].
  split; [exact Hrun | exact Hr].
Defined.

End GoalTrackerWitnesses.

(* ===================================================================== *)
(** ** Updates that cannot return *)
(* ===================================================================== *)

Section StuckUpdates.

Import BaseQueuedChassis.

Context {W : Type} {runtime : Runtime W} {ext : Externals W}.

Variable progress_guard : Wheel.t -> Res bool.

Lemma never_returns_first {S A B : Type} (m : M S A) (k : A -> M S B) :
  never_returns m -> never_returns (bind m k).
Proof.
  intros Hm s. destruct (Hm s) as (e & s' & Hrun).
  exists e, s'. apply bind_raise. exact Hrun.
Qed.

Lemma never_returns_then {S A B : Type} (m : M S A) (k : A -> M S B) :
  (forall a : A, never_returns (k a)) -> never_returns (bind m k).
Proof.
  intros Hk s. unfold bind.
  destruct (m s) as [[a | e] s1]; [apply Hk | eauto].
Qed.

(** [Wheel.update] reads [_initialized], which no wheel has. *)
Lemma wheel_update_raises (s : Wheel.t * W) :
  Wheel.update progress_guard s = (Raise AttributeError, s).
Proof. reflexivity. Qed.

Lemma quad_post_update_raises (s : QuadChassis.t * W) :
  QuadChassis._on_post_update progress_guard s = (Raise AttributeError, s).
Proof.
  unfold QuadChassis._on_post_update.
  erewrite bind_raise; [reflexivity |].
  unfold QuadChassis.on_left, zoom.
  rewrite wheel_update_raises. cbn [fst snd].
  destruct s as [[b m [l r]] w]. reflexivity.
Qed.

(** The update of a chassis that is idle with an empty queue is the hook
    [_on_post_update]. *)
Lemma update_at_rest {T : Type} {variant : Variant T} (s : T * W) :
  _queue (base (fst s)) = [] ->
  _is_idle (base (fst s)) = true ->
  update s = _on_post_update s.
Proof.
  intros Hq Hidle. unfold update, bind, self, ret.
  cbn [fst snd]. rewrite Hq, Hidle.
  rewrite bool_decide_eq_true_2 by reflexivity.
  cbn [negb andb fst snd]. rewrite ?Hq, ?Hidle.
  rewrite bool_decide_eq_true_2 by reflexivity.
  cbn [negb andb fst snd]. rewrite ?Hq, ?Hidle.
  rewrite bool_decide_eq_true_2 by reflexivity.
  reflexivity.
Qed.

(** The update of a chassis whose queue has run empty starts with the hook
    [_on_queue_finish]. *)
Lemma update_drained_raises {T : Type} {variant : Variant T} (s s' : T * W)
    (e : exn) :
  _queue (base (fst s)) = [] ->
  _is_idle (base (fst s)) = false ->
  _on_queue_finish s = (Raise e, s') ->
  update s = (Raise e, s').
Proof.
  intros Hq Hidle Hfinish. unfold update, bind, self, ret.
  cbn [fst snd]. rewrite Hq, Hidle.
  rewrite bool_decide_eq_true_2 by reflexivity.
  cbn [negb andb fst snd]. rewrite ?Hq, ?Hidle.
  rewrite bool_decide_eq_true_2 by reflexivity.
  cbn [negb andb fst snd]. rewrite ?Hq, ?Hidle.
  rewrite bool_decide_eq_true_2 by reflexivity.
  cbn [negb andb]. rewrite Hfinish. reflexivity.
Qed.

(** X16.  No [update()] of a [QuadChassis] returns: the update ends with the
    hook [_on_post_update], which calls [Wheel.update], and that reads an
    attribute no wheel has. On an idle chassis with an empty queue the update
    does nothing else: it raises [AttributeError] and leaves chassis and robot
    as they were. *)
Theorem quad_update_never_returns (c : QuadChassis.t) (w : W) :
  (exists (e : exn) (s' : QuadChassis.t * W),
      update (variant := QuadChassis.variant progress_guard) (c, w)
      = (Raise e, s'))
  /\ (_queue (QuadChassis._base c) = [] ->
      _is_idle (QuadChassis._base c) = true ->
      update (variant := QuadChassis.variant progress_guard) (c, w)
      = (Raise AttributeError, (c, w))).
Proof.
  split.
  - revert c w.
    assert (H : never_returns
                  (update (variant := QuadChassis.variant progress_guard))).
    { unfold update.
      do 5 (apply never_returns_then; intros ?).
      intros s. exists AttributeError, s. apply quad_post_update_raises. }
    intros c w. apply H.
  - intros Hq Hidle.
    rewrite (update_at_rest (variant := QuadChassis.variant progress_guard))
      by assumption.
    apply quad_post_update_raises.
Qed.

(** X17.  A [TestChassis] whose queue has run empty cannot report it: the hook
    [_on_queue_finish] calls [Motor.stop], which [Motor] does not define. The
    update raises [AttributeError] and changes nothing, the idle flag stays
    false, and every later update on the empty queue does the same. *)
Theorem test_chassis_cannot_finish (c : TestChassis.t) (w : W) :
  _queue (TestChassis._base c) = [] ->
  _is_idle (TestChassis._base c) = false ->
  update (variant := TestChassis.variant) (c, w)
  = (Raise AttributeError, (c, w)).
Proof.
  intros Hq Hidle.
  apply (update_drained_raises (variant := TestChassis.variant));
    [exact Hq | exact Hidle |].
  reflexivity.
Qed.

(** The base class on its own, with a motion queued: [update()] raises
    [NotImplementedError], from the update function the motion is bound to,
    after it has cleared the idle flag; the queue is as it was. *)
Theorem base_chassis_update_not_implemented (b : fields) (w : W)
    (head : QueuedMotion.t) (rest : list QueuedMotion.t) :
  _queue b = head :: rest ->
  update (variant := abstract_chassis) (b, w)
  = (Raise NotImplementedError, (set_is_idle false b, w))
  /\ update_input (T := fields) (b, w)
     = (Raise NotImplementedError, (b, w)).
Proof.
  intros Hq. split; [| reflexivity].
  assert (Hhead : forall s : fields * W,
             motion_update (variant := abstract_chassis) head s
             = (Raise NotImplementedError, s)).
  { intros s. unfold motion_update.
    destruct (QueuedMotion._update head); reflexivity. }
  destruct (_is_idle b) eqn:Hidle.
  - eapply (update_front_raises (variant := abstract_chassis)).
    + apply (update_starts (variant := abstract_chassis)
               (fun _ _ => eq_refl) (b, w) (b, w) head rest Hq Hidle eq_refl).
    + exact Hq.
    + apply Hhead.
  - replace (set_is_idle false b) with b
      by (destruct b; cbn in Hidle; subst; reflexivity).
    eapply (update_front_raises (variant := abstract_chassis)).
    + apply (update_continues (variant := abstract_chassis) (b, w) head rest
               Hq Hidle).
    + exact Hq.
    + apply Hhead.
Qed.

End StuckUpdates.

(* ===================================================================== *)
(** ** Motions of the test chassis *)
(* ===================================================================== *)

Section TestChassisMotions.

Import BaseQueuedChassis.

Context {W : Type} {runtime : Runtime W} {ext : Externals W}.

Local Open Scope R_scope.

(** The time the estimator returns when no stop is asked for. *)
Lemma no_stop_time_bounds (v_i d v_max a : R) :
  0 < a -> 0 <= v_max ->
  0 <= Rmin (v_i + sqrt (v_i ^ 2 + 2 * a * Rabs d)) v_max / a <= v_max / a.
Proof.
  intros Ha Hv.
  assert (Hroot : Rabs v_i <= sqrt (v_i ^ 2 + 2 * a * Rabs d)).
  { apply sqrt_square_plus. pose proof (Rabs_pos d). nra. }
  assert (Hsum : 0 <= v_i + sqrt (v_i ^ 2 + 2 * a * Rabs d)).
  { pose proof (Rle_abs (- v_i)) as H. rewrite Rabs_Ropp in H. lra. }
  assert (Hinv : 0 < / a) by (apply Rinv_0_lt_compat; exact Ha).
  split.
  - unfold Rdiv. apply Rmult_le_pos; [| lra].
    apply Rmin_glb; assumption.
  - unfold Rdiv. apply Rmult_le_compat_r; [lra |]. apply Rmin_r.
Qed.

(** [_update_motors], when it returns, returns [True]: the time elapsed is
    the start of the motion minus the time of the clock, which is nothing
    above zero, and the times of the estimator are nothing below. *)
Lemma test_update_motors_keeps_running (l r : R) (c : TestChassis.t)
    (w : W) :
  0 < TestChassis._max_acceleration c ->
  0 <= TestChassis._max_velocity c ->
  TestChassis._motion_start_timestamp c = Some 0 ->
  (forall (now : R) (w1 : W), time_time w = (Ok now, w1) -> 0 <= now) ->
  fst (TestChassis._update_motors l r (c, w)) <> Ok false.
Proof.
  intros Ha Hv Hstart Hclock.
  destruct (Nat.eqb_spec (length (_queue (TestChassis._base c))) 1)
    as [Hlen | Hlen].
  { rewrite test_update_motors_last by exact Hlen. discriminate. }
  unfold TestChassis._update_motors.
  mstep. cbn [fst].
  rewrite (proj2 (Nat.eqb_neq _ _) Hlen).
  mstep by (apply estimate_travel_time_no_stop; exact Ha).
  mstep by (apply estimate_travel_time_no_stop; exact Ha).
  rewrite Hstart.
  mstep.
  destruct (time_time w) as [[now | e] w1] eqn:Hnow.
  2:{ erewrite bind_raise; [discriminate |].
      unfold TestChassis.on_robot, zoom. cbn [fst snd]. rewrite Hnow.
      reflexivity. }
  mstep by (unfold TestChassis.on_robot, zoom; cbn [fst snd];
            rewrite Hnow; reflexivity).
  pose proof (Hclock now w1 eq_refl) as Hpos.
  pose proof (no_stop_time_bounds
                (LRStruct.left (TestChassis._actual_motor_velocity c)) l
                _ _ Ha Hv) as [Hl _].
  pose proof (no_stop_time_bounds
                (LRStruct.right (TestChassis._actual_motor_velocity c)) r
                _ _ Ha Hv) as [Hr _].
  match goal with
  | |- fst (bind ?m ?k ?s) <> _ =>
      destruct (m s) as [[u | e] s2] eqn:Hbranch
  end.
  - erewrite bind_ok by exact Hbranch. unfold ret. cbn [fst].
    rewrite bool_decide_eq_true_2; [discriminate |].
    apply Rmin_glb; lra.
  - erewrite bind_raise by exact Hbranch. discriminate.
Qed.

(** The update of a [TestChassis] whose front motion is still running. *)
Lemma test_update_running (c : TestChassis.t) (w : W)
    (head : QueuedMotion.t) (rest : list QueuedMotion.t)
    (s3 : TestChassis.t * W) :
  _queue (TestChassis._base c) = head :: rest ->
  motion_update (variant := TestChassis.variant) head (test_started c, w)
  = (Ok true, s3) ->
  update (variant := TestChassis.variant) (c, w) = (Ok tt, s3).
Proof.
  intros Hq Hm.
  pose proof (test_update_first c w head rest Hq) as Hfirst.
  assert (Hq1 : _queue (TestChassis._base (test_started c)) = head :: rest)
    by (rewrite test_started_queue; exact Hq).
  pose proof (test_motion_update_frame head _ _ _ Hm) as Hframe.
  cbn [fst] in Hframe.
  assert (Hq3 : _queue (TestChassis._base (fst s3)) = head :: rest)
    by (rewrite Hframe; exact Hq1).
  unfold update. mstep. mstep by (exact Hfirst). mstep.
  cbn [fst base TestChassis.variant]. rewrite Hq1.
  rewrite bool_decide_eq_false_2 by discriminate. cbn [negb].
  mstep by (mstep by (eapply front_runs; exact Hq1);
            mstep by (exact Hm); reflexivity).
  cbn [negb].
  mstep by (mstep; cbn [fst base TestChassis.variant];
            rewrite Hq3; rewrite bool_decide_eq_false_2 by discriminate;
            reflexivity).
  reflexivity.
Qed.

(** X18.  A move or a turn at the front of the queue of a [TestChassis] is
    never completed: an [update()] that returns leaves it at the front. The
    motion lasts while the time elapsed is at most the estimated time, and the
    time elapsed, the start of the motion minus the time of the clock, never
    exceeds zero. *)
Theorem test_chassis_motion_never_completes (c : TestChassis.t) (w : W)
    (head : QueuedMotion.t) (rest : list QueuedMotion.t)
    (s' : TestChassis.t * W) :
  _queue (TestChassis._base c) = head :: rest ->
  (forall p : peripheral,
      QueuedMotion._update head <> QueuedMotion.PeripheralAction p) ->
  0 < TestChassis._max_acceleration c ->
  0 <= TestChassis._max_velocity c ->
  (_is_idle (TestChassis._base c) = false ->
   TestChassis._motion_start_timestamp c = Some 0) ->
  (forall (now : R) (w1 : W), time_time w = (Ok now, w1) -> 0 <= now) ->
  update (variant := TestChassis.variant) (c, w) = (Ok tt, s') ->
  _queue (TestChassis._base (fst s')) = head :: rest
  /\ _is_idle (TestChassis._base (fst s')) = false.
Proof.
  intros Hq Hkind Ha Hv Hstamp Hclock Hrun.
  pose proof (test_update_first c w head rest Hq) as Hfirst.
  assert (Hq1 : _queue (TestChassis._base (test_started c)) = head :: rest)
    by (rewrite test_started_queue; exact Hq).
  assert (Hidle1 : _is_idle (TestChassis._base (test_started c)) = false).
  { unfold test_started.
    destruct (_is_idle (TestChassis._base c)) eqn:Hidle; [reflexivity |].
    exact Hidle. }
  assert (Ha1 : 0 < TestChassis._max_acceleration (test_started c)).
  { unfold test_started.
    destruct (_is_idle (TestChassis._base c)); exact Ha. }
  assert (Hv1 : 0 <= TestChassis._max_velocity (test_started c)).
  { unfold test_started.
    destruct (_is_idle (TestChassis._base c)); exact Hv. }
  assert (Hstart1 :
    TestChassis._motion_start_timestamp (test_started c) = Some 0).
  { unfold test_started.
    destruct (_is_idle (TestChassis._base c)) eqn:Hidle;
      [reflexivity | apply Hstamp; reflexivity]. }
  assert (Hnot : fst (motion_update (variant := TestChassis.variant) head
                        (test_started c, w)) <> Ok false).
  { unfold motion_update.
    destruct (QueuedMotion._update head) as [path | angle | p] eqn:Hm.
    - apply test_update_motors_keeps_running; assumption.
    - cbn [_update_turn TestChassis.variant].
      unfold TestChassis._update_turn.
      destruct (TestChassis.turn_distances angle) as [[dl dr] | e].
      + mstep. apply test_update_motors_keeps_running; assumption.
      + cbn. discriminate.
    - exfalso. exact (Hkind p eq_refl). }
  destruct (motion_update (variant := TestChassis.variant) head
              (test_started c, w)) as [[running | e] s3] eqn:Hm.
  - destruct running; [| exfalso; apply Hnot; reflexivity].
    pose proof (test_motion_update_frame head _ _ _ Hm) as Hframe.
    cbn [fst] in Hframe.
    assert (Hq3 : _queue (TestChassis._base (fst s3)) = head :: rest)
      by (rewrite Hframe; exact Hq1).
    assert (Hidle3 : _is_idle (TestChassis._base (fst s3)) = false)
      by (rewrite Hframe; exact Hidle1).
    rewrite (test_update_running c w head rest s3 Hq Hm) in Hrun.
    injection Hrun as <-.
    split; assumption.
  - exfalso.
    rewrite (update_front_raises (variant := TestChassis.variant)
               (c, w) (test_started c, w) s3 head rest e Hfirst Hq1 Hm)
      in Hrun.
    discriminate.
Qed.

End TestChassisMotions.

(* ===================================================================== *)
(** ** Driving the two motors of a controller *)
(* ===================================================================== *)

Section DrivingOnMockRobot.

Import MockRobot.

Variable clock : nat -> R.

Context {ext : Externals MockRobot.t}.

Local Open Scope R_scope.

Lemma motor_set_velocity_b (s s1 : t) (id : string) (inverted : bool)
    (t0 va vb xa xb : R) (value : pyval) (v : R) :
  admitted clock s s1 id "velocity_b" t0 va vb xa xb ->
  Rabs va <= 1 -> Rabs vb <= 1 ->
  coerce (PFloat vb) value = PFloat v ->
  exists s' : t,
    Motor.set_velocity (runtime := MockRobot.runtime clock)
      (Motor.mk id "b" inverted) value s
    = (Ok (Motor.mk id "b" inverted), s')
    /\ koalabear_at s' id (clock (clock_reads s1)) va v
         (xa + va * (t0 - clock (clock_reads s1)) * 2000)
         (xb + vb * (t0 - clock (clock_reads s1)) * 2000)
    /\ clock_reads s' = S (clock_reads s1).
Proof.
  intros [Hcheck (dev & Hd & Hty & Hkb)] Hba Hbb Hvalue.
  assert (Hcur :
    integrate (clock (clock_reads s1)) t0 va vb xa xb dev !! "velocity_b"
    = Some (PFloat vb)).
  { rewrite integrate_other by done. apply Hkb. }
  eexists. split; [| split].
  - unfold Motor.set_velocity, Motor._set.
    cbn [Motor._controller Motor._motor Motor._is_inverted robot_set_value
         MockRobot.runtime String.append].
    mstep by (eapply set_value_checked; try eassumption;
              rewrite Hvalue; reflexivity).
    reflexivity.
  - eexists. split; [apply accessed_lookup |].
    split; [apply accessed_type; exact Hty |].
    rewrite Hvalue.
    eapply koalabear_velocity_b, integrate_koalabear. exact Hkb.
  - apply accessed_reads.
Qed.

(** A write to a controller that holds a velocity out of bounds. *)
Lemma motor_set_velocity_stuck (s : t) (id channel : string)
    (inverted : bool) (t0 va vb xa xb : R) (value : pyval) :
  koalabear_at s id t0 va vb xa xb ->
  channel = "a" \/ channel = "b" ->
  1 < Rabs va \/ 1 < Rabs vb ->
  exists s' : t,
    Motor.set_velocity (runtime := MockRobot.runtime clock)
      (Motor.mk id channel inverted) value s
    = (Raise ValueError, s')
    /\ koalabear_at s' id (clock (clock_reads s)) va vb xa xb.
Proof.
  intros (dev & Hd & Hty & Hkb) Hchannel Hout.
  assert (Hkey : forall key : string,
             key = "velocity_a" \/ key = "velocity_b" ->
             is_Some (dev !! key)).
  { intros key [-> | ->];
      [rewrite (kb_velocity_a _ _ _ _ _ _ Hkb)
      | rewrite (kb_velocity_b _ _ _ _ _ _ Hkb)]; eauto. }
  eexists. split.
  - unfold Motor.set_velocity, Motor._set.
    cbn [Motor._controller Motor._motor robot_set_value MockRobot.runtime].
    erewrite bind_raise; [reflexivity |].
    unfold set_value.
    mstep by (eapply check_property_known; [exact Hd |];
              apply Hkey; destruct Hchannel as [-> | ->]; auto).
    erewrite bind_raise; [reflexivity |].
    eapply update_if_koalabear_stuck; eassumption.
  - eexists. split; [apply accessed_lookup |].
    split; [apply accessed_type; exact Hty |].
    eapply koalabear_stamped. exact Hkb.
Qed.

(** X20.  The teleop input of a [TestChassis] is passed on as it is: the left
    motor is given [drive_left + turn] and the right motor [drive_right -
    turn], without a clamp. A left command out of bounds is stored by the
    first write and refused by the second, so that [update_input] raises
    [ValueError]; a right command out of bounds is stored and the call
    returns. Both leave the controller with a velocity out of bounds. *)
Theorem teleop_input_is_not_clamped (c : TestChassis.t) (s : t)
    (id : string) (il ir : bool) (t0 va vb xa xb : R)
    (drive_left drive_right turn : R) :
  TestChassis._motors c
  = LRStruct.mk (Motor.mk id "a" il) (Motor.mk id "b" ir) ->
  koalabear_at s id t0 va vb xa xb ->
  Rabs va <= 1 -> Rabs vb <= 1 ->
  exists (s' : t) (t1 xa' xb' : R),
    (Rabs (drive_left + turn) <= 1 ->
     TestChassis.update_input (runtime := MockRobot.runtime clock)
       drive_left drive_right turn (c, s)
     = (Ok tt, (c, s'))
     /\ koalabear_at s' id t1 (drive_left + turn) (drive_right - turn)
          xa' xb')
    /\ (1 < Rabs (drive_left + turn) ->
        TestChassis.update_input (runtime := MockRobot.runtime clock)
          drive_left drive_right turn (c, s)
        = (Raise ValueError, (c, s'))
        /\ koalabear_at s' id t1 (drive_left + turn) vb xa' xb').
Proof.
  intros Hmotors Hat Hba Hbb.
  pose proof (admitted_known clock s id "velocity_a" _ _ _ _ _ Hat
                (or_intror (or_intror (or_introl eq_refl)))) as Hadm.
  destruct (motor_set_velocity_a clock s s id il _ _ _ _ _
              (PFloat (drive_left + turn)) (drive_left + turn)
              Hadm Hba Hbb eq_refl)
    as (s1 & Hleft & Hat1 & Hr1).
  assert (Hfirst :
    TestChassis.on_robot
      (Motor.set_velocity (runtime := MockRobot.runtime clock)
         (LRStruct.left (TestChassis._motors c))
         (PFloat (drive_left + turn))) (c, s)
    = (Ok (Motor.mk id "a" il), (c, s1))).
  { unfold TestChassis.on_robot, zoom. cbn [fst snd].
    rewrite Hmotors. cbn [LRStruct.left]. rewrite Hleft. reflexivity. }
  destruct (Rle_dec (Rabs (drive_left + turn)) 1) as [Hin | Hout].
  - pose proof (admitted_known clock s1 id "velocity_b" _ _ _ _ _ Hat1
                  (or_intror (or_intror (or_intror eq_refl)))) as Hadm1.
    destruct (motor_set_velocity_b s1 s1 id ir _ _ _ _ _
                (PFloat (drive_right - turn)) (drive_right - turn)
                Hadm1 Hin Hbb eq_refl)
      as (s2 & Hright & Hat2 & Hr2).
    exists s2. do 3 eexists. split.
    + intros _. split; [| exact Hat2].
      unfold TestChassis.update_input.
      mstep. cbn [fst].
      mstep by (exact Hfirst).
      mstep by (unfold TestChassis.on_robot, zoom; cbn [fst snd];
                rewrite Hmotors; cbn [LRStruct.right]; rewrite Hright;
                reflexivity).
      reflexivity.
    + intros Hc. exfalso. lra.
  - destruct (motor_set_velocity_stuck s1 id "b" ir _ _ _ _ _
                (PFloat (drive_right - turn)) Hat1 (or_intror eq_refl))
      as (s2 & Hright & Hat2); [left; lra |].
    exists s2. do 3 eexists. split; [intros Hc; exfalso; lra |].
    intros _. split; [| exact Hat2].
    unfold TestChassis.update_input.
    mstep. cbn [fst].
    mstep by (exact Hfirst).
    erewrite bind_raise; [reflexivity |].
    unfold TestChassis.on_robot, zoom. cbn [fst snd].
    rewrite Hmotors. cbn [LRStruct.right]. rewrite Hright. reflexivity.
Qed.

End DrivingOnMockRobot.

Section NormalisedDrive.

Import MockRobot BaseQueuedChassis.

Variable clock : nat -> R.

Context {ext : Externals MockRobot.t}.

Local Open Scope R_scope.

Lemma normalised_bounds (l r : R) :
  Rmax (Rabs l) (Rabs r) <> 0 ->
  Rabs (l / Rmax (Rabs l) (Rabs r)) <= 1
  /\ Rabs (r / Rmax (Rabs l) (Rabs r)) <= 1
  /\ Rmax (Rabs (l / Rmax (Rabs l) (Rabs r)))
       (Rabs (r / Rmax (Rabs l) (Rabs r))) = 1.
Proof.
  intros Hm.
  set (m := Rmax (Rabs l) (Rabs r)) in *.
  assert (Hl : Rabs l <= m) by apply Rmax_l.
  assert (Hr : Rabs r <= m) by apply Rmax_r.
  assert (Hpos : 0 < m) by (pose proof (Rabs_pos l); lra).
  assert (Hdiv : forall x : R, Rabs (x / m) = Rabs x / m).
  { intros x. unfold Rdiv. rewrite Rabs_mult, (Rabs_pos_eq (/ m)).
    - reflexivity.
    - left. apply Rinv_0_lt_compat. exact Hpos. }
  assert (Hle : forall x : R, x <= m -> x / m <= 1).
  { intros x Hx. apply Rmult_le_reg_r with m; [exact Hpos |].
    unfold Rdiv. rewrite Rmult_assoc, Rinv_l by lra. lra. }
  rewrite !Hdiv.
  split; [apply Hle; exact Hl |]. split; [apply Hle; exact Hr |].
  unfold m at 1 2. unfold Rmax at 2 3.
  destruct (Rle_dec (Rabs l) (Rabs r)) as [Hlr | Hlr].
  - fold m. replace m with (Rabs r) by (unfold m, Rmax;
      destruct (Rle_dec (Rabs l) (Rabs r)); [reflexivity | contradiction]).
    assert (Hrpos : Rabs r <> 0).
    { intros H0. apply Hm. unfold m, Rmax.
      destruct (Rle_dec (Rabs l) (Rabs r)); [exact H0 | contradiction]. }
    replace (Rabs r / Rabs r) with 1 by (field; exact Hrpos).
    apply Rmax_right.
    apply Rmult_le_reg_r with (Rabs r);
      [pose proof (Rabs_pos r); lra |].
    unfold Rdiv. rewrite Rmult_assoc, Rinv_l by exact Hrpos. lra.
  - fold m. replace m with (Rabs l) by (unfold m, Rmax;
      destruct (Rle_dec (Rabs l) (Rabs r)); [contradiction | reflexivity]).
    assert (Hlpos : Rabs l <> 0).
    { intros H0. apply Hm. unfold m, Rmax.
      destruct (Rle_dec (Rabs l) (Rabs r)); [contradiction | exact H0]. }
    replace (Rabs l / Rabs l) with 1 by (field; exact Hlpos).
    apply Rmax_left.
    apply Rmult_le_reg_r with (Rabs l);
      [pose proof (Rabs_pos l); lra |].
    unfold Rdiv. rewrite Rmult_assoc, Rinv_l by exact Hlpos. lra.
Qed.

Lemma koalabear_at_clock (s : t) (id : string) (n : nat)
    (t0 va vb xa xb : R) :
  koalabear_at s id t0 va vb xa xb ->
  koalabear_at (set_clock_reads n s) id t0 va vb xa xb.
Proof.
  intros (dev & Hd & Hty & Hkb). exists dev.
  destruct s; cbn in *. auto.
Qed.

(** X19.  A motion of a [TestChassis] that is under way drives the two motors
    at their distances divided by the greater of the two magnitudes: the side
    with the longer way runs at full speed, whatever the distances and
    whatever the maximal velocity of the chassis, and both velocities are in
    the bounds of the controller. The update function returns [True]. *)
Theorem test_chassis_drives_normalised (l r : R) (c : TestChassis.t)
    (s : t) (id : string) (il ir : bool) (t0 va vb xa xb : R) :
  TestChassis._motors c
  = LRStruct.mk (Motor.mk id "a" il) (Motor.mk id "b" ir) ->
  length (_queue (TestChassis._base c)) <> 1%nat ->
  0 < TestChassis._max_acceleration c ->
  0 <= TestChassis._max_velocity c ->
  TestChassis._motion_start_timestamp c = Some 0 ->
  0 <= clock (clock_reads s) ->
  Rmax (Rabs l) (Rabs r) <> 0 ->
  koalabear_at s id t0 va vb xa xb ->
  Rabs va <= 1 -> Rabs vb <= 1 ->
  exists (s' : t) (t1 xa' xb' : R),
    TestChassis._update_motors (runtime := MockRobot.runtime clock) l r
      (c, s)
    = (Ok true, (c, s'))
    /\ koalabear_at s' id t1
         (l / Rmax (Rabs l) (Rabs r)) (r / Rmax (Rabs l) (Rabs r)) xa' xb'
    /\ Rabs (l / Rmax (Rabs l) (Rabs r)) <= 1
    /\ Rabs (r / Rmax (Rabs l) (Rabs r)) <= 1
    /\ Rmax (Rabs (l / Rmax (Rabs l) (Rabs r)))
         (Rabs (r / Rmax (Rabs l) (Rabs r))) = 1.
Proof.
  intros Hmotors Hlen Ha Hv Hstart Hnow Hmax Hat Hba Hbb.
  destruct (normalised_bounds l r Hmax) as (Hbl & Hbr & Hfull).
  set (s0 := set_clock_reads (S (clock_reads s)) s).
  pose proof (koalabear_at_clock s id (S (clock_reads s)) _ _ _ _ _ Hat)
    as Hat0.
  fold s0 in Hat0.
  pose proof (admitted_known clock s0 id "velocity_a" _ _ _ _ _ Hat0
                (or_intror (or_intror (or_introl eq_refl)))) as Hadm0.
  destruct (motor_set_velocity_a clock s0 s0 id il _ _ _ _ _
              (PFloat (l / Rmax (Rabs l) (Rabs r))) _
              Hadm0 Hba Hbb eq_refl)
    as (s1 & Hleft & Hat1 & _).
  pose proof (admitted_known clock s1 id "velocity_b" _ _ _ _ _ Hat1
                (or_intror (or_intror (or_intror eq_refl)))) as Hadm1.
  destruct (motor_set_velocity_b clock s1 s1 id ir _ _ _ _ _
              (PFloat (r / Rmax (Rabs l) (Rabs r))) _
              Hadm1 Hbl Hbb eq_refl)
    as (s2 & Hright & Hat2 & _).
  exists s2. do 3 eexists.
  split; [| split; [exact Hat2 | auto]].
  pose proof (no_stop_time_bounds
                (LRStruct.left (TestChassis._actual_motor_velocity c)) l
                _ _ Ha Hv) as [Htl _].
  pose proof (no_stop_time_bounds
                (LRStruct.right (TestChassis._actual_motor_velocity c)) r
                _ _ Ha Hv) as [Htr _].
  unfold TestChassis._update_motors.
  mstep. cbn [fst].
  rewrite (proj2 (Nat.eqb_neq _ _) Hlen).
  mstep by (apply estimate_travel_time_no_stop; exact Ha).
  mstep by (apply estimate_travel_time_no_stop; exact Ha).
  rewrite Hstart.
  mstep.
  mstep by reflexivity.
  cbn [fst snd].
  rewrite bool_decide_eq_false_2.
  2:{ pose proof (Rmin_glb _ _ _ Htl Htr). lra. }
  erewrite bind_ok.
  2:{ rewrite fdiv_ok by exact Hmax.
      mstep.
      mstep by (unfold TestChassis.on_robot, zoom; cbn [fst snd];
                rewrite Hmotors; cbn [LRStruct.left];
                fold s0; rewrite Hleft; reflexivity).
      rewrite fdiv_ok by exact Hmax.
      mstep.
      mstep by (unfold TestChassis.on_robot, zoom; cbn [fst snd];
                rewrite Hmotors; cbn [LRStruct.right];
                rewrite Hright; reflexivity).
      reflexivity. }
  cbv beta. unfold ret.
  rewrite bool_decide_eq_true_2; [reflexivity |].
  pose proof (Rmin_glb _ _ _ Htl Htr). lra.
Qed.

End NormalisedDrive.

Section ChassisWitnesses.

Import MockRobot BaseQueuedChassis.

Local Open Scope R_scope.

Lemma quad_update_never_returns_witness :
  _queue (QuadChassis._base (Bench.quad_chassis [] true)) = []
  /\ _is_idle (QuadChassis._base (Bench.quad_chassis [] true)) = true
  /\ update (variant := QuadChassis.variant (runtime := Bench.runtime)
                          spec_progress_guard)
       (Bench.quad_chassis [] true, Bench.robot)
     = (Raise AttributeError, (Bench.quad_chassis [] true, Bench.robot)).
Proof.
  split; [reflexivity |]. split; [reflexivity |].
  exact (proj2 (quad_update_never_returns (runtime := Bench.runtime)
                  spec_progress_guard (Bench.quad_chassis [] true)
                  Bench.robot)
           eq_refl eq_refl).
Defined.

Lemma test_chassis_cannot_finish_witness :
  _queue (TestChassis._base (Bench.test_chassis [] false (Some 0))) = []
  /\ _is_idle (TestChassis._base (Bench.test_chassis [] false (Some 0)))
     = false
  /\ update (variant := TestChassis.variant (runtime := Bench.runtime))
       (Bench.test_chassis [] false (Some 0), Bench.robot)
     = (Raise AttributeError,
        (Bench.test_chassis [] false (Some 0), Bench.robot)).
Proof.
  split; [reflexivity |]. split; [reflexivity |].
  exact (test_chassis_cannot_finish (runtime := Bench.runtime)
           (Bench.test_chassis [] false (Some 0)) Bench.robot
           eq_refl eq_refl).
Defined.

Lemma base_chassis_update_not_implemented_witness :
  let b := BaseQueuedChassis.mk [Bench.unit_turn] (0, 0) 0 true in
  update (variant := abstract_chassis) (b, Bench.robot)
  = (Raise NotImplementedError, (set_is_idle false b, Bench.robot))
  /\ update_input (T := fields) (b, Bench.robot)
     = (Raise NotImplementedError, (b, Bench.robot)).
Proof.
  intros b.
  exact (base_chassis_update_not_implemented b Bench.robot Bench.unit_turn
           [] eq_refl).
Defined.

(** The driven robot holds the controller ["koala_bear"], at rest. *)
Lemma driven_robot_holds :
  koalabear_at Bench.driven_robot "koala_bear" (Bench.clock 1) 0 0 0 0
  /\ clock_reads Bench.driven_robot = 2%nat.
Proof.
  assert (Hb : Rabs 0.0 <= 1) by (rewrite Rabs_pos_eq; lra).
  pose proof (check_property_creates Bench.clock Bench.robot "koala_bear"
                "velocity_a" 1 0 eq_refl eq_refl eq_refl eq_refl eq_refl)
    as Hcheck.
  pose proof (get_value_checked Bench.clock Bench.robot _ "koala_bear"
                "velocity_a" _ _ _ _ _ _ (PFloat 0.0) Hcheck
                (lookup_insert_eq _ _ _) (lookup_insert_eq _ _ _)
                (created_koalabear (Bench.clock 0)) Hb Hb eq_refl) as Hrun.
  unfold Bench.driven_robot. rewrite Hrun. cbn [snd].
  split; [| reflexivity].
  eapply koalabear_at_eq.
  - eexists. split; [apply accessed_lookup |].
    split; [apply accessed_type; apply lookup_insert_eq |].
    apply integrate_koalabear, created_koalabear.
  - reflexivity.
  - lra.
  - lra.
  - lra.
  - lra.
Qed.

Lemma bench_clock_nonneg (n : nat) : 0 <= Bench.clock n.
Proof. apply pos_INR. Qed.

Lemma bench_max_turn :
  Rmax (Rabs (1 / TestChassis._wheelspan (ext := Bench.externals) / 2))
       (Rabs (- (1 / TestChassis._wheelspan (ext := Bench.externals) / 2)))
  <> 0.
Proof.
  assert (Hl : 0 < 1 / TestChassis._wheelspan (ext := Bench.externals) / 2).
  { unfold TestChassis._wheelspan. cbn [inches_to_meters Bench.externals].
    unfold Bench.inches_to_meters.
    apply Rdiv_lt_0_compat; [| lra].
    apply Rdiv_lt_0_compat; lra. }
  rewrite Rabs_Ropp, Rmax_left by lra.
  rewrite Rabs_pos_eq; lra.
Qed.

Lemma test_chassis_drives_normalised_witness :
  let c := Bench.test_chassis [Bench.unit_turn; Bench.unit_turn] false
             (Some 0) in
  let l := 1 / TestChassis._wheelspan (ext := Bench.externals) / 2 in
  exists (s' : t) (t1 xa' xb' : R),
    TestChassis._update_motors (runtime := Bench.runtime) l (- l)
      (c, Bench.driven_robot)
    = (Ok true, (c, s'))
    /\ koalabear_at s' "koala_bear" t1
         (l / Rmax (Rabs l) (Rabs (- l))) (- l / Rmax (Rabs l) (Rabs (- l)))
         xa' xb'.
Proof.
  intros c l.
  destruct driven_robot_holds as [Hat Hreads].
  assert (Hb : Rabs 0 <= 1) by (rewrite Rabs_R0; lra).
  assert (Hlen : length (_queue (TestChassis._base c)) <> 1%nat)
    by (cbn; lia).
  destruct (test_chassis_drives_normalised Bench.clock l (- l) c
              Bench.driven_robot "koala_bear" false true
              (Bench.clock 1) 0 0 0 0 eq_refl Hlen
              light_chassis_acceleration
              (Rlt_le _ _ light_chassis_velocity) eq_refl
              (bench_clock_nonneg _) bench_max_turn Hat Hb Hb)
    as (s' & t1 & xa' & xb' & Hrun & Hat' & _).
  exists s', t1, xa', xb'. split; [exact Hrun | exact Hat'].
Defined.

Lemma test_chassis_motion_never_completes_witness :
  let c := Bench.test_chassis [Bench.unit_turn; Bench.unit_turn] true None in
  exists s' : TestChassis.t * MockRobot.t,
    update (variant := TestChassis.variant (runtime := Bench.runtime))
      (c, Bench.driven_robot)
    = (Ok tt, s')
    /\ _queue (TestChassis._base (fst s'))
       = [Bench.unit_turn; Bench.unit_turn]
    /\ _is_idle (TestChassis._base (fst s')) = false.
Proof.
  intros c.
  destruct driven_robot_holds as [Hat Hreads].
  assert (Hb : Rabs 0 <= 1) by (rewrite Rabs_R0; lra).
  set (c1 := Bench.test_chassis [Bench.unit_turn; Bench.unit_turn] false
               (Some 0)).
  assert (Hlen : length (_queue (TestChassis._base c1)) <> 1%nat)
    by (cbn; lia).
  set (l := 1 / TestChassis._wheelspan (ext := Bench.externals) / 2).
  destruct (test_chassis_drives_normalised Bench.clock l (- l) c1
              Bench.driven_robot "koala_bear" false true
              (Bench.clock 1) 0 0 0 0 eq_refl Hlen
              light_chassis_acceleration
              (Rlt_le _ _ light_chassis_velocity) eq_refl
              (bench_clock_nonneg _) bench_max_turn Hat Hb Hb)
    as (s3 & t1 & xa' & xb' & Hmotors & _).
  assert (Hspan : 0 < TestChassis._wheelspan (ext := Bench.externals)).
  { unfold TestChassis._wheelspan. cbn [inches_to_meters Bench.externals].
    unfold Bench.inches_to_meters. lra. }
  assert (Hm : motion_update
                 (variant := TestChassis.variant (runtime := Bench.runtime))
                 Bench.unit_turn (test_started c, Bench.driven_robot)
               = (Ok true, (c1, s3))).
  { unfold motion_update. cbn [QueuedMotion._update Bench.unit_turn].
    cbn [_update_turn TestChassis.variant].
    unfold TestChassis._update_turn.
    rewrite (test_turn_distances 1 Hspan).
    mstep. cbn [fst snd]. exact Hmotors. }
  pose proof (test_update_running (runtime := Bench.runtime) c
                Bench.driven_robot Bench.unit_turn [Bench.unit_turn]
                (c1, s3) eq_refl Hm) as Hrun.
  exists (c1, s3). split; [exact Hrun |].
  refine (test_chassis_motion_never_completes (runtime := Bench.runtime)
            c Bench.driven_robot Bench.unit_turn [Bench.unit_turn] (c1, s3)
            eq_refl _ light_chassis_acceleration
            (Rlt_le _ _ light_chassis_velocity) _ _ Hrun).
  - intros p. discriminate.
  - intros Hidle. discriminate Hidle.
  - intros now w1 Hclock. cbn in Hclock. injection Hclock as <- _.
    apply bench_clock_nonneg.
Defined.

Lemma teleop_input_is_not_clamped_witness :
  exists (s' : t) (t1 xa' xb' : R),
    TestChassis.update_input (runtime := Bench.runtime) 1 1 0.5
      (Bench.light_chassis, Bench.driven_robot)
    = (Raise ValueError, (Bench.light_chassis, s'))
    /\ koalabear_at s' "koala_bear" t1 (1 + 0.5) 0 xa' xb'.
Proof.
  destruct driven_robot_holds as [Hat Hreads].
  assert (Hb : Rabs 0 <= 1) by (rewrite Rabs_R0; lra).
  destruct (teleop_input_is_not_clamped Bench.clock Bench.light_chassis
              Bench.driven_robot "koala_bear" false true
              (Bench.clock 1) 0 0 0 0 1 1 0.5 eq_refl Hat Hb Hb)
    as (s' & t1 & xa' & xb' & _ & Hout).
  exists s', t1, xa', xb'.
  apply Hout. rewrite Rabs_pos_eq; lra.
Defined.

End ChassisWitnesses.

(* ===================================================================== *)
(** ** The estimated time, as a function of the distance *)
(* ===================================================================== *)

Section EstimatedTime.

Context {W : Type} {runtime : Runtime W} {ext : Externals W}.

Local Open Scope R_scope.

(** X21.  The time that [_estimate_travel_time] returns when no stop is asked
    for depends on the magnitude of the distance only, does not decrease when
    the distance grows, and is capped: it is at most the maximal velocity
    divided by the maximal acceleration, and equal to it for every distance at
    which [v_i + sqrt(v_i^2 + 2*a*|d|)] reaches the maximal velocity.  The
    current velocity has a square in the range of floats ([v_i ** 2] raises
    [OverflowError] on others) and the double of the acceleration is a
    float. *)
Theorem estimated_time_saturates (c : TestChassis.t) (w : W)
    (v_i d d' : R) :
  0 < TestChassis._max_acceleration c ->
  0 <= TestChassis._max_velocity c ->
  Rabs v_i <= square_max ->
  2 * TestChassis._max_acceleration c <= float_max ->
  let a := TestChassis._max_acceleration c in
  let v_max := TestChassis._max_velocity c in
  exists t t' : R,
    TestChassis._estimate_travel_time v_i d false (c, w)
    = (Ok (t, t), (c, w))
    /\ TestChassis._estimate_travel_time v_i (- d) false (c, w)
       = (Ok (t, t), (c, w))
    /\ TestChassis._estimate_travel_time v_i d' false (c, w)
       = (Ok (t', t'), (c, w))
    /\ t <= v_max / a
    /\ (v_max <= v_i + sqrt (v_i ^ 2 + 2 * a * Rabs d) -> t = v_max / a)
    /\ (Rabs d <= Rabs d' -> t <= t').
Proof.
  intros Ha Hv _ _ a v_max.
  eexists. eexists.
  split; [apply estimate_travel_time_no_stop; exact Ha |].
  split.
  { rewrite (estimate_travel_time_no_stop c w v_i (- d) Ha).
    rewrite Rabs_Ropp. reflexivity. }
  split; [apply estimate_travel_time_no_stop; exact Ha |].
  subst a v_max.
  assert (Hinv : 0 < / TestChassis._max_acceleration c)
    by (apply Rinv_0_lt_compat; exact Ha).
  split; [| split].
  - apply (no_stop_time_bounds v_i d _ _ Ha Hv).
  - intros Hreach. rewrite Rmin_right by exact Hreach. reflexivity.
  - intros Hfar. unfold Rdiv. apply Rmult_le_compat_r; [lra |].
    apply Rle_min_compat_r. apply Rplus_le_compat_l.
    apply sqrt_le_1_alt. apply Rplus_le_compat_l.
    apply Rmult_le_compat_l; [lra | exact Hfar].
Qed.

End EstimatedTime.

(* ===================================================================== *)
(** ** Queueing motions *)
(* ===================================================================== *)

Section Queueing.

Import BaseQueuedChassis.

Context {W : Type} {runtime : Runtime W} {ext : Externals W}.
Context {T : Type} {variant : Variant T}.

Hypothesis base_with_base :
  forall (b : fields) (c : T), base (with_base b c) = b.

Local Open Scope R_scope.

Lemma assign_runs (f : fields -> fields) (s : T * W) :
  exists s1 : T * W,
    assign f s = (Ok tt, s1)
    /\ base (fst s1) = f (base (fst s))
    /\ snd s1 = snd s.
Proof.
  eexists. split; [reflexivity |]. cbn [fst snd].
  split; [apply base_with_base | reflexivity].
Qed.

Lemma turn_runs (angle : R) (s : T * W) :
  exists s1 : T * W,
    turn angle s = (Ok tt, s1)
    /\ base (fst s1)
       = mk (_queue (base (fst s))
               ++ [QueuedMotion.mk (QueuedMotion.Turn angle) None])
            (_position (base (fst s)))
            (_angle (base (fst s)) + angle)
            (_is_idle (base (fst s)))
    /\ snd s1 = snd s.
Proof.
  unfold turn, enqueue.
  destruct (assign_runs
              (fun b => set_queue
                          (_queue b
                             ++ [QueuedMotion.mk (QueuedMotion.Turn angle)
                                   None]) b) s)
    as (s0 & Hrun0 & Hb0 & Hw0).
  destruct (assign_runs (fun b => set_angle (_angle b + angle) b) s0)
    as (s1 & Hrun1 & Hb1 & Hw1).
  exists s1. split; [| split].
  - mstep by (exact Hrun0). exact Hrun1.
  - rewrite Hb1, Hb0. reflexivity.
  - congruence.
Qed.

Lemma orient_runs (angle : R) (s : T * W) :
  exists s1 : T * W,
    orient angle s = (Ok tt, s1)
    /\ base (fst s1)
       = mk (_queue (base (fst s))
               ++ [QueuedMotion.mk
                     (QueuedMotion.Turn (angle - _angle (base (fst s))))
                     None])
            (_position (base (fst s))) angle (_is_idle (base (fst s)))
    /\ snd s1 = snd s.
Proof.
  destruct (turn_runs (angle - _angle (base (fst s))) s)
    as (s0 & Hrun0 & Hb0 & Hw0).
  destruct (assign_runs (set_angle angle) s0) as (s1 & Hrun1 & Hb1 & Hw1).
  exists s1. split; [| split].
  - unfold orient. mstep.
    mstep by (exact Hrun0). exact Hrun1.
  - rewrite Hb1, Hb0. reflexivity.
  - congruence.
Qed.

(** X22.  The four methods that queue a motion return, add one motion at the
    back of the queue and touch neither the idle flag nor the robot. [turn]
    adds the angle to the heading and [orient] sets the heading, queueing the
    turn that leads to it from the heading recorded before; [move] records the
    new position and leaves the heading as it is, whatever angle it is given;
    [peripheral_action] changes the queue only. *)
Theorem queueing_a_motion (s : T * W) (angle : R) (end_pos : R * R)
    (p : peripheral) (f : action) :
  let b := base (fst s) in
  (exists s1 : T * W,
      turn angle s = (Ok tt, s1)
      /\ base (fst s1)
         = mk (_queue b ++ [QueuedMotion.mk (QueuedMotion.Turn angle) None])
              (_position b) (_angle b + angle) (_is_idle b)
      /\ snd s1 = snd s)
  /\ (exists s1 : T * W,
        orient angle s = (Ok tt, s1)
        /\ base (fst s1)
           = mk (_queue b
                   ++ [QueuedMotion.mk
                         (QueuedMotion.Turn (angle - _angle b)) None])
                (_position b) angle (_is_idle b)
        /\ snd s1 = snd s)
  /\ (exists s1 : T * W,
        move end_pos angle s = (Ok tt, s1)
        /\ base (fst s1)
           = mk (_queue b
                   ++ [QueuedMotion.mk
                         (QueuedMotion.Move
                            (path_Path (_position b) end_pos angle))
                         None])
                end_pos (_angle b) (_is_idle b)
        /\ snd s1 = snd s)
  /\ (exists s1 : T * W,
        peripheral_action p f s = (Ok tt, s1)
        /\ base (fst s1)
           = mk (_queue b
                   ++ [QueuedMotion.mk (QueuedMotion.PeripheralAction p)
                         (Some f)])
                (_position b) (_angle b) (_is_idle b)
        /\ snd s1 = snd s).
Proof.
  intros b. split; [| split; [| split]].
  - apply turn_runs.
  - apply orient_runs.
  - unfold move, enqueue.
    destruct (assign_runs
                (fun b0 =>
                   set_queue
                     (_queue b0
                        ++ [QueuedMotion.mk
                              (QueuedMotion.Move
                                 (path_Path (_position b) end_pos angle))
                              None]) b0) s)
      as (s0 & Hrun0 & Hb0 & Hw0).
    destruct (assign_runs (set_position end_pos) s0)
      as (s1 & Hrun1 & Hb1 & Hw1).
    exists s1. split; [| split].
    + mstep. fold b. mstep by (exact Hrun0). exact Hrun1.
    + rewrite Hb1, Hb0. reflexivity.
    + congruence.
  - unfold peripheral_action, enqueue.
    destruct (assign_runs
                (fun b0 =>
                   set_queue
                     (_queue b0
                        ++ [QueuedMotion.mk (QueuedMotion.PeripheralAction p)
                              (Some f)]) b0) s)
      as (s1 & Hrun1 & Hb1 & Hw1).
    exists s1. split; [exact Hrun1 |]. split; [| exact Hw1].
    rewrite Hb1. reflexivity.
Qed.

(** X23.  Orienting to a heading twice queues, the second time, a turn by
    zero: the turn that [update()] cannot carry out. *)
Theorem orient_twice_queues_zero_turn (s : T * W) (angle : R) :
  exists (s1 s2 : T * W) (zero : R),
    orient angle s = (Ok tt, s1)
    /\ orient angle s1 = (Ok tt, s2)
    /\ _queue (base (fst s2))
       = (_queue (base (fst s))
            ++ [QueuedMotion.mk
                  (QueuedMotion.Turn (angle - _angle (base (fst s)))) None;
                QueuedMotion.mk (QueuedMotion.Turn zero) None])%list
    /\ zero = 0
    /\ _angle (base (fst s2)) = angle.
Proof.
  destruct (orient_runs angle s) as (s1 & Hrun1 & Hb1 & _).
  destruct (orient_runs angle s1) as (s2 & Hrun2 & Hb2 & _).
  exists s1, s2, (angle - _angle (base (fst s1))).
  split; [exact Hrun1 |]. split; [exact Hrun2 |].
  split; [| split].
  - rewrite Hb2, Hb1. cbn [_queue _angle].
    rewrite <- app_assoc. reflexivity.
  - rewrite Hb1. cbn [_angle]. lra.
  - rewrite Hb2. reflexivity.
Qed.

End Queueing.

(* ===================================================================== *)
(** ** Peripheral actions on the test chassis *)
(* ===================================================================== *)

Section PeripheralActions.

Import BaseQueuedChassis.

Context {W : Type} {runtime : Runtime W} {ext : Externals W}.

Lemma test_peripheral_motion (head : QueuedMotion.t) (p : peripheral)
    (c : TestChassis.t) (w : W) :
  QueuedMotion._update head = QueuedMotion.PeripheralAction p ->
  motion_update (variant := TestChassis.variant) head (c, w)
  = (fst (peripheral_update p w), (c, snd (peripheral_update p w))).
Proof.
  intros Hp. unfold motion_update. rewrite Hp.
  cbn [_update_peripheral TestChassis.variant].
  unfold TestChassis._update_peripheral, TestChassis.on_robot, zoom.
  cbn [fst snd]. destruct (peripheral_update p w); reflexivity.
Qed.

Lemma bind_ret_unit {S : Type} (m : M S unit) (s : S) :
  bind m (fun _ => ret tt) s = m s.
Proof. unfold bind, ret. destruct (m s) as [[[] | e] s1]; reflexivity. Qed.

(** The update of a [TestChassis] whose front motion has finished: the
    motion is popped, and the motion behind it, if there is one, is started
    and set up. *)
Lemma test_update_finished (c : TestChassis.t) (w w1 : W)
    (head : QueuedMotion.t) (rest : list QueuedMotion.t) :
  _queue (TestChassis._base c) = head :: rest ->
  motion_update (variant := TestChassis.variant) head (test_started c, w)
  = (Ok false, (test_started c, w1)) ->
  update (variant := TestChassis.variant) (c, w)
  = match rest with
    | [] =>
        (Ok tt,
         (TestChassis.set_base
            (set_queue [] (TestChassis._base (test_started c)))
            (test_started c), w1))
    | next :: _ =>
        motion_setup (T := TestChassis.t) next
          (TestChassis.set_motion_start_timestamp 0
             (TestChassis.set_base
                (set_queue rest (TestChassis._base (test_started c)))
                (test_started c)), w1)
    end.
Proof.
  intros Hq Hm.
  pose proof (test_update_first c w head rest Hq) as Hfirst.
  assert (Hq1 : _queue (TestChassis._base (test_started c)) = head :: rest)
    by (rewrite test_started_queue; exact Hq).
  unfold update. mstep. mstep by (exact Hfirst). mstep.
  cbn [fst base TestChassis.variant]. rewrite Hq1.
  rewrite bool_decide_eq_false_2 by discriminate. cbn [negb].
  mstep by (mstep by (eapply front_runs; exact Hq1);
            mstep by (exact Hm); reflexivity).
  cbn [negb].
  assert (Hpop :
    pop_front (variant := TestChassis.variant) (test_started c, w1)
    = (Ok tt,
       (TestChassis.set_base
          (set_queue rest (TestChassis._base (test_started c)))
          (test_started c), w1))).
  { unfold pop_front. mstep. cbn [fst base TestChassis.variant].
    rewrite Hq1. reflexivity. }
  cbn [_on_post_update TestChassis.variant].
  unfold TestChassis._on_post_update.
  rewrite bind_ret_unit.
  mstep by (exact Hpop). mstep.
  cbn [fst base TestChassis.variant TestChassis.set_base TestChassis._base
       set_queue _queue].
  destruct rest as [| next rest']; [reflexivity |].
  rewrite bool_decide_eq_false_2 by discriminate. cbn [negb].
  mstep by (eapply front_runs; reflexivity).
  mstep by reflexivity.
  mstep by (eapply front_runs; reflexivity).
  reflexivity.
Qed.

(** X24.  The closure handed to [peripheral_action] is called when a pop
    brings the action to the front of the queue, and only then. For an action
    that is alone in the queue of a [TestChassis], [update()] asks the
    peripheral whether it is still at work and does nothing else to the robot:
    the closure is not called. When the action at the front has finished and
    another motion is queued behind it, that motion becomes the front, its
    start is stamped and its closure, if it has one, is called on the robot
    the peripheral has left. *)
Theorem action_runs_after_a_pop_only (c : TestChassis.t) (w : W)
    (head : QueuedMotion.t) (p : peripheral) :
  QueuedMotion._update head = QueuedMotion.PeripheralAction p ->
  (_queue (TestChassis._base c) = [head] ->
   fst (update (variant := TestChassis.variant) (c, w))
   = match fst (peripheral_update p w) with
     | Ok _ => Ok tt
     | Raise e => Raise e
     end
   /\ snd (snd (update (variant := TestChassis.variant) (c, w)))
      = snd (peripheral_update p w))
  /\ (forall (next : QueuedMotion.t) (rest : list QueuedMotion.t) (w1 : W),
        _queue (TestChassis._base c) = head :: next :: rest ->
        peripheral_update p w = (Ok false, w1) ->
        exists c' : TestChassis.t,
          _queue (TestChassis._base c') = next :: rest
          /\ TestChassis._motion_start_timestamp c' = Some 0%R
          /\ update (variant := TestChassis.variant) (c, w)
             = match QueuedMotion._setup_func next with
               | Some f => (fst (run_action f w1), (c', snd (run_action f w1)))
               | None => (Ok tt, (c', w1))
               end).
Proof.
  intros Hp.
  pose proof (test_peripheral_motion head p (test_started c) w Hp) as Hm.
  split.
  - intros Hq.
    destruct (peripheral_update p w) as [[running | e] w1] eqn:Hrun;
      cbn [fst snd] in Hm |- *.
    + destruct running.
      * rewrite (test_update_running c w head [] _ Hq Hm).
        split; reflexivity.
      * rewrite (test_update_finished c w w1 head [] Hq Hm).
        split; reflexivity.
    + rewrite (update_front_raises (variant := TestChassis.variant)
                 (c, w) (test_started c, w) _ head [] e
                 (test_update_first c w head [] Hq)
                 (eq_trans (test_started_queue c) Hq) Hm).
      split; reflexivity.
  - intros next rest w1 Hq Hrun.
    rewrite Hrun in Hm. cbn [fst snd] in Hm.
    rewrite (test_update_finished c w w1 head (next :: rest) Hq Hm).
    exists (TestChassis.set_motion_start_timestamp 0
              (TestChassis.set_base
                 (set_queue (next :: rest)
                    (TestChassis._base (test_started c)))
                 (test_started c))).
    split; [reflexivity |]. split; [reflexivity |].
    unfold motion_setup, on_world, zoom.
    destruct (QueuedMotion._setup_func next) as [f |]; [| reflexivity].
    cbn [fst snd]. destruct (run_action f w1); reflexivity.
Qed.

End PeripheralActions.

(* ===================================================================== *)
(** ** The hand *)
(* ===================================================================== *)

Section HandLaws.

Context {W : Type} {runtime : Runtime W}.

Local Open Scope R_scope.

(** The position [update_input] moves to is a float. *)
Lemma hand_step (position hand_status : pyval) (x y : R) :
  num_val position = Some x ->
  num_val hand_status = Some y ->
  exists step : pyval,
    py_mul hand_status Hand._move_increment = Ok step
    /\ py_add position step = Ok (PFloat (x + y * (5 / 90))).
Proof.
  intros Hx Hy. exists (PFloat (y * (5 / 90))).
  unfold py_mul, py_add, arith, Hand._move_increment. split.
  - destruct hand_status; try discriminate; cbn in *;
      injection Hy as <-; reflexivity.
  - destruct position; try discriminate; cbn in *;
      injection Hx as <-; reflexivity.
Qed.

(** X27.  [update_input] moves the servo by [hand_status] times the increment
    [5/90] from the position the hand remembers, and remembers the new
    position once the robot has accepted it: when the robot refuses, the hand
    is as it was. [open] and [close] position the servo and leave the
    remembered position alone, so that the next [update_input] starts from
    where the hand was before it was opened or closed.  The position and
    the status are numbers in the range of floats: the product and the sum
    raise [OverflowError] on an [int] beyond it. *)
Theorem hand_moves_from_remembered_position (h : Hand.t) (w : W)
    (hand_status : pyval) (x y : R) :
  num_val (Hand._position h) = Some x ->
  num_val hand_status = Some y ->
  float_range (Hand._position h) ->
  float_range hand_status ->
  let pos := PFloat (x + y * (5 / 90)) in
  let moved := Servo.set_position (Hand._servo h) pos w in
  Hand.update_input hand_status (h, w)
  = (fst moved,
     (match fst moved with
      | Ok _ => Hand.set_position_attr pos h
      | Raise _ => h
      end, snd moved))
  /\ Hand.open (h, w)
     = (fst (Servo.set_position (Hand._servo h) (PFloat 0.5) w),
        (h, snd (Servo.set_position (Hand._servo h) (PFloat 0.5) w)))
  /\ Hand.close (h, w)
     = (fst (Servo.set_position (Hand._servo h) (PFloat (-0.5)) w),
        (h, snd (Servo.set_position (Hand._servo h) (PFloat (-0.5)) w))).
Proof.
  intros Hx Hy _ _ pos moved.
  destruct (hand_step _ _ x y Hx Hy) as (step & Hstep & Hpos).
  split; [| split].
  - unfold Hand.update_input.
    mstep. cbn [fst].
    mstep by (unfold lift; rewrite Hstep; reflexivity).
    mstep by (unfold lift; rewrite Hpos; reflexivity).
    unfold Hand._move_to, bind, Hand.self, Hand.on_robot, zoom, Hand.assign,
      modify.
    cbn [fst snd]. fold pos. fold moved.
    destruct moved as [[[] | e] w']; reflexivity.
  - unfold Hand.open, bind, Hand.self, Hand.on_robot, zoom. cbn [fst snd].
    destruct (Servo.set_position (Hand._servo h) (PFloat 0.5) w);
      reflexivity.
  - unfold Hand.close, bind, Hand.self, Hand.on_robot, zoom. cbn [fst snd].
    destruct (Servo.set_position (Hand._servo h) (PFloat (-0.5)) w);
      reflexivity.
Qed.

End HandLaws.

Section HandOnMockRobot.

Import MockRobot.

Variable clock : nat -> R.

Local Open Scope R_scope.

(** X28.  A hand on the simulated robot: [update_input] stores the new
    position in the servo controller and the robot reads it back, whatever the
    position is; neither the hand nor the robot bounds it. The clock is not
    read.  The position remembered and the status are numbers in the range
    of floats. *)
Theorem hand_position_is_unbounded (h : Hand.t) (s : t)
    (id index : string) (dev : gmap string pyval) (current hand_status : pyval)
    (x y : R) :
  Hand._servo h = Servo.mk id index ->
  _devices s !! id = Some dev ->
  _device_types s !! id = Some "servocontroller" ->
  dev !! ("servo" ++ index) = Some current ->
  type_of current = FloatType ->
  num_val (Hand._position h) = Some x ->
  num_val hand_status = Some y ->
  float_range (Hand._position h) ->
  float_range hand_status ->
  let pos := PFloat (x + y * (5 / 90)) in
  exists s' : t,
    Hand.update_input (runtime := MockRobot.runtime clock) hand_status (h, s)
    = (Ok tt, (Hand.set_position_attr pos h, s'))
    /\ get_value clock id ("servo" ++ index) s' = (Ok pos, s')
    /\ clock_reads s' = clock_reads s.
Proof.
  intros Hservo Hd Hty Hcur Hfloat Hx Hy _ _ pos. subst pos.
  destruct (hand_step _ _ x y Hx Hy) as (step & Hstep & Hpos).
  assert (Hne : "servocontroller" <> "koalabear") by discriminate.
  pose proof (plain_device_write clock s id ("servo" ++ index)
                "servocontroller" dev current (PFloat (x + y * (5 / 90)))
                Hd Hty Hne Hcur Hfloat)
    as Hwrite.
  cbn [coerce] in Hwrite.
  eexists. split; [| split].
  - unfold Hand.update_input.
    mstep. cbn [fst].
    mstep by (unfold lift; rewrite Hstep; reflexivity).
    mstep by (unfold lift; rewrite Hpos; reflexivity).
    unfold Hand._move_to.
    mstep. cbn [fst].
    mstep by (unfold Hand.on_robot, zoom, Servo.set_position;
              cbn [fst snd robot_set_value MockRobot.runtime];
              rewrite Hservo; cbn [Servo._controller Servo._servo];
              rewrite Hwrite; reflexivity).
    reflexivity.
  - eapply plain_device_read with (ty := "servocontroller").
    + destruct s; cbn. apply lookup_insert_eq.
    + destruct s; cbn in *. exact Hty.
    + exact Hne.
    + apply lookup_insert_eq.
  - destruct s; reflexivity.
Qed.

End HandOnMockRobot.

(* ===================================================================== *)
(** ** Configuring a motor *)
(* ===================================================================== *)

Section ConfiguringOnMockRobot.

Import MockRobot.

Variable clock : nat -> R.

Local Open Scope R_scope.

Lemma setting_write_checked (s s1 : t) (id key : string)
    (dev : gmap string pyval) (current value : pyval) :
  _check_property clock id key s = (Ok tt, s1) ->
  controller s1 id dev ->
  setting key ->
  dev !! key = Some current ->
  type_of current = type_of (coerce current value) ->
  exists (s' : t) (dev' : gmap string pyval),
    set_value clock id key value s = (Ok tt, s')
    /\ controller s' id dev'
    /\ dev' !! key = Some (coerce current value)
    /\ (forall k : string, setting k -> k <> key -> dev' !! k = dev !! k)
    /\ _device_counts s' = _device_counts s1.
Proof.
  intros Hcheck (Hd & Hty & t0 & va & vb & xa & xb & Hkb & Hba & Hbb)
    (Hint & Hna & Hnb) Hcur Htype.
  assert (Hkey : key <> "enc_a" /\ key <> "enc_b" /\ key <> "_LAST_UPDATED")
    by (unfold integrated in Hint; tauto).
  destruct Hkey as (Hnea & Hneb & Hnl).
  set (dev1 := integrate (clock (clock_reads s1)) t0 va vb xa xb dev).
  assert (Hcur1 : dev1 !! key = Some current).
  { unfold dev1. rewrite integrate_other by assumption. exact Hcur. }
  exists (accessed s1 id (<[key := coerce current value]> dev1)).
  exists (<[key := coerce current value]> dev1).
  split; [eapply set_value_checked; eassumption |].
  split; [| split; [apply lookup_insert_eq | split]].
  - split; [apply accessed_lookup |].
    split; [apply accessed_type; exact Hty |].
    do 5 eexists. split; [| split; [exact Hba | exact Hbb]].
    apply koalabear_other; try assumption.
    apply integrate_koalabear. exact Hkb.
  - intros k (Hk & _ & _) Hne.
    rewrite lookup_insert_ne by congruence.
    unfold dev1. apply integrate_other; unfold integrated in Hk; tauto.
  - unfold accessed. destruct s1; reflexivity.
Qed.

Lemma setting_write (s : t) (id key : string) (dev : gmap string pyval)
    (current value : pyval) :
  controller s id dev ->
  setting key ->
  dev !! key = Some current ->
  type_of current = type_of (coerce current value) ->
  exists (s' : t) (dev' : gmap string pyval),
    set_value clock id key value s = (Ok tt, s')
    /\ controller s' id dev'
    /\ dev' !! key = Some (coerce current value)
    /\ (forall k : string, setting k -> k <> key -> dev' !! k = dev !! k)
    /\ _device_counts s' = _device_counts s.
Proof.
  intros Hc Hset Hcur Htype.
  eapply setting_write_checked; try eassumption.
  destruct Hc as (Hd & _).
  eapply check_property_known; [exact Hd | rewrite Hcur; eauto].
Qed.

Lemma setting_pid (key : string) :
  key = "pid_enabled_a" \/ key = "pid_kp_a" \/ key = "pid_ki_a"
  \/ key = "pid_kd_a" \/ key = "invert_a" \/ key = "invert_b"
  \/ key = "pid_enabled_b" ->
  setting key.
Proof.
  intros H. unfold setting, integrated.
  repeat (destruct H as [-> | H] || subst key);
    (split; [intros [H' | [H' | H']]; discriminate | split; discriminate]).
Qed.

(** X15.  [set_pid] writes the gains that are true in a condition, so that a
    gain of zero is not written: with a proportional gain that is [None], [0]
    or [0.0] and the two other gains different from zero, the controller turns
    the PID on, stores the two gains and keeps the proportional gain it had.
    With three such gains the PID is turned off and no gain is written. *)
Theorem zero_gain_is_not_written (s : t) (id : string) (inverted : bool)
    (dev : gmap string pyval) (p i d : pyval) (enabled : bool)
    (ki kd xi xd : R) :
  controller s id dev ->
  dev !! "pid_enabled_a" = Some (PBool enabled) ->
  dev !! "pid_ki_a" = Some (PFloat ki) ->
  dev !! "pid_kd_a" = Some (PFloat kd) ->
  py_truthy p = false ->
  let m := Motor.mk id "a" inverted in
  (i = PFloat xi -> d = PFloat xd -> xi <> 0 -> xd <> 0 ->
   exists (s' : t) (dev' : gmap string pyval),
     Motor.set_pid (runtime := MockRobot.runtime clock) m p i d s
     = (Ok m, s')
     /\ controller s' id dev'
     /\ dev' !! "pid_enabled_a" = Some (PBool true)
     /\ dev' !! "pid_kp_a" = dev !! "pid_kp_a"
     /\ dev' !! "pid_ki_a" = Some (PFloat xi)
     /\ dev' !! "pid_kd_a" = Some (PFloat xd))
  /\ (py_truthy i = false -> py_truthy d = false ->
      exists (s' : t) (dev' : gmap string pyval),
        Motor.set_pid (runtime := MockRobot.runtime clock) m p i d s
        = (Ok m, s')
        /\ controller s' id dev'
        /\ dev' !! "pid_enabled_a" = Some (PBool false)
        /\ dev' !! "pid_kp_a" = dev !! "pid_kp_a"
        /\ dev' !! "pid_ki_a" = Some (PFloat ki)
        /\ dev' !! "pid_kd_a" = Some (PFloat kd)).
Proof.
  intros Hc Hen Hki Hkd Hp m.
  assert (Hs : forall key : string,
             key = "pid_enabled_a" \/ key = "pid_kp_a" \/ key = "pid_ki_a"
             \/ key = "pid_kd_a" -> setting key)
    by (intros key H; apply setting_pid; tauto).
  split.
  - intros -> -> Hxi Hxd.
    destruct (setting_write s id "pid_enabled_a" dev (PBool enabled)
                (PBool true) Hc (Hs _ (or_introl eq_refl)) Hen eq_refl)
      as (s1 & dev1 & Hrun1 & Hc1 & Hv1 & Hrest1 & _).
    assert (Hki1 : dev1 !! "pid_ki_a" = Some (PFloat ki))
      by (rewrite Hrest1 by (try apply Hs; auto; discriminate); exact Hki).
    destruct (setting_write s1 id "pid_ki_a" dev1 (PFloat ki) (PFloat xi)
                Hc1 (Hs _ (or_intror (or_intror (or_introl eq_refl))))
                Hki1 eq_refl)
      as (s2 & dev2 & Hrun2 & Hc2 & Hv2 & Hrest2 & _).
    assert (Hkd2 : dev2 !! "pid_kd_a" = Some (PFloat kd)).
    { rewrite Hrest2, Hrest1 by (try apply Hs; auto; discriminate).
      exact Hkd. }
    destruct (setting_write s2 id "pid_kd_a" dev2 (PFloat kd) (PFloat xd)
                Hc2 (Hs _ (or_intror (or_intror (or_intror eq_refl))))
                Hkd2 eq_refl)
      as (s3 & dev3 & Hrun3 & Hc3 & Hv3 & Hrest3 & _).
    exists s3, dev3.
    split; [| split; [exact Hc3 | split; [| split; [| split]]]].
    + unfold Motor.set_pid. rewrite Hp.
      cbn [py_truthy orb negb].
      rewrite !bool_decide_eq_false_2 by assumption. cbn [negb orb].
      unfold Motor._set.
      cbn [Motor._controller Motor._motor m robot_set_value
           MockRobot.runtime String.append].
      mstep by (exact Hrun1).
      mstep.
      mstep by (exact Hrun2).
      mstep by (exact Hrun3).
      reflexivity.
    + rewrite Hrest3, Hrest2 by (try apply Hs; auto; discriminate).
      exact Hv1.
    + rewrite Hrest3, Hrest2, Hrest1
        by (try apply Hs; auto 6; discriminate).
      reflexivity.
    + rewrite Hrest3 by (try apply Hs; auto; discriminate). exact Hv2.
    + exact Hv3.
  - intros Hi Hd.
    destruct (setting_write s id "pid_enabled_a" dev (PBool enabled)
                (PBool false) Hc (Hs _ (or_introl eq_refl)) Hen eq_refl)
      as (s1 & dev1 & Hrun1 & Hc1 & Hv1 & Hrest1 & _).
    exists s1, dev1.
    split; [| split; [exact Hc1 | split; [exact Hv1 | split; [| split]]]].
    + unfold Motor.set_pid. rewrite Hp, Hi, Hd. cbn [orb negb].
      unfold Motor._set.
      cbn [Motor._controller Motor._motor m robot_set_value
           MockRobot.runtime String.append].
      mstep by (exact Hrun1).
      reflexivity.
    + apply Hrest1; [apply Hs; auto | discriminate].
    + rewrite Hrest1 by (try apply Hs; auto; discriminate). exact Hki.
    + rewrite Hrest1 by (try apply Hs; auto; discriminate). exact Hkd.
Qed.

End ConfiguringOnMockRobot.

(* ===================================================================== *)
(** ** Building a test chassis *)
(* ===================================================================== *)

Section BuildingATestChassis.

Context {W : Type} {runtime : Runtime W} {ext : Externals W}.

Local Open Scope R_scope.

Lemma robot_type_index (robot_type : string) (i : Z) :
  TestChassis.index robot_type TestChassis._robot_types = Some i ->
  (robot_type = "light" /\ i = 0%Z)
  \/ (robot_type = "medium" /\ i = 1%Z)
  \/ (robot_type = "heavy" /\ i = 2%Z).
Proof.
  unfold TestChassis._robot_types. cbn [TestChassis.index].
  destruct (String.eqb_spec "light" robot_type) as [<- | _];
    [intros [= <-]; tauto |].
  destruct (String.eqb_spec "medium" robot_type) as [<- | _];
    [intros [= <-]; tauto |].
  destruct (String.eqb_spec "heavy" robot_type) as [<- | _];
    [intros [= <-]; tauto |].
  discriminate.
Qed.

(** The motors of the chassis, as [__init__] configures them. *)
Lemma test_chassis_init_runs (starting_position : R * R)
    (starting_angle : R) (robot_type : string) (w w1 w2 : W)
    (left right : Motor.t) :
  Motor.set_invert (Motor.init "koala_bear" "a") false w = (Ok left, w1) ->
  Motor.set_invert (Motor.init "koala_bear" "b") true w1 = (Ok right, w2) ->
  TestChassis.init starting_position starting_angle robot_type w
  = match TestChassis.index robot_type TestChassis._robot_types with
    | None => (Raise ValueError, w2)
    | Some i =>
        (Ok (TestChassis.mk
               (BaseQueuedChassis.init starting_position starting_angle)
               (LRStruct.mk left right) (LRStruct.mk 0 0) None
               (inches_to_meters ((8 - IZR (i + 3)) / 5 * 0.05413))
               (inches_to_meters (IZR (i + 3) / 5 * 1.236))),
         w2)
    end.
Proof.
  intros Hl Hr. unfold TestChassis.init.
  mstep by (exact Hl). mstep by (exact Hr).
  destruct (TestChassis.index robot_type TestChassis._robot_types);
    reflexivity.
Qed.

(** X25.  [TestChassis.__init__] accepts the robot types ["light"], ["medium"]
    and ["heavy"], and for these builds an idle chassis with an empty queue
    whose maximal acceleration and velocity are [inches_to_meters] of [(8 - n)
    / 5 * 0.05413] and of [n / 5 * 1.236] for [n] = 3, 4, 5: both positive
    where [inches_to_meters] keeps the sign. It configures the two motors
    before it looks at the robot type: with any other type it raises
    [ValueError] on a robot whose motors are already set up. *)
Theorem test_chassis_init_checks_the_type_last
    (starting_position : R * R) (starting_angle : R) (robot_type : string)
    (w : W) :
  (forall x : R, 0 < x -> 0 < inches_to_meters x) ->
  (forall (c : TestChassis.t) (w' : W),
      TestChassis.init starting_position starting_angle robot_type w
      = (Ok c, w') ->
      exists n : Z,
        ((robot_type = "light" /\ n = 3%Z)
         \/ (robot_type = "medium" /\ n = 4%Z)
         \/ (robot_type = "heavy" /\ n = 5%Z))
        /\ TestChassis._max_acceleration c
           = inches_to_meters ((8 - IZR n) / 5 * 0.05413)
        /\ TestChassis._max_velocity c
           = inches_to_meters (IZR n / 5 * 1.236)
        /\ 0 < TestChassis._max_acceleration c
        /\ 0 < TestChassis._max_velocity c
        /\ TestChassis._base c
           = BaseQueuedChassis.init starting_position starting_angle
        /\ TestChassis._motion_start_timestamp c = None)
  /\ (forall (w1 w2 : W) (left right : Motor.t),
        Motor.set_invert (Motor.init "koala_bear" "a") false w
        = (Ok left, w1) ->
        Motor.set_invert (Motor.init "koala_bear" "b") true w1
        = (Ok right, w2) ->
        robot_type <> "light" -> robot_type <> "medium" ->
        robot_type <> "heavy" ->
        TestChassis.init starting_position starting_angle robot_type w
        = (Raise ValueError, w2)).
Proof.
  intros Hsign. split.
  - intros c w' Hrun.
    unfold TestChassis.init in Hrun.
    apply bind_inv in Hrun. destruct Hrun as (left & w1 & Hl & Hrun).
    apply bind_inv in Hrun. destruct Hrun as (right & w2 & Hr & Hrun).
    destruct (TestChassis.index robot_type TestChassis._robot_types)
      as [i |] eqn:Hi; [| discriminate].
    injection Hrun as <- _.
    cbn [TestChassis._max_acceleration TestChassis._max_velocity
         TestChassis._base TestChassis._motion_start_timestamp].
    exists (i + 3)%Z.
    assert (Hn : (i + 3 = 3 \/ i + 3 = 4 \/ i + 3 = 5)%Z).
    { destruct (robot_type_index _ _ Hi) as [[_ ->] | [[_ ->] | [_ ->]]];
        lia. }
    split.
    { destruct (robot_type_index _ _ Hi) as [[-> ->] | [[-> ->] | [-> ->]]];
        tauto. }
    split; [reflexivity |]. split; [reflexivity |].
    split; [| split; [| split; reflexivity]].
    + apply Hsign. destruct Hn as [-> | [-> | ->]]; lra.
    + apply Hsign. destruct Hn as [-> | [-> | ->]]; lra.
  - intros w1 w2 left right Hl Hr Hlight Hmedium Hheavy.
    rewrite (test_chassis_init_runs _ _ _ _ _ _ _ _ Hl Hr).
    destruct (TestChassis.index robot_type TestChassis._robot_types)
      as [i |] eqn:Hi; [| reflexivity].
    destruct (robot_type_index _ _ Hi) as [[H _] | [[H _] | [H _]]];
      contradiction.
Qed.

End BuildingATestChassis.

Section MoreWitnesses.

Import MockRobot BaseQueuedChassis.

Local Open Scope R_scope.

Lemma queueing_a_motion_witness :
  exists s1 : TestChassis.t * MockRobot.t,
    orient (variant := TestChassis.variant (runtime := Bench.runtime)) 1
      (Bench.light_chassis, Bench.robot)
    = (Ok tt, s1)
    /\ TestChassis._base (fst s1)
       = mk [QueuedMotion.mk (QueuedMotion.Turn (1 - 0)) None] (0, 0) 1 true
    /\ snd s1 = Bench.robot.
Proof.
  exact (proj1 (proj2
           (queueing_a_motion
              (variant := TestChassis.variant (runtime := Bench.runtime))
              (fun _ _ => eq_refl) (Bench.light_chassis, Bench.robot)
              1 (1, 1) false tt))).
Defined.

Lemma orient_twice_queues_zero_turn_witness :
  exists (s1 s2 : TestChassis.t * MockRobot.t) (zero : R),
    orient (variant := TestChassis.variant (runtime := Bench.runtime)) 1
      (Bench.light_chassis, Bench.robot)
    = (Ok tt, s1)
    /\ orient (variant := TestChassis.variant (runtime := Bench.runtime)) 1
         s1
       = (Ok tt, s2)
    /\ _queue (TestChassis._base (fst s2))
       = [QueuedMotion.mk (QueuedMotion.Turn (1 - 0)) None;
          QueuedMotion.mk (QueuedMotion.Turn zero) None]
    /\ zero = 0
    /\ _angle (TestChassis._base (fst s2)) = 1.
Proof.
  exact (orient_twice_queues_zero_turn
           (variant := TestChassis.variant (runtime := Bench.runtime))
           (fun _ _ => eq_refl) (Bench.light_chassis, Bench.robot) 1).
Defined.

Lemma estimated_time_saturates_witness :
  Rabs 0 <= square_max
  /\ 2 * TestChassis._max_acceleration Bench.light_chassis <= float_max
  /\ exists t t' : R,
       TestChassis._estimate_travel_time 0 1 false
         (Bench.light_chassis, Bench.robot)
       = (Ok (t, t), (Bench.light_chassis, Bench.robot))
       /\ TestChassis._estimate_travel_time 0 2 false
            (Bench.light_chassis, Bench.robot)
          = (Ok (t', t'), (Bench.light_chassis, Bench.robot))
       /\ t <= TestChassis._max_velocity Bench.light_chassis
               / TestChassis._max_acceleration Bench.light_chassis
       /\ t <= t'.
Proof.
  assert (Hsquare : Rabs 0 <= square_max).
  { pose proof square_max_large. rewrite Rabs_R0. lra. }
  split; [exact Hsquare |].
  split; [exact light_chassis_acceleration_double |].
  destruct (estimated_time_saturates
              Bench.light_chassis Bench.robot 0 1 2
              light_chassis_acceleration
              (Rlt_le _ _ light_chassis_velocity)
              Hsquare light_chassis_acceleration_double)
    as (t & t' & Hrun & _ & Hrun' & Hcap & _ & Hmono).
  exists t, t'. split; [exact Hrun |]. split; [exact Hrun' |].
  split; [exact Hcap |].
  apply Hmono. rewrite !Rabs_pos_eq; lra.
Defined.

Lemma action_runs_after_a_pop_only_witness :
  fst (update (variant := TestChassis.variant (runtime := Bench.runtime))
         (Bench.test_chassis [Bench.done_action] true None, Bench.robot))
  = Ok tt
  /\ snd (snd (update
                 (variant := TestChassis.variant (runtime := Bench.runtime))
                 (Bench.test_chassis [Bench.done_action] true None,
                  Bench.robot)))
     = Bench.robot.
Proof.
  exact (proj1 (action_runs_after_a_pop_only (runtime := Bench.runtime)
                  (Bench.test_chassis [Bench.done_action] true None)
                  Bench.robot Bench.done_action false eq_refl)
           eq_refl).
Defined.

(** The servo robot in use, seen from the hand. *)
Lemma servo_robot_in_use_servo :
  _devices Bench.servo_robot_in_use !! "sc" = Some servocontroller_defaults
  /\ _device_types Bench.servo_robot_in_use !! "sc"
     = Some "servocontroller".
Proof. rewrite servo_robot_in_use_holds. split; reflexivity. Qed.

Lemma bench_hand_in_range (z : Z) :
  (Z.abs z <= 3600)%Z ->
  float_range (Hand._position Bench.hand) /\ float_range (PInt z).
Proof.
  intros Hz. cbn. unfold float_max_int. lia.
Qed.

Lemma hand_moves_from_remembered_position_witness :
  Hand.update_input (runtime := Bench.runtime) (PInt 1)
    (Bench.hand, Bench.servo_robot_in_use)
  = (fst (Servo.set_position (runtime := Bench.runtime)
            (Hand._servo Bench.hand) (PFloat (0 + 1 * (5 / 90)))
            Bench.servo_robot_in_use),
     (match fst (Servo.set_position (runtime := Bench.runtime)
                   (Hand._servo Bench.hand) (PFloat (0 + 1 * (5 / 90)))
                   Bench.servo_robot_in_use) with
      | Ok _ =>
          Hand.set_position_attr (PFloat (0 + 1 * (5 / 90))) Bench.hand
      | Raise _ => Bench.hand
      end,
      snd (Servo.set_position (runtime := Bench.runtime)
             (Hand._servo Bench.hand) (PFloat (0 + 1 * (5 / 90)))
             Bench.servo_robot_in_use))).
Proof.
  destruct (bench_hand_in_range 1 ltac:(lia)) as [Hposition Hstatus].
  exact (proj1 (hand_moves_from_remembered_position
                  (runtime := Bench.runtime) Bench.hand
                  Bench.servo_robot_in_use (PInt 1) 0 1 eq_refl eq_refl
                  Hposition Hstatus)).
Defined.

Lemma hand_position_is_unbounded_witness :
  exists s' : t,
    Hand.update_input (runtime := Bench.runtime) (PInt 3600)
      (Bench.hand, Bench.servo_robot_in_use)
    = (Ok tt,
       (Hand.set_position_attr (PFloat (0 + 3600 * (5 / 90))) Bench.hand,
        s'))
    /\ get_value Bench.clock "sc" "servo0" s'
       = (Ok (PFloat (0 + 3600 * (5 / 90))), s')
    /\ clock_reads s' = clock_reads Bench.servo_robot_in_use.
Proof.
  destruct servo_robot_in_use_servo as [Hd Hty].
  destruct (bench_hand_in_range 3600 ltac:(lia)) as [Hposition Hstatus].
  exact (hand_position_is_unbounded Bench.clock Bench.hand
           Bench.servo_robot_in_use "sc" "0" servocontroller_defaults
           (PFloat 0.0) (PInt 3600) 0 3600 eq_refl Hd Hty eq_refl eq_refl
           eq_refl eq_refl Hposition Hstatus).
Defined.

(** The robot in use, as a controller with its settings. *)
Lemma robot_in_use_controller :
  exists dev : gmap string pyval,
    controller Bench.robot_in_use "kb" dev
    /\ forall k : string, setting k -> dev !! k = koalabear_defaults !! k.
Proof.
  assert (Hb : Rabs 0.0 <= 1) by (rewrite Rabs_pos_eq; lra).
  pose proof (get_value_checked Bench.clock Bench.robot _ "kb" "velocity_a"
                _ _ _ _ _ _ (PFloat 0.0)
                (bench_check_creates "velocity_a" eq_refl) eq_refl eq_refl
                (created_koalabear (Bench.clock 0)) Hb Hb eq_refl) as Hrun.
  unfold Bench.robot_in_use. rewrite Hrun. cbn [snd].
  eexists. split; [split; [apply accessed_lookup | split] |].
  - apply accessed_type. reflexivity.
  - do 5 eexists. split; [| split; [exact Hb | exact Hb]].
    apply integrate_koalabear, created_koalabear.
  - intros k (Hint & _ & _). unfold integrated in Hint.
    rewrite integrate_other by tauto.
    rewrite lookup_insert_ne by (intros <-; tauto). reflexivity.
Qed.

Lemma zero_gain_is_not_written_witness :
  exists (s' : t) (dev dev' : gmap string pyval),
    controller Bench.robot_in_use "kb" dev
    /\ Motor.set_pid (runtime := Bench.runtime) (Motor.mk "kb" "a" false)
         PNone (PFloat 0.1) (PFloat 0.2) Bench.robot_in_use
       = (Ok (Motor.mk "kb" "a" false), s')
    /\ controller s' "kb" dev'
    /\ dev' !! "pid_enabled_a" = Some (PBool true)
    /\ dev' !! "pid_kp_a" = dev !! "pid_kp_a"
    /\ dev' !! "pid_ki_a" = Some (PFloat 0.1)
    /\ dev' !! "pid_kd_a" = Some (PFloat 0.2).
Proof.
  destruct robot_in_use_controller as (dev & Hc & Hall).
  assert (Hen : dev !! "pid_enabled_a" = Some (PBool true))
    by (rewrite Hall by (apply setting_pid; tauto); reflexivity).
  assert (Hki : dev !! "pid_ki_a" = Some (PFloat 0.035))
    by (rewrite Hall by (apply setting_pid; tauto); reflexivity).
  assert (Hkd : dev !! "pid_kd_a" = Some (PFloat 0.0))
    by (rewrite Hall by (apply setting_pid; tauto); reflexivity).
  destruct (proj1 (zero_gain_is_not_written Bench.clock Bench.robot_in_use
                     "kb" false dev PNone (PFloat 0.1) (PFloat 0.2) true
                     0.035 0.0 0.1 0.2 Hc Hen Hki Hkd eq_refl)
              eq_refl eq_refl)
    as (s' & dev' & Hrun & Hc' & Hrest); [lra | lra |].
  exists s', dev, dev'. split; [exact Hc |]. split; [exact Hrun |].
  split; [exact Hc' | exact Hrest].
Defined.

(** The two motors of the test chassis, set up on the robot of the
    bench. *)
Lemma bench_set_inverts :
  exists w1 w2 : MockRobot.t,
    Motor.set_invert (runtime := Bench.runtime)
      (Motor.init "koala_bear" "a") false Bench.robot
    = (Ok (Motor.mk "koala_bear" "a" false), w1)
    /\ Motor.set_invert (runtime := Bench.runtime)
         (Motor.init "koala_bear" "b") true w1
       = (Ok (Motor.mk "koala_bear" "b" true), w2).
Proof.
  assert (Hb : Rabs 0.0 <= 1) by (rewrite Rabs_pos_eq; lra).
  pose proof (check_property_creates Bench.clock Bench.robot "koala_bear"
                "invert_a" 1 0 eq_refl eq_refl eq_refl eq_refl eq_refl)
    as Hcheck.
  set (s1 := MockRobot.mk _ _ _ _ _) in Hcheck.
  assert (Hc1 : controller s1 "koala_bear"
                  (<["_LAST_UPDATED" := PFloat (Bench.clock 0)]>
                     koalabear_defaults)).
  { split; [apply lookup_insert_eq |].
    split; [apply lookup_insert_eq |].
    do 5 eexists. split; [apply created_koalabear | split; exact Hb]. }
  destruct (setting_write_checked Bench.clock Bench.robot s1 "koala_bear"
              "invert_a" _ (PBool false) (PBool false) Hcheck Hc1
              (setting_pid "invert_a" ltac:(auto 10)) eq_refl eq_refl)
    as (w1 & dev1 & Hrun1 & Hcw1 & _ & Hrest1 & _).
  assert (Hib : dev1 !! "invert_b" = Some (PBool false)).
  { rewrite Hrest1; [reflexivity | | discriminate].
    apply setting_pid. auto 10. }
  destruct (setting_write Bench.clock w1 "koala_bear" "invert_b" dev1
              (PBool false) (PBool true) Hcw1
              (setting_pid "invert_b" ltac:(auto 10)) Hib eq_refl)
    as (w2 & dev2 & Hrun2 & _).
  exists w1, w2. split.
  - unfold Motor.set_invert, Motor._set, Motor.init.
    cbn [Motor._controller Motor._motor robot_set_value Bench.runtime
         MockRobot.runtime String.append].
    mstep by (exact Hrun1). reflexivity.
  - unfold Motor.set_invert, Motor._set, Motor.init.
    cbn [Motor._controller Motor._motor robot_set_value Bench.runtime
         MockRobot.runtime String.append].
    mstep by (exact Hrun2). reflexivity.
Qed.

Lemma bench_inches_keep_sign (x : R) :
  0 < x -> 0 < inches_to_meters (Externals := Bench.externals) x.
Proof.
  intros Hx. cbn [inches_to_meters Bench.externals].
  unfold Bench.inches_to_meters. lra.
Qed.

Lemma test_chassis_init_checks_the_type_last_witness :
  exists (c : TestChassis.t) (w' : MockRobot.t),
    TestChassis.init (runtime := Bench.runtime) (0, 0) 0 "light" Bench.robot
    = (Ok c, w')
    /\ TestChassis._max_acceleration c
       = inches_to_meters (Externals := Bench.externals)
           ((8 - 3) / 5 * 0.05413)
    /\ TestChassis._max_velocity c
       = inches_to_meters (Externals := Bench.externals) (3 / 5 * 1.236)
    /\ 0 < TestChassis._max_acceleration c
    /\ 0 < TestChassis._max_velocity c.
Proof.
  destruct bench_set_inverts as (w1 & w2 & Hl & Hr).
  pose proof (test_chassis_init_runs (runtime := Bench.runtime) (0, 0) 0
                "light" Bench.robot w1 w2 _ _ Hl Hr) as Hrun.
  cbn [TestChassis.index TestChassis._robot_types String.eqb Ascii.eqb
       Bool.eqb] in Hrun.
  destruct (proj1 (test_chassis_init_checks_the_type_last
                     (runtime := Bench.runtime) (0, 0) 0 "light"
                     Bench.robot bench_inches_keep_sign) _ _ Hrun)
    as (n & Hn & Ha & Hv & Hapos & Hvpos & _).
  assert (Hn3 : n = 3%Z)
    by (destruct Hn as [[_ ->] | [[H _] | [H _]]];
        [reflexivity | discriminate | discriminate]).
  subst n.
  eexists. eexists. split; [exact Hrun |]. split; [exact Ha |].
  split; [exact Hv |]. split; [exact Hapos | exact Hvpos].
Defined.

End MoreWitnesses.

(* ===================================================================== *)
(** ** Building a quad chassis *)
(* ===================================================================== *)

Section BuildingAQuadChassis.

Import MockRobot.

Variable clock : nat -> R.

Context {ext : Externals MockRobot.t}.

Local Open Scope R_scope.

(** X26.  [QuadChassis.__init__] on a robot that has not seen the drive
    controller and allows one more koalabear: it returns an idle chassis with
    an empty queue, and the four writes of the two motors make one controller,
    counted once, with the PID of both motors off, motor [a] (the right one)
    inverted and motor [b] (the left one) not. *)
Theorem quad_chassis_init_configures_one_controller
    (starting_position : R * R) (starting_angle : R) (s : t)
    (limit count : Z) :
  let id := QuadChassis._drive_controller_id in
  _devices s !! id = None ->
  _max_devices s !! "koalabear" = Some limit ->
  _device_counts s !! "koalabear" = Some count ->
  (count < limit)%Z ->
  exists (s' : t) (dev : gmap string pyval),
    QuadChassis.init (runtime := MockRobot.runtime clock)
      starting_position starting_angle s
    = (Ok (QuadChassis.mk
             (BaseQueuedChassis.init starting_position starting_angle)
             (LRStruct.mk (Motor.mk id "b" false) (Motor.mk id "a" true))
             (LRStruct.mk
                (Wheel.init (Motor.mk id "b" false) (inches_to_meters 2)
                   QuadChassis._ticks_per_rotation)
                (Wheel.init (Motor.mk id "a" true) (inches_to_meters 2)
                   QuadChassis._ticks_per_rotation))),
       s')
    /\ controller s' id dev
    /\ dev !! "pid_enabled_a" = Some (PBool false)
    /\ dev !! "pid_enabled_b" = Some (PBool false)
    /\ dev !! "invert_a" = Some (PBool true)
    /\ dev !! "invert_b" = Some (PBool false)
    /\ _device_counts s' !! "koalabear" = Some (count + 1)%Z.
Proof.
  intros id Hnone Hmax Hcount Hlt.
  assert (Hb : Rabs 0.0 <= 1) by (rewrite Rabs_pos_eq; lra).
  pose proof (check_property_creates clock s id "pid_enabled_b" limit count
                Hnone eq_refl Hmax Hcount Hlt) as Hcheck.
  set (s0 := MockRobot.mk _ _ _ _ _) in Hcheck.
  set (dev0 := <["_LAST_UPDATED" := PFloat (clock (clock_reads s))]>
                 koalabear_defaults).
  assert (Hc0 : controller s0 id dev0).
  { split; [apply lookup_insert_eq |].
    split; [apply lookup_insert_eq |].
    do 5 eexists. split; [apply created_koalabear | split; exact Hb]. }
  assert (Hs : forall key : string,
             key = "pid_enabled_a" \/ key = "pid_enabled_b"
             \/ key = "invert_a" \/ key = "invert_b" -> setting key)
    by (intros key H; apply setting_pid; tauto).
  destruct (setting_write_checked clock s s0 id "pid_enabled_b" dev0
              (PBool true) (PBool false) Hcheck Hc0
              (Hs "pid_enabled_b" ltac:(auto))
              eq_refl eq_refl)
    as (s1 & dev1 & Hrun1 & Hc1 & Hv1 & Hrest1 & Hcount1).
  assert (Hib1 : dev1 !! "invert_b" = Some (PBool false)).
  { rewrite Hrest1; [reflexivity | apply Hs; auto | discriminate]. }
  destruct (setting_write clock s1 id "invert_b" dev1 (PBool false)
              (PBool false) Hc1 (Hs "invert_b" ltac:(auto)) Hib1 eq_refl)
    as (s2 & dev2 & Hrun2 & Hc2 & Hv2 & Hrest2 & Hcount2).
  assert (Hpa2 : dev2 !! "pid_enabled_a" = Some (PBool true)).
  { rewrite Hrest2, Hrest1;
      [reflexivity | apply Hs; auto | discriminate | apply Hs; auto
      | discriminate]. }
  destruct (setting_write clock s2 id "pid_enabled_a" dev2 (PBool true)
              (PBool false) Hc2 (Hs "pid_enabled_a" ltac:(auto)) Hpa2 eq_refl)
    as (s3 & dev3 & Hrun3 & Hc3 & Hv3 & Hrest3 & Hcount3).
  assert (Hia3 : dev3 !! "invert_a" = Some (PBool false)).
  { rewrite Hrest3, Hrest2, Hrest1;
      [reflexivity | apply Hs; auto | discriminate | apply Hs; auto
      | discriminate | apply Hs; auto | discriminate]. }
  destruct (setting_write clock s3 id "invert_a" dev3 (PBool false)
              (PBool true) Hc3 (Hs "invert_a" ltac:(auto)) Hia3 eq_refl)
    as (s4 & dev4 & Hrun4 & Hc4 & Hv4 & Hrest4 & Hcount4).
  exists s4, dev4.
  split; [| split; [exact Hc4 | split; [| split; [| split; [| split]]]]].
  - unfold QuadChassis.init, Motor.set_pid, Motor.set_invert, Motor._set,
      Motor.init.
    cbn [py_truthy orb negb Motor._controller Motor._motor robot_set_value
         MockRobot.runtime String.append].
    fold id.
    mstep by (mstep by (exact Hrun1); reflexivity).
    mstep by (cbn [Motor._controller Motor._motor String.append];
              mstep by (exact Hrun2); reflexivity).
    mstep by (mstep by (exact Hrun3); reflexivity).
    mstep by (cbn [Motor._controller Motor._motor String.append];
              mstep by (exact Hrun4); reflexivity).
    reflexivity.
  - rewrite Hrest4; [exact Hv3 | apply Hs; auto | discriminate].
  - rewrite Hrest4, Hrest3, Hrest2;
      [exact Hv1 | apply Hs; auto | discriminate | apply Hs; auto
      | discriminate | apply Hs; auto | discriminate].
  - exact Hv4.
  - rewrite Hrest4, Hrest3;
      [exact Hv2 | apply Hs; auto | discriminate | apply Hs; auto
      | discriminate].
  - rewrite Hcount4, Hcount3, Hcount2, Hcount1.
    unfold s0. cbn. apply lookup_insert_eq.
Qed.

End BuildingAQuadChassis.

Section QuadChassisWitness.

Import MockRobot.

Lemma quad_chassis_init_configures_one_controller_witness :
  exists (c : QuadChassis.t) (s' : t) (dev : gmap string pyval),
    QuadChassis.init (runtime := Bench.runtime) (0, 0)%R 0%R Bench.robot
    = (Ok c, s')
    /\ controller s' QuadChassis._drive_controller_id dev
    /\ dev !! "pid_enabled_a" = Some (PBool false)
    /\ dev !! "pid_enabled_b" = Some (PBool false)
    /\ dev !! "invert_a" = Some (PBool true)
    /\ dev !! "invert_b" = Some (PBool false)
    /\ _device_counts s' !! "koalabear" = Some (0 + 1)%Z.
Proof.
  destruct (quad_chassis_init_configures_one_controller Bench.clock
              (ext := Bench.externals) (0, 0)%R 0%R Bench.robot 1 0
              eq_refl eq_refl eq_refl eq_refl)
    as (s' & dev & Hrun & Hrest).
  eexists. exists s', dev. split; [exact Hrun | exact Hrest].
Defined.

End QuadChassisWitness.
